(** * Verification of the asset packer ([packer/packer.py])

    A shallow embedding of the dependency walker ([FilePath.visit_from_blend]),
    the expansion rules ([ExpandID]), the path helper ([utils.abspath]) and
    the packaging driver ([pack]), followed by the properties of the
    natural-language specification that concern them.

    Python [bytes] values are modelled as [string] (a sequence of 8-bit
    characters); Python dictionaries and sets that are only looked up as
    [gmap] and [gset]; dictionaries and sets that the code iterates over as
    duplicate-free lists in insertion order.  Python does not fix the order
    in which a [set] is iterated: where [pack] loops over one of its sets,
    the order is a parameter of the model ([SetOrder]). *)

From Stdlib Require Import ZArith String Ascii List Lia.
From stdpp Require Import base option gmap strings list.

Open Scope string_scope.
Open Scope Z_scope.

Abbreviation bytes := string.

(** ** Python [bytes] operations used by the packer *)

Module Bytes.

  (** [s.startswith(p)] *)
Fixpoint startswith (p s : bytes) : bool :=
    match p, s with
    | EmptyString, _ => true
    | String a p', String b s' => if Ascii.eqb a b then startswith p' s' else false
    | String _ _, EmptyString => false
    end.

  (** [s.endswith(p)] for a one-byte [p] *)
Fixpoint endswith1 (c : ascii) (s : bytes) : bool :=
    match s with
    | EmptyString => false
    | String a EmptyString => Ascii.eqb a c
    | String _ s' => endswith1 c s'
    end.

  (** [s[n:]] *)
Fixpoint drop (n : nat) (s : bytes) : bytes :=
    match n, s with
    | O, _ => s
    | S n', String _ s' => drop n' s'
    | S _, EmptyString => EmptyString
    end.

  (** [s[:n]] *)
Fixpoint take (n : nat) (s : bytes) : bytes :=
    match n, s with
    | O, _ => EmptyString
    | S n', String a s' => String a (take n' s')
    | S _, EmptyString => EmptyString
    end.

  (** [s[:-1]] *)
Definition drop_last (s : bytes) : bytes :=
    take (Nat.pred (String.length s)) s.

  (** [s.split(sep)] for a one-byte separator: never empty. *)
Fixpoint split (sep : ascii) (s : bytes) : list bytes :=
    match s with
    | EmptyString => [EmptyString]
    | String a s' =>
        if Ascii.eqb a sep then EmptyString :: split sep s'
        else match split sep s' with
             | [] => [String a EmptyString]
             | h :: r => String a h :: r
             end
    end.

  (** [l[-1]] on the result of a split *)
Definition last (l : list bytes) : bytes := List.last l EmptyString.

  (** [c in s] *)
Fixpoint mem (c : ascii) (s : bytes) : bool :=
    match s with
    | EmptyString => false
    | String a s' => Ascii.eqb a c || mem c s'
    end.

  (** [s.rfind(c)]: index of the last occurrence, [-1] when there is none. *)
Fixpoint rfind_from (c : ascii) (s : bytes) (i : Z) (found : Z) : Z :=
    match s with
    | EmptyString => found
    | String a s' => rfind_from c s' (i + 1) (if Ascii.eqb a c then i else found)
    end.

Definition rfind (c : ascii) (s : bytes) : Z := rfind_from c s 0 (-1).

  (** [s.rstrip(c)] for a one-byte [c] *)
Fixpoint rstrip (c : ascii) (s : bytes) : bytes :=
    match s with
    | EmptyString => EmptyString
    | String a s' =>
        match rstrip c s' with
        | EmptyString => if Ascii.eqb a c then EmptyString else String a EmptyString
        | r => String a r
        end
    end.

  (** [s == c * len(s)] *)
Fixpoint all_eq (c : ascii) (s : bytes) : bool :=
    match s with
    | EmptyString => true
    | String a s' => Ascii.eqb a c && all_eq c s'
    end.

End Bytes.

Definition slash : ascii := "/"%char.
Definition backslash : ascii := "\"%char.

(** ** The functions of [os.path] (POSIX flavour) that the packer calls *)

Module os_path.

  (** [os.path.join(a, b)] *)
Definition join (a b : bytes) : bytes :=
    if Bytes.startswith "/" b then b
    else if (String.eqb a "" || Bytes.endswith1 slash a)%bool then a ++ b
    else a ++ "/" ++ b.

  (** [os.path.basename(p)] *)
Definition basename (p : bytes) : bytes :=
    Bytes.drop (Z.to_nat (Bytes.rfind slash p + 1)) p.

  (** [os.path.dirname(p)] *)
Definition dirname (p : bytes) : bytes :=
    let head := Bytes.take (Z.to_nat (Bytes.rfind slash p + 1)) p in
    if (negb (String.eqb head "") && negb (Bytes.all_eq slash head))%bool
    then Bytes.rstrip slash head
    else head.

  (** [os.path.normpath(p)]: the component stack of the standard library. *)
Fixpoint norm_comps (initial_slashes : bool) (comps new_comps : list bytes)
    : list bytes :=
    match comps with
    | [] => new_comps
    | comp :: rest =>
        if (String.eqb comp "" || String.eqb comp ".")%bool
        then norm_comps initial_slashes rest new_comps
        else if (negb (String.eqb comp "..")
                 || (negb initial_slashes && Nat.eqb (length new_comps) 0)
                 || (negb (Nat.eqb (length new_comps) 0)
                     && String.eqb (List.last new_comps "") ".."))%bool
        then norm_comps initial_slashes rest (new_comps ++ [comp])
        else norm_comps initial_slashes rest (removelast new_comps)
    end.

Fixpoint join_comps (comps : list bytes) : bytes :=
    match comps with
    | [] => ""
    | [c] => c
    | c :: rest => c ++ "/" ++ join_comps rest
    end.

Definition normpath (p : bytes) : bytes :=
    if String.eqb p "" then "."
    else
      let initial := Bytes.startswith "/" p in
      let two := (Bytes.startswith "//" p && negb (Bytes.startswith "///" p))%bool in
      let comps := norm_comps initial (Bytes.split slash p) [] in
      let body := join_comps comps in
      let res := if initial then (if two then "//" else "/") ++ body else body in
      if String.eqb res "" then "." else res.

  (** [os.path.abspath(p)], for a process whose working directory is [cwd]. *)
Definition abspath (cwd p : bytes) : bytes :=
    if Bytes.startswith "/" p then normpath p else normpath (join cwd p).

End os_path.

(** ** [utils.abspath] *)

Module utils.

Definition abspath (path start : bytes) : bytes :=
    if Bytes.startswith "//" path
    then os_path.join start (Bytes.drop 2 path)
    else path.

End utils.

(** ** Exceptions and the state-and-error monad of the embedding *)

(** The Python exceptions that the modelled code can raise. *)
Inductive exn : Type :=
| AttributeError      (* attribute access on [None] *)
| TypeError           (* subscript of [None], or a field of the wrong kind *)
| KeyError            (* missing field, missing dictionary or set entry *)
| AssertionError
| FileNotFoundError   (* open, copy or move of a path that does not exist *)
| IsADirectoryError   (* open of a directory as a file *)
| SameFileError       (* [shutil.copy] of a file onto itself *)
| ShutilError         (* [shutil.Error]: a move into a directory that holds the name *)
| FormatError         (* the path is not a store of the expected format *)
| StructError         (* read of a pointer outside the file *)
| UnsupportedOperation (* write through a read-only handle *)
| Unmodelled.         (* no Python exception: a case that the model leaves out
                         (the move of a directory with what lies below it) *)

(** The outcome of a run: a value, a raised exception, or [OutOfFuel] when
    the fuel that bounds the recursion of the model is used up (the loop over
    a linked list, the expansion of records, the visit of libraries), which
    is not an outcome of the Python code. *)
Inductive result (A : Type) : Type :=
| Ok (a : A)
| Raise (e : exn)
| OutOfFuel.
Arguments Ok {A} a.
Arguments Raise {A} e.
Arguments OutOfFuel {A}.

Definition is_ok {A} (r : result A) : bool :=
  match r with Ok _ => true | _ => false end.

Section Monad.
Context {S : Type}.

Definition M (A : Type) : Type := S -> result (A * S).

Definition ret {A} (a : A) : M A := fun s => Ok (a, s).

Definition bind {A B} (m : M A) (k : A -> M B) : M B :=
    fun s => match m s with
             | Ok (a, s') => k a s'
             | Raise e => Raise e
             | OutOfFuel => OutOfFuel
             end.

Definition raise {A} (e : exn) : M A := fun _ => Raise e.

Definition out_of_fuel {A} : M A := fun _ => OutOfFuel.

Definition gets {A} (f : S -> A) : M A := fun s => Ok (f s, s).

Definition modify (f : S -> S) : M unit := fun s => Ok (tt, f s).

  (** [for x in l: body(x)] with a loop-carried value. *)
Fixpoint foldM {A Acc} (body : A -> Acc -> M Acc) (l : list A) (acc : Acc) : M Acc :=
    match l with
    | [] => ret acc
    | x :: l' => bind (body x acc) (foldM body l')
    end.

  (** [for x in l: body(x)] *)
Fixpoint forM {A} (body : A -> M unit) (l : list A) : M unit :=
    match l with
    | [] => ret tt
    | x :: l' => bind (body x) (fun _ => forM body l')
    end.
End Monad.
Arguments M : clear implicits.

Declare Scope py_scope.
Delimit Scope py_scope with py.
Notation "x <- m ;; k" := (bind m (fun x => k))
  (at level 100, m at next level, right associativity) : py_scope.
Notation "m ;;; k" := (bind m (fun _ => k))
  (at level 100, right associativity) : py_scope.

(** [s.add(x)] on a set that the code later iterates over: a list without
    duplicates, in insertion order. *)
Definition set_add {A} `{EqDecision A} (x : A) (l : list A) : list A :=
  if decide (x ∈ l) then l else l ++ [x].

(** ** Data model: files on disk *)

(** A raw field value of a record: a byte string, or an integer (scalars and
    the addresses of other records). *)
Inductive value : Type :=
| VBytes (b : bytes)
| VInt (n : Z).

#[global] Instance value_eq_dec : EqDecision value.
Proof. solve_decision. Defined.

#[global] Instance value_countable : Countable value :=
  inj_countable'
    (fun v => match v with VBytes b => inl b | VInt n => inr n end)
    (fun s => match s with inl b => VBytes b | inr n => VInt n end)
    (fun v => match v with VBytes _ => eq_refl | VInt _ => eq_refl end).

(** A record as it is stored in a scene file. *)
Record StoredBlock : Type := mkStoredBlock {
  sb_code : bytes;                 (* type tag *)
  sb_addr_old : Z;                 (* the address that identifies the record *)
  sb_file_offset : Z;              (* where its payload starts in the file *)
  sb_fields : gmap bytes value;    (* named fields *)
}.

(** A scene file: its records in store order, the pointer-sized words that
    can be read at a file offset (the payload of pointer arrays), and the
    schema index. *)
Record BlendData : Type := mkBlendData {
  bd_pointer_size : Z;
  bd_blocks : list StoredBlock;
  bd_words : gmap Z Z;
  bd_sdna_index_from_id : gmap bytes Z;
}.

(** What is at a path: a scene file, any other regular file, or a
    directory. *)
Inductive FileContent : Type :=
| BlendContent (d : BlendData)
| RawContent (data : bytes)
| Directory.

(** ** Data model: handles of an open file *)

(** [blendfile.BlendFileBlock]: the attributes read when the file is opened;
    field values are read from (and written to) the file on every access. *)
Record Block : Type := mkBlock {
  index : nat;        (* position of the record in the file *)
  code : bytes;
  addr_old : Z;
  file_offset : Z;
}.

#[global] Instance Block_eq_dec : EqDecision Block.
Proof. solve_decision. Defined.

(** [blendfile.BlendFile] *)
Record BlendFile : Type := mkBlendFile {
  bf_path : bytes;
  bf_readonly : bool;
  bf_blocks : list Block;
  pointer_size : Z;
  sdna_index_from_id : gmap bytes Z;
}.

(** [FilePath]: the record, the name of the field that holds the path and
    the directory the path is relative to.  The record is a handle into the
    open file [fp_file]. *)
Record FilePath : Type := mkFilePath {
  fp_file : BlendFile;
  block : Block;
  path : bytes;
  basedir : bytes;
}.

(** ** The world: file system and output *)

(** What a run leaves behind, in order: the lines it prints ([VERBOSE] is
    [True]) and the operations it performs on files. *)
Inductive Event : Type :=
| PrintOpening (level : nat) (filepath : bytes)
| PrintBlocks (level : nat) (block_codes : option (gset value))
| PrintScanning (code : bytes)
| PrintLibrary (level : nat) (filepath lib_path_abs : bytes)
| PrintLibraryCodes (level : nat) (lib_block_codes : gset value)
| PrintMaterials (array_len : value)
| PrintBlock (item : option Block)
| PrintSourceMissing (src : bytes)
| PrintCopying (src dst : bytes)
| PrintWritten (dst : bytes)
| IoOpen (filepath : bytes) (readonly : bool)
| IoClose (filepath : bytes)
| IoCopy (src dst : bytes)
| IoMove (src dst : bytes).

(** The file system says, for every path string, what that string resolves
    to: a regular file with its content, a directory, or nothing (no
    entry).  A path string is looked up as it is spelled, so a world
    describes a real file system when it lists every spelling that a run
    uses with what is there: a directory [/src] that a run names as [/src/]
    is listed under both spellings.  Two different spellings that resolve to
    a regular file resolve to two different files (no links, no [.] or
    [..]). *)
Record World : Type := mkWorld {
  fs : gmap bytes FileContent;
  cwd : bytes;
  trace : list Event;
}.

Definition with_fs (f : gmap bytes FileContent) (w : World) : World :=
  mkWorld f (cwd w) (trace w).

Definition print (e : Event) : M World unit :=
  modify (fun w => mkWorld (fs w) (cwd w) (trace w ++ [e])).

(** ** [os] and [shutil] on the modelled file system *)

(** [os.path.exists(p)]: true of a regular file and of a directory. *)
Definition os_path_exists (p : bytes) : M World bool :=
  gets (fun w => bool_decide (is_Some (fs w !! p))).

(** [os.path.isdir(p)] *)
Definition isdir (w : World) (p : bytes) : bool :=
  match fs w !! p with
  | Some Directory => true
  | _ => false
  end.

(** The directory in which [p] is to be created exists: the directory part
    of [p], or the working directory when [p] is a plain name. *)
Definition parent_exists (w : World) (p : bytes) : bool :=
  if String.eqb (os_path.dirname p) "" then negb (String.eqb p "")
  else isdir w (os_path.dirname p).

(** [open(p, 'wb')]: the exception it raises, if any.  A directory cannot
    be opened as a file; a regular file that exists is truncated; a new file
    needs the directory it is created in. *)
Definition open_for_writing (w : World) (p : bytes) : option exn :=
  match fs w !! p with
  | Some Directory => Some IsADirectoryError
  | Some _ => None
  | None => if parent_exists w p then None else Some FileNotFoundError
  end.

Module shutil.

  (** The file that [shutil.copy(src, dst)] writes: [dst], or the base name
      of [src] inside [dst] when [dst] is a directory. *)
Definition copy_target (w : World) (src dst : bytes) : bytes :=
    if isdir w dst then os_path.join dst (os_path.basename src) else dst.

  (** [shutil.copy(src, dst)]: [copyfile] refuses to copy a file onto
      itself, then opens the source for reading and the target for
      writing. *)
Definition copy (src dst : bytes) : M World unit :=
    fun w =>
      let target := copy_target w src dst in
      match fs w !! src with
      | None => Raise FileNotFoundError
      | Some c =>
          if decide (src = target) then Raise SameFileError
          else
            match c with
            | Directory => Raise IsADirectoryError
            | _ =>
                match open_for_writing w target with
                | Some e => Raise e
                | None =>
                    Ok (tt, mkWorld (<[target := c]> (fs w)) (cwd w)
                                    (trace w ++ [IoCopy src target]))
                end
            end
      end.

  (** [os.rename(src, dst)] as [shutil.move] uses it, with its fall-back to a
      copy followed by the removal of the source, for a source that is a
      regular file. *)
Definition rename (src dst : bytes) : M World unit :=
    fun w =>
      match fs w !! src with
      | None => Raise FileNotFoundError
      | Some Directory => Raise Unmodelled
      | Some c =>
          match open_for_writing w dst with
          | Some e => Raise e
          | None =>
              Ok (tt, mkWorld (<[dst := c]> (delete src (fs w))) (cwd w)
                              (trace w ++ [IoMove src dst]))
          end
      end.

  (** [shutil.move(src, dst)]: into [dst] when [dst] is a directory, under
      the base name of [src], which must not exist there. *)
Definition move (src dst : bytes) : M World unit :=
    fun w =>
      if isdir w dst then
        if decide (src = dst) then
          Ok (tt, mkWorld (fs w) (cwd w) (trace w ++ [IoMove src dst]))
        else
          let real_dst :=
            os_path.join dst (os_path.basename (Bytes.rstrip slash src)) in
          if bool_decide (is_Some (fs w !! real_dst)) then Raise ShutilError
          else rename src real_dst w
      else rename src dst w.

End shutil.

(** ** The block store *)

Module blendfile.

  (** Modelled from the spec: the block store ([blendfile.open_blend] and
      the [BlendFile] and [BlendFileBlock] classes), which the packer imports
      and which is not among the given sources.  [open(path, mode)] fails
      with an I/O-class error if the path does not exist or is not a file of
      the expected format. *)
Definition open_blend (filepath : bytes) (readonly : bool) : M World BlendFile :=
    fun w =>
      match fs w !! filepath with
      | None => Raise FileNotFoundError
      | Some Directory => Raise IsADirectoryError
      | Some (RawContent _) => Raise FormatError
      | Some (BlendContent d) =>
          Ok (mkBlendFile filepath readonly
                (imap (fun i sb => mkBlock i (sb_code sb) (sb_addr_old sb)
                                     (sb_file_offset sb))
                      (bd_blocks d))
                (bd_pointer_size d) (bd_sdna_index_from_id d),
              mkWorld (fs w) (cwd w) (trace w ++ [IoOpen filepath readonly]))
      end.

  (** Modelled from the spec: [File.close()]. *)
Definition close (blend : BlendFile) : M World unit :=
    print (IoClose (bf_path blend)).

  (** Modelled from the spec: [code_index.keys()], the type tags present in
      the file, in the order of their first record. *)
Definition code_index_keys (blend : BlendFile) : list bytes :=
    fold_left (fun acc b => set_add (code b) acc) (bf_blocks blend) [].

  (** Modelled from the spec: [File.find_by_type(tag)], the records of one
      type tag in store order. *)
Definition find_blocks_from_code (blend : BlendFile) (c : bytes) : list Block :=
    filter (fun b => code b = c) (bf_blocks blend).

  (** Modelled from the spec: [File.find_by_address(address)]; [None] when
      no record has that address (the null address included). *)
Definition find_block_from_offset (blend : BlendFile) (offset : Z) : option Block :=
    List.find (fun b => bool_decide (addr_old b = offset)) (bf_blocks blend).

  (** The stored record behind a handle, in the file as it is now. *)
Definition stored (blend : BlendFile) (b : Block) (w : World) : option StoredBlock :=
    match fs w !! bf_path blend with
    | Some (BlendContent d) => bd_blocks d !! index b
    | _ => None
    end.

  (** Modelled from the spec: [Record[field_name]] (read). *)
Definition get (blend : BlendFile) (b : Block) (field : bytes) : M World value :=
    fun w =>
      match stored blend b w with
      | None => Raise FileNotFoundError
      | Some sb =>
          match sb_fields sb !! field with
          | None => Raise KeyError
          | Some v => Ok (v, w)
          end
      end.

  (** Modelled from the spec: [Record[field_name] = value] (write, only in
      read-write mode). *)
Definition set (blend : BlendFile) (b : Block) (field : bytes) (v : value)
    : M World unit :=
    fun w =>
      if bf_readonly blend then Raise UnsupportedOperation
      else
        match fs w !! bf_path blend with
        | Some (BlendContent d) =>
            match bd_blocks d !! index b with
            | None => Raise FileNotFoundError
            | Some sb =>
                match sb_fields sb !! field with
                | None => Raise KeyError
                | Some _ =>
                    let sb' := mkStoredBlock (sb_code sb) (sb_addr_old sb)
                                 (sb_file_offset sb) (<[field := v]> (sb_fields sb)) in
                    let d' := mkBlendData (bd_pointer_size d)
                                (<[index b := sb']> (bd_blocks d))
                                (bd_words d) (bd_sdna_index_from_id d) in
                    Ok (tt, with_fs (<[bf_path blend := BlendContent d']> (fs w)) w)
                end
            end
        | _ => Raise FileNotFoundError
        end.

  (** Modelled from the spec: [Record.get_pointer(field)], the record at the
      address stored in the field, [None] when the address resolves to no
      record. *)
Definition get_pointer (blend : BlendFile) (b : Block) (field : bytes)
    : M World (option Block) :=
    (v <- get blend b field ;;
     match v with
     | VInt a => ret (find_block_from_offset blend a)
     | VBytes _ => raise TypeError
     end)%py.

  (** Modelled from the spec: [DNA_IO.read_pointer] after a seek to
      [offset]. *)
Definition read_pointer (blend : BlendFile) (offset : Z) : M World Z :=
    fun w =>
      match fs w !! bf_path blend with
      | Some (BlendContent d) =>
          match bd_words d !! offset with
          | Some p => Ok (p, w)
          | None => Raise StructError
          end
      | _ => Raise FileNotFoundError
      end.

End blendfile.

(** Python generators are consumed by [for] loops only; a generator is
    modelled as the loop over it: it takes the loop body, which receives each
    yielded item together with the loop-carried variables of the caller, and
    runs it at every [yield], so that the effects of the body and of the
    generator interleave as they do in Python. *)

(** [range(n)] *)
Definition range (n : Z) : list Z := map Z.of_nat (seq 0 (Z.to_nat n)).

(** ** [bf_utils] *)

Module bf_utils.
Import blendfile.

Section Loops.
Context {Acc : Type}.

Fixpoint iter_ListBase (fuel : nat) (blend : BlendFile) (b : option Block)
        (body : Block -> Acc -> M World Acc) (acc : Acc) : M World Acc :=
      match b with
      | None => ret acc
      | Some blk =>
          match fuel with
          | O => out_of_fuel
          | S fuel' =>
              (acc' <- body blk acc ;;
               nxt <- get_pointer blend blk "next" ;;
               iter_ListBase fuel' blend nxt body acc')%py
          end
      end.

Definition iter_array (blend : BlendFile) (b : option Block) (length : value)
        (body : option Block -> Acc -> M World Acc) (acc : Acc) : M World Acc :=
      match b with
      | None => raise AttributeError
      | Some blk =>
          if decide (code blk = "DATA") then
            match length with
            | VBytes _ => raise TypeError
            | VInt n =>
                foldM (fun i acc =>
                         (offset <- read_pointer blend
                                      (file_offset blk + pointer_size blend * i) ;;
                          body (find_block_from_offset blend offset) acc)%py)
                      (range n) acc
            end
          else raise AssertionError
      end.
End Loops.

End bf_utils.

(** ** [ExpandID]: the expansion rules *)

Module ExpandID.
Import blendfile.

Section Rules.
Context {Acc : Type}.

    (** An expansion rule, as the loop over the records it yields. *)
Definition rule : Type :=
      nat -> BlendFile -> Block ->
      (option Block -> Acc -> M World Acc) -> Acc -> M World Acc.

Definition expand_OB : rule := fun _ blend b body acc =>
      (sub <- get_pointer blend b "data" ;; body sub acc)%py.

Definition expand_ME : rule := fun _ blend b body acc =>
      (array_len <- get blend b "totcol" ;;
       if decide (array_len = VInt 0) then ret acc
       else
         mat <- get_pointer blend b "mat" ;;
         print (PrintMaterials array_len) ;;;
         bf_utils.iter_array blend mat array_len
           (fun item _ => print (PrintBlock item)) tt ;;;
         ret acc)%py.

Definition expand_MA : rule := fun _ blend b body acc =>
      (print (PrintBlock (Some b)) ;;; ret acc)%py.

Definition expand_TE : rule := fun _ blend b body acc => ret acc.

Definition expand_GR : rule := fun fuel blend b body acc =>
      match sdna_index_from_id blend !! "GroupObject" with
      | None => raise KeyError
      | Some sdna_index_GroupObject =>
          (first <- get_pointer blend b "gobject.first" ;;
           bf_utils.iter_ListBase fuel blend first
             (fun gobj acc => (ob <- get_pointer blend gobj "ob" ;; body ob acc))
             acc)%py
      end.

    (** [expand_funcs.get(code)] *)
Definition expand_funcs_get (c : bytes) : option rule :=
      if decide (c = "OB") then Some expand_OB
      else if decide (c = "ME") then Some expand_ME
      else if decide (c = "MA") then Some expand_MA
      else if decide (c = "TE") then Some expand_TE
      else if decide (c = "GR") then Some expand_GR
      else None.
End Rules.
Arguments rule : clear implicits.

End ExpandID.

(** ** The dependency walker: [FilePath.visit_from_blend] *)

(** [lib_visit]: [{lib_path: set([block id's ...])}] *)
Abbreviation registry := (gmap bytes (gset value)).

(** [lib_all.setdefault(lib_path, set()).add(name)] on the dictionary that
    the walker later iterates over. *)
Fixpoint lib_all_add (lib_path name : value) (lib_all : list (value * gset value))
  : list (value * gset value) :=
  match lib_all with
  | [] => [(lib_path, {[name]})]
  | (k, names) :: rest =>
      if decide (k = lib_path) then (k, {[name]} ∪ names) :: rest
      else (k, names) :: lib_all_add lib_path name rest
  end.

(** [utils.abspath] applied to a raw field value. *)
Definition abspath_value (lib_path : value) (start : bytes) : M World bytes :=
  match lib_path with
  | VBytes p => ret (utils.abspath p start)
  | VInt _ => raise AttributeError
  end.

Module FilePathM.
Import blendfile.

  (** [fp.filepath] *)
Definition filepath (fp : FilePath) : M World value :=
    get (fp_file fp) (block fp) (path fp).

  (** [fp.filepath = v] *)
Definition set_filepath (fp : FilePath) (v : value) : M World unit :=
    set (fp_file fp) (block fp) (path fp) v.

Section Walker.
    (** The loop-carried variables of the caller, the body of the caller's
        loop over the walker, and the [temp_remap_cb] hook. *)
Context {Acc : Type}.
Variable body : FilePath * bytes -> Acc -> M World Acc.
Variable temp_remap_cb : option (bytes -> Acc -> M World (bytes * Acc)).

Definition _from_block_IM (blend : BlendFile) (b : Block) (basedir rootdir : bytes)
        (acc : Acc) : M World Acc :=
      body (mkFilePath blend b "name" basedir, rootdir) acc.

Definition _from_block_LI (blend : BlendFile) (b : Block) (basedir rootdir : bytes)
        (acc : Acc) : M World Acc :=
      body (mkFilePath blend b "name" basedir, rootdir) acc.

Definition _from_block_dict_get (c : bytes)
      : option (BlendFile -> Block -> bytes -> bytes -> Acc -> M World Acc) :=
      if decide (c = "IM") then Some _from_block_IM
      else if decide (c = "LI") then Some _from_block_LI
      else None.

Definition from_block (blend : BlendFile) (b : Block) (basedir rootdir : bytes)
        (acc : Acc) : M World Acc :=
      if decide (code b = "DATA") then raise AssertionError
      else
        match _from_block_dict_get (code b) with
        | Some fn => fn blend b basedir rootdir acc
        | None => ret acc
        end.

    (** [block_expand] of a nested recursive visit; [expand_codes] is the
        first component of the loop-carried pair. *)
Fixpoint block_expand (fuel : nat) (blend : BlendFile)
        (yield_ : Block -> Acc -> M World Acc) (b : Block) (c : bytes)
        (st : gset value * Acc) {struct fuel} : M World (gset value * Acc) :=
      match fuel with
      | O => out_of_fuel
      | S fuel' =>
          (name <- get blend b "id.name" ;;
           if decide (name ∈ st.1) then
             acc' <- yield_ b st.2 ;; ret (st.1, acc')
           else
             acc' <- yield_ b st.2 ;;
             match ExpandID.expand_funcs_get c with
             | Some fn =>
                 fn fuel' blend b
                   (fun sub_block st' =>
                      match sub_block with
                      | Some sb => block_expand fuel' blend yield_ sb (code sb) st'
                      | None => ret st'
                      end)
                   ({[name]} ∪ st.1, acc')
             | None => ret ({[name]} ∪ st.1, acc')
             end)%py
      end.

    (** The [block_expand] that the visit selects: the expanding one when
        [expand_codes] is a set, the plain [yield block] otherwise. *)
Definition block_expand_sel (fuel : nat) (blend : BlendFile)
        (yield_ : Block -> Acc -> M World Acc) (b : Block) (c : bytes)
        (st : option (gset value) * Acc) : M World (option (gset value) * Acc) :=
      match st.1 with
      | Some expand_codes =>
          (r <- block_expand fuel blend yield_ b c (expand_codes, st.2) ;;
           ret (Some r.1, r.2))%py
      | None => (acc' <- yield_ b st.2 ;; ret (None, acc'))%py
      end.

Definition iter_blocks_id (fuel : nat) (blend : BlendFile)
        (block_codes : option (gset value)) (c : bytes)
        (yield_ : Block -> Acc -> M World Acc)
        (st : option (gset value) * Acc) : M World (option (gset value) * Acc) :=
      match block_codes with
      | None =>
          foldM (fun b st => (acc' <- yield_ b st.2 ;; ret (st.1, acc'))%py)
                (find_blocks_from_code blend c) st
      | Some codes =>
          foldM (fun b st =>
                   (name <- get blend b "id.name" ;;
                    if decide (name ∈ codes)
                    then block_expand_sel fuel blend yield_ b c st
                    else ret st)%py)
                (find_blocks_from_code blend c) st
      end.

    (** The loop over [iter_blocks_lib()] that fills [lib_all]. *)
Definition collect_libs (blend : BlendFile) (expand_codes : option (gset value))
      : M World (list (value * gset value)) :=
      foldM (fun b lib_all =>
               (keep <- match expand_codes with
                        | None => ret true
                        | Some ec => (name <- get blend b "name" ;;
                                      ret (bool_decide (name ∈ ec)))
                        end ;;
                if keep : bool then
                  lib_id <- get blend b "lib" ;;
                  match lib_id with
                  | VBytes _ => raise TypeError
                  | VInt a =>
                      match find_block_from_offset blend a with
                      | None => raise TypeError
                      | Some lib =>
                          lib_path <- get blend lib "name" ;;
                          name <- get blend b "name" ;;
                          ret (lib_all_add lib_path name lib_all)
                      end
                  end
                else ret lib_all)%py)
            (find_blocks_from_code blend "ID") [].

    (** The type tags that the scan skips. *)
Definition skipped_code (c : bytes) : bool :=
      (negb (Nat.eqb (String.length c) 2)
       || bool_decide (c ∈ ["LI"; "ID"; "WM"; "SN"]))%bool.

    (** [yield from FilePath.from_block(block, basedir, rootdir)] as the body
        of the loops over [iter_blocks_id]. *)
Definition emit (blend : BlendFile) (basedir rootdir : bytes) (b : Block)
        (acc : Acc) : M World Acc :=
      from_block blend b basedir rootdir acc.

    (** The loop over [blend.code_index.keys()]. *)
Definition scan_codes (fuel : nat) (blend : BlendFile)
        (block_codes : option (gset value)) (basedir rootdir : bytes)
        (st : option (gset value) * Acc) : M World (option (gset value) * Acc) :=
      foldM (fun c st =>
               if skipped_code c then ret st
               else
                 (print (PrintScanning c) ;;;
                  iter_blocks_id fuel blend block_codes c
                    (emit blend basedir rootdir) st)%py)
            (code_index_keys blend) st.

    (** The loop over [iter_blocks_id(b'LI')]. *)
Definition scan_libs (fuel : nat) (blend : BlendFile)
        (block_codes : option (gset value)) (basedir rootdir : bytes)
        (st : option (gset value) * Acc) : M World (option (gset value) * Acc) :=
      iter_blocks_id fuel blend block_codes "LI" (emit blend basedir rootdir) st.

    (** The scan of one open file: the loop over the type tags, the library
        table, and the loop over the library records.  It returns the table
        and the loop-carried variables. *)
Definition scan_blend (fuel : nat) (blend : BlendFile) (recursive : bool)
        (block_codes expand_codes : option (gset value)) (basedir rootdir : bytes)
        (acc : Acc) : M World (list (value * gset value) * Acc) :=
      (st <- scan_codes fuel blend block_codes basedir rootdir (expand_codes, acc) ;;
       lib_all <- (if recursive : bool then collect_libs blend st.1 else ret []) ;;
       st' <- scan_libs fuel blend block_codes basedir rootdir st ;;
       ret (lib_all, st'.2))%py.

    (** [expand_codes] of one visit. *)
Definition expand_codes_init (recursive : bool) (level : nat)
        (block_codes : option (gset value)) : option (gset value) :=
      if (recursive && negb (Nat.eqb level 0)
          && bool_decide (is_Some block_codes))%bool
      then Some ∅ else None.

    (** One round of the loop over [lib_all.items()]; [visit] is the
        recursive call, which receives no [lib_visit]. *)
Definition follow_lib
        (visit : bytes -> option (gset value) -> Acc -> M World (option registry * Acc))
        (filepath basedir : bytes) (level : nat)
        (lib : value * gset value) (st : option registry * Acc)
      : M World (option registry * Acc) :=
      (lib_path_abs <- abspath_value lib.1 basedir ;;
       match st.1 with
       | None => raise AttributeError
       | Some reg =>
           let lib_block_codes_existing := default ∅ (reg !! lib_path_abs) in
           let lib_block_codes := lib.2 ∖ lib_block_codes_existing in
           let reg' := <[lib_path_abs :=
                           lib_block_codes_existing ∪ lib_block_codes]> reg in
           print (PrintLibrary level filepath lib_path_abs) ;;;
           print (PrintLibraryCodes level lib_block_codes) ;;;
           r <- visit lib_path_abs (Some lib_block_codes) st.2 ;;
           ret (Some reg', r.2)
       end)%py.

Fixpoint visit_from_blend (fuel : nat) (filepath : bytes) (readonly recursive : bool)
        (block_codes : option (gset value)) (rootdir : option bytes) (level : nat)
        (lib_visit : option registry) (acc : Acc) {struct fuel}
      : M World (option registry * Acc) :=
      match fuel with
      | O => out_of_fuel
      | S fuel' =>
          (print (PrintOpening level filepath) ;;;
           print (PrintBlocks level block_codes) ;;;
           wd <- gets cwd ;;
           let basedir := os_path.dirname (os_path.abspath wd filepath) in
           let rootdir := default basedir rootdir in
           let expand_codes := expand_codes_init recursive level block_codes in
           tmp <- match temp_remap_cb with
                  | Some cb => cb filepath acc
                  | None => ret (filepath, acc)
                  end ;;
           blend <- open_blend tmp.1 readonly ;;
           scanned <- scan_blend fuel' blend recursive block_codes expand_codes
                        basedir rootdir tmp.2 ;;
           close blend ;;;
           if recursive then
             foldM (follow_lib
                      (fun lib_path_abs lib_block_codes acc =>
                         visit_from_blend fuel' lib_path_abs readonly true
                           lib_block_codes (Some rootdir) (level + 1) None acc)
                      filepath basedir level)
                   scanned.1 (lib_visit, scanned.2)
           else ret (lib_visit, scanned.2))%py
      end.
End Walker.

End FilePathM.

(** ** The packaging driver: [pack] *)

(** The variables of [pack] that its remap hook and its loop body share:
    two sets, held as duplicate-free lists in insertion order. *)
Record PackVars : Type := mkPackVars {
  path_temp_files : list bytes;
  path_copy_files : list (bytes * bytes);
}.

(** The order in which the two [for] loops of [pack] go through these sets.
    Python iterates a set in an order that depends on the hashes of its
    elements; all that is known of it is that every element comes once. *)
Record SetOrder : Type := mkSetOrder {
  order_temp : list bytes -> list bytes;
  order_temp_perm : forall l, order_temp l ≡ₚ l;
  order_copy : list (bytes * bytes) -> list (bytes * bytes);
  order_copy_perm : forall l, order_copy l ≡ₚ l;
}.

(** Two orders: as inserted, and the reverse. *)
Definition insertion_order : SetOrder :=
  mkSetOrder id (fun l => Permutation_refl l) id (fun l => Permutation_refl l).

Definition reverse_order : SetOrder :=
  mkSetOrder (@rev bytes) (fun l => Permutation_sym (Permutation_rev l))
             (@rev (bytes * bytes)) (fun l => Permutation_sym (Permutation_rev l)).

Module packer.

  (** The path of the staging copy of [filepath]. *)
Definition staging_path (base_dir_dst filepath : bytes) : bytes :=
    os_path.join base_dir_dst (os_path.basename filepath) ++ "@".

  (** [temp_remap_cb], the hook defined inside [pack]. *)
Definition temp_remap_cb (base_dir_dst filepath : bytes) (v : PackVars)
    : M World (bytes * PackVars) :=
    let filepath_tmp := staging_path base_dir_dst filepath in
    if decide (filepath_tmp ∈ path_temp_files v) then ret (filepath_tmp, v)
    else
      (shutil.copy filepath filepath_tmp ;;;
       ret (filepath_tmp,
            mkPackVars (set_add filepath_tmp (path_temp_files v))
                       (path_copy_files v)))%py.

  (** [path_rel.split(b"\\")[-1].split(b"/")[-1]] *)
Definition path_base_of (path_rel : bytes) : bytes :=
    Bytes.last (Bytes.split slash (Bytes.last (Bytes.split backslash path_rel))).

  (** The body of the loop of [pack] over the walker. *)
Definition pack_body (base_dir_dst : bytes) (x : FilePath * bytes) (v : PackVars)
    : M World PackVars :=
    let fp := x.1 in
    (path_rel <- FilePathM.filepath fp ;;
     match path_rel with
     | VInt _ => raise AttributeError
     | VBytes path_rel =>
         let path_base := path_base_of path_rel in
         let path_src := utils.abspath path_rel (basedir fp) in
         let path_dst := os_path.join base_dir_dst path_base in
         FilePathM.set_filepath fp (VBytes ("//" ++ path_base)) ;;;
         ret (mkPackVars (path_temp_files v)
                         (set_add (path_src, path_dst) (path_copy_files v)))
     end)%py.

  (** One round of the final loop over [path_copy_files]. *)
Definition copy_one (e : bytes * bytes) : M World unit :=
    (present <- os_path_exists e.1 ;;
     if present : bool then
       print (PrintCopying e.1 e.2) ;;; shutil.copy e.1 e.2
     else print (PrintSourceMissing e.1))%py.

Definition copy_files (plan : list (bytes * bytes)) : M World unit :=
    forM copy_one plan.

  (** [path_temp_files.remove(x)] *)
Definition set_remove (x : bytes) (l : list bytes) : M World (list bytes) :=
    if decide (x ∈ l) then ret (filter (fun y => y ≠ x) l) else raise KeyError.

  (** The walk of [pack] and the moves of the staged files; it returns the
      copy plan. *)
Definition pack_stage (o : SetOrder) (fuel : nat) (blendfile_src blendfile_dst : bytes)
    : M World (list (bytes * bytes)) :=
    let base_dir_dst := os_path.dirname blendfile_dst in
    (r <- FilePathM.visit_from_blend (pack_body base_dir_dst)
            (Some (temp_remap_cb base_dir_dst))
            fuel blendfile_src false true None None 0%nat (Some ∅)
            (mkPackVars [] []) ;;
     tmp <- temp_remap_cb base_dir_dst blendfile_src r.2 ;;
     shutil.move tmp.1 blendfile_dst ;;;
     temps <- set_remove tmp.1 (path_temp_files tmp.2) ;;
     forM (fun fn => shutil.move fn (Bytes.drop_last fn)) (order_temp o temps) ;;;
     ret (path_copy_files tmp.2))%py.

Definition pack (o : SetOrder) (fuel : nat) (blendfile_src blendfile_dst : bytes)
    : M World unit :=
    (plan <- pack_stage o fuel blendfile_src blendfile_dst ;;
     copy_files (order_copy o plan) ;;;
     print (PrintWritten blendfile_dst))%py.

End packer.

(** ** Sample stores *)

Module Samples.

Definition flds (l : list (bytes * value)) : gmap bytes value := list_to_map l.

  (** A root file with one image and one link to a library, from which it
      uses the mesh [MEy]. *)
Definition root_blend : BlendData :=
    mkBlendData 8
      [ mkStoredBlock "IM" 100 0
          (flds [("id.name", VBytes "IMtex"); ("name", VBytes "//sub/dir/asset.png")]);
        mkStoredBlock "LI" 200 0
          (flds [("id.name", VBytes "LIlib.blend"); ("name", VBytes "//libs/lib.blend")]);
        mkStoredBlock "ID" 300 0
          (flds [("name", VBytes "MEy"); ("lib", VInt 200)]) ]
      ∅ ∅.

  (** The library: the mesh [MEy], without materials. *)
Definition lib_blend : BlendData :=
    mkBlendData 8
      [ mkStoredBlock "ME" 100 0
          (flds [("id.name", VBytes "MEy"); ("totcol", VInt 0); ("mat", VInt 0)]) ]
      ∅ ∅.

  (** The entries of a list of directories. *)
Definition dirs (l : list bytes) : list (bytes * FileContent) :=
    map (fun p => (p, Directory)) l.

Definition world0 : World :=
    mkWorld (list_to_map
               ([ ("/src/root.blend", BlendContent root_blend);
                  ("/src/libs/lib.blend", BlendContent lib_blend);
                  ("/src/sub/dir/asset.png", RawContent "png") ]
                ++ dirs ["/"; "/src"; "/src/libs"; "/src/sub"; "/src/sub/dir"; "/dst"]))
            "/" [].

End Samples.

(** ** More sample stores and handles *)

Module Samples2.
Import Samples.

  (** The handle of the staged root file, and the world in which it is
      open. *)
Definition root_handle : BlendFile :=
    mkBlendFile "/dst/root.blend@" false
      [mkBlock 0 "IM" 100 0; mkBlock 1 "LI" 200 0; mkBlock 2 "ID" 300 0] 8 ∅.

Definition world_staged : World :=
    mkWorld (<["/dst/root.blend@" := BlendContent root_blend]> (fs world0)) "/" [].

Definition image_ref : FilePath :=
    mkFilePath root_handle (mkBlock 0 "IM" 100 0) "name" "/src".

  (** The sample world without the image file. *)
Definition world_missing : World :=
    mkWorld (delete "/src/sub/dir/asset.png" (fs world0)) "/" [].

  (** A mesh with two material slots: the pointer array is the payload of
      the [DATA] record at file offset 64. *)
Definition mesh_blend : BlendData :=
    mkBlendData 8
      [ mkStoredBlock "ME" 100 0
          (flds [("id.name", VBytes "MEy"); ("totcol", VInt 2); ("mat", VInt 500)]);
        mkStoredBlock "DATA" 500 64 ∅;
        mkStoredBlock "MA" 600 0 (flds [("id.name", VBytes "MAred")]);
        mkStoredBlock "MA" 700 0 (flds [("id.name", VBytes "MAblue")]) ]
      (list_to_map [(64, 600); (72, 700)]) ∅.

Definition mesh_handle : BlendFile :=
    mkBlendFile "/src/mesh.blend" true
      [mkBlock 0 "ME" 100 0; mkBlock 1 "DATA" 500 64;
       mkBlock 2 "MA" 600 0; mkBlock 3 "MA" 700 0] 8 ∅.

Definition mesh_world : World :=
    mkWorld {["/src/mesh.blend" := BlendContent mesh_blend]} "/" [].

End Samples2.

(** The body of a loop that collects what a generator yields. *)
Definition collect {A} (x : A) (acc : list A) : M World (list A) := ret (acc ++ [x])%list.


(** The paths that the block store opened, in order. *)
Definition opened_paths (t : list Event) : list (bytes * bool) :=
  flat_map (fun e => match e with IoOpen p ro => [(p, ro)] | _ => [] end) t.

(** The records that the pointer array of length [n] at record [m]
    addresses, in order. *)
Definition array_items (blend : BlendFile) (d : BlendData) (m : Block) (n : Z)
  : list (option Block) :=
  map (fun i => blendfile.find_block_from_offset blend
                  (default 0 (bd_words d !! (file_offset m + pointer_size blend * i))))
      (range n).

Module Samples3.
Import Samples.

  (** Two files that link the same mesh name from each other. *)
Definition a_blend : BlendData :=
    mkBlendData 8
      [ mkStoredBlock "ME" 100 0
          (flds [("id.name", VBytes "MEy"); ("totcol", VInt 0); ("mat", VInt 0)]);
        mkStoredBlock "LI" 200 0
          (flds [("id.name", VBytes "LIb.blend"); ("name", VBytes "//b.blend")]);
        mkStoredBlock "ID" 300 0
          (flds [("name", VBytes "MEy"); ("lib", VInt 200)]) ]
      ∅ ∅.

Definition b_blend : BlendData :=
    mkBlendData 8
      [ mkStoredBlock "ME" 100 0
          (flds [("id.name", VBytes "MEy"); ("totcol", VInt 0); ("mat", VInt 0)]);
        mkStoredBlock "LI" 200 0
          (flds [("id.name", VBytes "LIa.blend"); ("name", VBytes "//a.blend")]);
        mkStoredBlock "ID" 300 0
          (flds [("name", VBytes "MEy"); ("lib", VInt 200)]) ]
      ∅ ∅.

Definition cyclic_world : World :=
    mkWorld (list_to_map
               ([ ("/src/a.blend", BlendContent a_blend);
                  ("/src/b.blend", BlendContent b_blend) ]
                ++ dirs ["/"; "/src"; "/dst"]))
            "/" [].

  (** A root file that names one library by two path strings, a relative
      and an absolute one, and uses the mesh [MEy] through both. *)
Definition twice_blend : BlendData :=
    mkBlendData 8
      [ mkStoredBlock "LI" 200 0
          (flds [("id.name", VBytes "LIlib.blend"); ("name", VBytes "//libs/lib.blend")]);
        mkStoredBlock "LI" 210 0
          (flds [("id.name", VBytes "LIlib.blend.001");
                 ("name", VBytes "/src/libs/lib.blend")]);
        mkStoredBlock "ID" 300 0
          (flds [("name", VBytes "MEy"); ("lib", VInt 200)]);
        mkStoredBlock "ID" 310 0
          (flds [("name", VBytes "MEy"); ("lib", VInt 210)]) ]
      ∅ ∅.

Definition twice_world : World :=
    mkWorld (list_to_map
               ([ ("/src/root.blend", BlendContent twice_blend);
                  ("/src/libs/lib.blend", BlendContent lib_blend) ]
                ++ dirs ["/"; "/src"; "/src/libs"; "/dst"]))
            "/" [].

End Samples3.

(** The files that a trace shows being entered by the walker, with the
    names each visit was restricted to. *)
Definition visits (t : list Event) : list (nat * bytes) :=
  flat_map (fun e => match e with PrintOpening l p => [(l, p)] | _ => [] end) t.

Definition visit_filters (t : list Event) : list (option (gset value)) :=
  flat_map (fun e => match e with PrintBlocks _ c => [c] | _ => [] end) t.

(** The world after one more event. *)
Definition add_event (w : World) (e : Event) : World :=
  mkWorld (fs w) (cwd w) (trace w ++ [e]).

(** The value of a run that completes ([d] otherwise). *)
Definition run_result {A} (r : result A) (d : A) : A :=
  match r with Ok a => a | _ => d end.

Module Runs.
Import Samples Samples2 Samples3.

  (** [pack] on the sample world without the image file: after the walk
      and the moves, and at the end. *)
Definition staged_missing : list (bytes * bytes) * World :=
    run_result (packer.pack_stage insertion_order 5 "/src/root.blend" "/dst/root.blend"
                  world_missing)
               ([], world_missing).

Definition warned_missing : World :=
    add_event staged_missing.2 (PrintSourceMissing "/src/sub/dir/asset.png").

Definition copied_missing : unit * World :=
    run_result (packer.copy_files [("/src/libs/lib.blend", "/dst/lib.blend")]
                  warned_missing)
               (tt, world_missing).

  (** The walk of [pack] over the root that names one library twice. *)
Definition walked_twice : (option registry * PackVars) * World :=
    run_result
      (FilePathM.visit_from_blend (packer.pack_body "/dst")
         (Some (packer.temp_remap_cb "/dst"))
         5 "/src/root.blend" false true None None 0%nat (Some ∅) (mkPackVars [] [])
         twice_world)
      ((None, mkPackVars [] []), twice_world).

  (** One round of the loop over the library table, for a library whose
      only referenced name is already in the registry. *)
Definition consumed_registry : registry :=
    {["/src/libs/lib.blend" := {[VBytes "MEy"]}]}.

Definition followed_consumed : (option registry * PackVars) * World :=
    run_result
      (FilePathM.follow_lib
         (fun lib_path_abs lib_block_codes acc =>
            FilePathM.visit_from_blend (packer.pack_body "/dst")
              (Some (packer.temp_remap_cb "/dst")) 3 lib_path_abs false true
              lib_block_codes (Some "/src") (0 + 1) None acc)
         "/src/root.blend" "/src" 0%nat (VBytes "//libs/lib.blend", {[VBytes "MEy"]})
         (Some consumed_registry, mkPackVars [] []) world0)
      ((None, mkPackVars [] []), world0).
End Runs.

(** A type tag without an expansion rule. *)
Definition terminal_code (c : bytes) : Prop :=
  c <> "OB" /\ c <> "ME" /\ c <> "MA" /\ c <> "TE" /\ c <> "GR".

(** The paths that [pack] may write: the destination file, and the plain
    file names inside the destination directory, with or without the
    staging suffix. *)
Definition written_by_pack (blendfile_dst p : bytes) : Prop :=
  p = blendfile_dst
  \/ exists name, Bytes.mem slash name = false
       /\ (p = os_path.join (os_path.dirname blendfile_dst) name
           \/ p = os_path.join (os_path.dirname blendfile_dst) name ++ "@").

(** The plain file names inside one of these paths: where [shutil.copy] or
    [shutil.move] puts a file whose destination is an existing directory. *)
Definition written_inside (blendfile_dst p : bytes) : Prop :=
  exists t name, written_by_pack blendfile_dst t
    /\ Bytes.mem slash name = false
    /\ p = os_path.join t name.

(** An open of a staging copy in write mode. *)
Definition staging_open (base_dir_dst : bytes) (o : bytes * bool) : Prop :=
  o.2 = false /\ exists f, o.1 = packer.staging_path base_dir_dst f.

(** What [pack] keeps true of the world while it runs, [w0] being the world
    it started in. *)
Definition pack_frame (blendfile_dst : bytes) (w0 w : World) : Prop :=
  (forall p, ~ written_by_pack blendfile_dst p -> ~ written_inside blendfile_dst p ->
             fs w !! p = fs w0 !! p)
  /\ (forall p, isdir w p = isdir w0 p)
  /\ ((forall t, written_by_pack blendfile_dst t -> isdir w0 t = false) ->
      forall p, ~ written_by_pack blendfile_dst p -> fs w !! p = fs w0 !! p)
  /\ exists t, trace w = (trace w0 ++ t)%list
       /\ Forall (staging_open (os_path.dirname blendfile_dst)) (opened_paths t).

(** What [pack] keeps true of its variables. *)
Definition pack_vars_ok (blendfile_dst : bytes) (v : PackVars) : Prop :=
  Forall (fun p => exists f, p = packer.staging_path (os_path.dirname blendfile_dst) f)
         (path_temp_files v)
  /\ Forall (fun e : bytes * bytes =>
               exists name, Bytes.mem slash name = false
                 /\ e.2 = os_path.join (os_path.dirname blendfile_dst) name)
            (path_copy_files v).

Module Samples4.
Import Samples.

  (** The layout of the packer's own invocation: the destination directory
      lies under the directory of the source file, and already holds a file
      named like an image that the source file uses. *)
Definition paths_blend : BlendData :=
    mkBlendData 8
      [ mkStoredBlock "IM" 100 0
          (flds [("id.name", VBytes "IMasset"); ("name", VBytes "//tex/asset.png")]) ]
      ∅ ∅.

Definition nested_world : World :=
    mkWorld (list_to_map
               ([ ("/src/blendfile/test/paths.blend", BlendContent paths_blend);
                  ("/src/blendfile/test/tex/asset.png", RawContent "texture");
                  ("/src/blendfile/test/out/asset.png", RawContent "original") ]
                ++ dirs ["/"; "/src"; "/src/blendfile"; "/src/blendfile/test";
                         "/src/blendfile/test/tex"; "/src/blendfile/test/out"; "/out"]))
            "/" [].

Definition nested_packed : unit * World :=
    run_result (packer.pack insertion_order 5 "/src/blendfile/test/paths.blend"
                  "/src/blendfile/test/out/paths.blend" nested_world)
               (tt, nested_world).

  (** Two libraries with one base name. *)
Definition shared_world : World :=
    mkWorld (list_to_map
               ([ ("/src/a/lib.blend", BlendContent lib_blend);
                  ("/src/b/lib.blend", BlendContent root_blend) ]
                ++ dirs ["/"; "/src"; "/src/a"; "/src/b"; "/dst"]))
            "/" [].

Definition shared_staged : (bytes * PackVars) * World :=
    run_result (packer.temp_remap_cb "/dst" "/src/a/lib.blend" (mkPackVars [] [])
                  shared_world)
               (("", mkPackVars [] []), shared_world).
End Samples4.

(** The caller's loop body, made to record every reference it is given. *)
Definition logging {Acc} (body : FilePath * bytes -> Acc -> M World Acc)
    (x : FilePath * bytes) (st : list (FilePath * bytes) * Acc)
  : M World (list (FilePath * bytes) * Acc) :=
  (acc' <- body x st.2 ;; ret ((st.1 ++ [x])%list, acc'))%py.

(** The raw value of a field of a record of the open file. *)
Definition field_of (blend : BlendFile) (b : Block) (f : bytes) (w : World)
  : option value :=
  match blendfile.stored blend b w with
  | Some sb => sb_fields sb !! f
  | None => None
  end.

(** The store schema: the data pointer of an object and the object
    pointer of a group member never address a library-link record. *)
Definition pointers_well_typed (blend : BlendFile) (w : World) : Prop :=
  forall b f a t,
    f = "data" \/ f = "ob" ->
    field_of blend b f w = Some (VInt a) ->
    blendfile.find_block_from_offset blend a = Some t ->
    code t <> "LI".

(** A loop body that changes the open file only through the reference it
    is given: every other field of the file keeps its value. *)
Definition writes_path_only {Acc} (body : FilePath * bytes -> Acc -> M World Acc) : Prop :=
  forall x acc w acc' w',
    body x acc w = Ok (acc', w') ->
    forall b f, f <> path x.1 ->
      field_of (fp_file x.1) b f w' = field_of (fp_file x.1) b f w.

(** A reference to a library-link record. *)
Definition is_library_ref (x : FilePath * bytes) : Prop := code (block x.1) = "LI".

Module Samples5.
Import Samples.

  (** A library with an object, its mesh, an image and a link to a further
      library, from which the mesh name is also linked. *)
Definition objs_blend : BlendData :=
    mkBlendData 8
      [ mkStoredBlock "OB" 100 0
          (flds [("id.name", VBytes "OBcube"); ("data", VInt 200)]);
        mkStoredBlock "ME" 200 0
          (flds [("id.name", VBytes "MEcube"); ("totcol", VInt 0); ("mat", VInt 0)]);
        mkStoredBlock "IM" 300 0
          (flds [("id.name", VBytes "IMwood"); ("name", VBytes "//tex/wood.png")]);
        mkStoredBlock "LI" 400 0
          (flds [("id.name", VBytes "LIother.blend"); ("name", VBytes "//other.blend")]);
        mkStoredBlock "ID" 500 0
          (flds [("name", VBytes "MEcube"); ("lib", VInt 400)]) ]
      ∅ ∅.

Definition objs_handle : BlendFile :=
    mkBlendFile "/dst/objs.blend@" false
      [mkBlock 0 "OB" 100 0; mkBlock 1 "ME" 200 0; mkBlock 2 "IM" 300 0;
       mkBlock 3 "LI" 400 0; mkBlock 4 "ID" 500 0] 8 ∅.

Definition objs_world : World :=
    mkWorld {["/dst/objs.blend@" := BlendContent objs_blend]} "/" [].

Definition objs_codes : gset value :=
    {[VBytes "OBcube"; VBytes "IMwood"; VBytes "LIother.blend"]}.

Definition objs_scanned
    : (list (value * gset value) * (list (FilePath * bytes) * PackVars)) * World :=
    run_result
      (FilePathM.scan_blend (logging (packer.pack_body "/dst")) 4 objs_handle true
         (Some objs_codes) (Some ∅) "/src" "/src" ([], mkPackVars [] []) objs_world)
      (([], ([], mkPackVars [] [])), objs_world).
End Samples5.

(** An event other than the opening of a file. *)
Definition not_open (e : Event) : Prop := forall p ro, e <> IoOpen p ro.

(** No [data] and no [ob] pointer of the open file leads to a record
    outside [Gd], in any world that satisfies [J]. *)
Definition reach_closed {Acc : Type} (blend : BlendFile) (J : Acc -> World -> Prop)
    (Gd : Block -> Prop) : Prop :=
  forall acc w b0 f sb,
    J acc w -> f = "data" \/ f = "ob" ->
    blendfile.get_pointer blend b0 f w = Ok (Some sb, w) -> Gd sb.

(** The invariant of the walk of [pack]. *)
Definition pack_inv (blendfile_dst : bytes) (w0 : World) (v : PackVars) (w : World) : Prop :=
  pack_frame blendfile_dst w0 w /\ pack_vars_ok blendfile_dst v.

(** What the scan of the type tags keeps true: the pointers stay well
    typed (when records are expanded) and no library reference has been
    recorded. *)
Definition scan_inv {Acc : Type} (blend : BlendFile) (expanding : Prop)
    (st : list (FilePath * bytes) * Acc) (w : World) : Prop :=
  (expanding -> pointers_well_typed blend w)
  /\ Forall (fun x => ~ is_library_ref x) st.1.

(** What the scan of the library records keeps true: what it records
    after [refs] are library references. *)
Definition libs_inv {Acc : Type} (refs : list (FilePath * bytes))
    (st : list (FilePath * bytes) * Acc) (w : World) : Prop :=
  exists libs, st.1 = (refs ++ libs)%list /\ Forall is_library_ref libs.

(** ** The final copy loop *)

(** The path [k] lies below the path [p]. *)
Definition lies_below (p k : bytes) : bool :=
  negb (String.eqb p "") && Bytes.startswith (Bytes.rstrip slash p ++ "/") k.

(** The path [p] names a directory, however the world came to say so: it
    lists [p] as a directory, with or without trailing slashes, or it lists
    something below [p]. *)
Definition names_directory (w : World) (p : bytes) : bool :=
  isdir w p
  || isdir w (Bytes.rstrip slash p)
  || bool_decide (map_Exists (fun k _ => lies_below p k = true) (fs w)).

(** The copy of a plan entry can be made whenever its source is a file:
    neither path names a directory, the two differ, and the directory of
    the destination exists. *)
Definition copy_possible (w : World) (e : bytes * bytes) : Prop :=
  names_directory w e.1 = false
  /\ names_directory w e.2 = false
  /\ e.1 <> e.2
  /\ parent_exists w e.2 = true.

(** The same, as far as the world at hand lists it. *)
Definition copy_allowed (w : World) (e : bytes * bytes) : Prop :=
  isdir w e.1 = false
  /\ isdir w e.2 = false
  /\ e.1 <> e.2
  /\ open_for_writing w e.2 = None.

(** The final loop in the words of the specification: an entry whose
    source is there is copied to its destination, an entry whose source is
    missing is reported and skipped. *)
Definition copy_step_fs (e : bytes * bytes) (m : gmap bytes FileContent)
  : gmap bytes FileContent :=
  match m !! e.1 with
  | Some c => <[e.2 := c]> m
  | None => m
  end.

Definition copy_step_events (e : bytes * bytes) (m : gmap bytes FileContent)
  : list Event :=
  match m !! e.1 with
  | Some _ => [PrintCopying e.1 e.2; IoCopy e.1 e.2]
  | None => [PrintSourceMissing e.1]
  end.

Fixpoint copied_fs (plan : list (bytes * bytes)) (m : gmap bytes FileContent)
  : gmap bytes FileContent :=
  match plan with
  | [] => m
  | e :: rest => copied_fs rest (copy_step_fs e m)
  end.

Fixpoint copy_events (plan : list (bytes * bytes)) (m : gmap bytes FileContent)
  : list Event :=
  match plan with
  | [] => []
  | e :: rest => (copy_step_events e m ++ copy_events rest (copy_step_fs e m))%list
  end.

Module Samples7.
Import Samples.




  (** A destination directory that holds a directory named like an image
      of the file that is packed. *)
Definition inside_world : World :=
    mkWorld (list_to_map
               ([ ("/src/blendfile/test/paths.blend", BlendContent Samples4.paths_blend);
                  ("/src/blendfile/test/tex/asset.png", RawContent "texture") ]
                ++ dirs ["/"; "/src"; "/src/blendfile"; "/src/blendfile/test";
                         "/src/blendfile/test/tex"; "/out"; "/out/asset.png"]))
            "/" [].

Definition inside_packed : unit * World :=
    run_result (packer.pack insertion_order 3 "/src/blendfile/test/paths.blend"
                  "/out/paths.blend" inside_world)
               (tt, inside_world).
End Samples7.

(** ** Further notions used by the properties of the walker and of [pack] *)

(** The handle that [open_blend] returns for the store [d] at [filepath]. *)
Definition handle_of (filepath : bytes) (readonly : bool) (d : BlendData) : BlendFile :=
  mkBlendFile filepath readonly
    (imap (fun i sb => mkBlock i (sb_code sb) (sb_addr_old sb) (sb_file_offset sb))
          (bd_blocks d))
    (bd_pointer_size d) (bd_sdna_index_from_id d).

(** The records linked from [first] through their [next] pointers, up to
    the null pointer, in the world [w]. *)
Inductive chain (blend : BlendFile) (w : World) : option Block -> list Block -> Prop :=
| chain_nil : chain blend w None []
| chain_cons (b : Block) (nxt : option Block) (l : list Block) :
    blendfile.get_pointer blend b "next" w = Ok (nxt, w) ->
    chain blend w nxt l ->
    chain blend w (Some b) (b :: l).

(** A loop body that leaves the [next] pointers of the open file as they
    are. *)
Definition keeps_links {Acc} (blend : BlendFile) (body : Block -> Acc -> M World Acc)
  : Prop :=
  forall b acc w acc' w',
    body b acc w = Ok (acc', w') ->
    forall x y, blendfile.get_pointer blend x "next" w = Ok (y, w) ->
                blendfile.get_pointer blend x "next" w' = Ok (y, w').

(** A set of records that the [next] pointers never leave: from a record of
    the set the loop over the list does not reach the null pointer. *)
Definition endless (blend : BlendFile) (w : World) (P : Block -> Prop) : Prop :=
  forall b, P b ->
    exists b', blendfile.get_pointer blend b "next" w = Ok (Some b', w) /\ P b'.

(** A loop body that always completes and leaves the world as it is. *)
Definition quiet {A Acc} (body : A -> Acc -> M World Acc) : Prop :=
  forall x acc w, exists acc', body x acc w = Ok (acc', w).

(** The caller's loop body behind an assertion on the item it is given. *)
Definition checked {Acc} (ok : FilePath * bytes -> bool)
    (body : FilePath * bytes -> Acc -> M World Acc)
    (x : FilePath * bytes) (acc : Acc) : M World Acc :=
  if ok x then body x acc else raise AssertionError.

(** The item refers to the field [name] of an image or library record and
    carries the root directory [rootdir]. *)
Definition name_reference (rootdir : bytes) (x : FilePath * bytes) : bool :=
  bool_decide (path x.1 = "name"
               /\ (code (block x.1) = "IM" \/ code (block x.1) = "LI")
               /\ x.2 = rootdir).

(** The names that the library table [lib_all] holds for the library path
    [lib_path]. *)
Definition table_names (lib_all : list (value * gset value)) (lib_path : value)
  : gset value :=
  match List.find (fun e => bool_decide (e.1 = lib_path)) lib_all with
  | Some e => e.2
  | None => ∅
  end.

(** The linked-ID placeholder [b] names [name] and belongs to the library
    record whose path is [lib_path], in the world [w]. *)
Definition placeholder_of (blend : BlendFile) (w : World) (b : Block)
    (lib_path name : value) : Prop :=
  blendfile.get blend b "name" w = Ok (name, w)
  /\ exists a lib,
       blendfile.get blend b "lib" w = Ok (VInt a, w)
       /\ blendfile.find_block_from_offset blend a = Some lib
       /\ blendfile.get blend lib "name" w = Ok (lib_path, w).

(** The names recorded for a library path in the registry. *)
Definition visited_names (reg : registry) (p : bytes) : gset value :=
  default ∅ (reg !! p).

(** The item that the walker yields for the record [b] of the open file. *)
Definition name_item (blend : BlendFile) (basedir rootdir : bytes) (b : Block)
  : FilePath * bytes :=
  (mkFilePath blend b "name" basedir, rootdir).

(** The record [b] of the open file has an [id.name] that is in [codes]. *)
Definition named_in (blend : BlendFile) (w : World) (codes : gset value) (b : Block)
  : bool :=
  match field_of blend b "id.name" w with
  | Some n => bool_decide (n ∈ codes)
  | None => false
  end.

(** The path that a record holds in its field [name]. *)
Definition stored_path (sb : StoredBlock) : option bytes :=
  match sb_fields sb !! "name" with
  | Some (VBytes p) => Some p
  | _ => None
  end.

(** The record with the path in its field [name] replaced by the relative
    path to the base name. *)
Definition flat_name (sb : StoredBlock) : StoredBlock :=
  match stored_path sb with
  | Some p =>
      mkStoredBlock (sb_code sb) (sb_addr_old sb) (sb_file_offset sb)
        (<["name" := VBytes ("//" ++ packer.path_base_of p)]> (sb_fields sb))
  | None => sb
  end.

(** An image or library record. *)
Definition holds_path (sb : StoredBlock) : bool :=
  bool_decide (sb_code sb = "IM" \/ sb_code sb = "LI").

(** The store with the paths of all its image and library records
    flattened. *)
Definition flat_store (d : BlendData) : BlendData :=
  mkBlendData (bd_pointer_size d)
    (map (fun sb => if holds_path sb then flat_name sb else sb) (bd_blocks d))
    (bd_words d) (bd_sdna_index_from_id d).

(** The store with the paths of the records at the positions [ds]
    flattened. *)
Definition partial_flat (ds : list nat) (d : BlendData) : BlendData :=
  mkBlendData (bd_pointer_size d)
    (imap (fun i sb => if bool_decide (i ∈ ds) then flat_name sb else sb) (bd_blocks d))
    (bd_words d) (bd_sdna_index_from_id d).

(** The paths that the image and library records of a store hold, in store
    order. *)
Definition stored_paths (d : BlendData) : list bytes :=
  flat_map (fun sb => if holds_path sb then option_list (stored_path sb) else [])
           (bd_blocks d).

(** Every image and library record holds a byte string in its field
    [name]. *)
Definition paths_well_formed (d : BlendData) : Prop :=
  forall sb, sb ∈ bd_blocks d -> holds_path sb = true -> is_Some (stored_path sb).

(** The store has no linked-ID placeholder: it uses no library. *)
Definition no_links (d : BlendData) : Prop :=
  forall sb, sb ∈ bd_blocks d -> sb_code sb <> "ID".

(** The copy that [pack] plans for the path [p] held by a record of a file
    in [basedir]. *)
Definition planned_copy (base_dir_dst basedir p : bytes) : bytes * bytes :=
  (utils.abspath p basedir, os_path.join base_dir_dst (packer.path_base_of p)).

(** The path held by the record behind the handle [b], in the store [d]. *)
Definition block_path (d : BlendData) (b : Block) : bytes :=
  default "" (bd_blocks d !! index b ≫= stored_path).

(** The world [w0] with the store [d] at the staging path and the trace
    [t]. *)
Definition staged (w0 : World) (filepath_tmp : bytes) (d : BlendData) (t : list Event)
  : World :=
  mkWorld (<[filepath_tmp := BlendContent d]> (fs w0)) (cwd w0) t.

(** Apart from the field [name], the records of the open file hold in [w]
    what they hold in [w0]. *)
Definition same_fields (blend : BlendFile) (w0 w : World) : Prop :=
  forall b f, f <> "name" -> field_of blend b f w = field_of blend b f w0.

(** No [data] and no [ob] pointer of the open file addresses an image or
    library record. *)
Definition no_pointer_to_paths (blend : BlendFile) (w : World) : Prop :=
  forall b f a t,
    f = "data" \/ f = "ob" ->
    field_of blend b f w = Some (VInt a) ->
    blendfile.find_block_from_offset blend a = Some t ->
    code t <> "IM" /\ code t <> "LI".

(** An image or library record is one whose own [id.name] is in [codes]. *)
Definition path_record_named (blend : BlendFile) (w0 : World) (codes : gset value)
    (b : Block) : Prop :=
  code b = "IM" \/ code b = "LI" -> named_in blend w0 codes b = true.

(** What a scan restricted to [codes] keeps true, [w0] being the world it
    started in: only path fields were written, and every recorded item
    belongs to a record named in [codes]. *)
Definition filtered_inv {Acc : Type} (blend : BlendFile) (w0 : World) (codes : gset value)
    (st : list (FilePath * bytes) * Acc) (w : World) : Prop :=
  same_fields blend w0 w
  /\ Forall (fun x : FilePath * bytes => named_in blend w0 codes (block x.1) = true) st.1.

(** The world after more events. *)
Definition add_events (w : World) (es : list Event) : World :=
  mkWorld (fs w) (cwd w) (trace w ++ es).

(** The [Scanning] lines of one scan. *)
Definition scanning_lines (blend : BlendFile) : list Event :=
  map PrintScanning
      (filter (fun c => FilePathM.skipped_code c = false) (blendfile.code_index_keys blend)).

Module Samples6.
Import Samples.

  (** A library with a group of two objects; the members of the group are
      the [DATA] records at 700 and 800. *)
Definition group_blend : BlendData :=
    mkBlendData 8
      [ mkStoredBlock "GR" 100 0
          (flds [("id.name", VBytes "GRset"); ("gobject.first", VInt 700)]);
        mkStoredBlock "DATA" 700 0 (flds [("next", VInt 800); ("ob", VInt 200)]);
        mkStoredBlock "DATA" 800 0 (flds [("next", VInt 0); ("ob", VInt 300)]);
        mkStoredBlock "OB" 200 0 (flds [("id.name", VBytes "OBa"); ("data", VInt 0)]);
        mkStoredBlock "OB" 300 0 (flds [("id.name", VBytes "OBb"); ("data", VInt 0)]) ]
      ∅ {["GroupObject" := 5]}.

Definition group_handle : BlendFile := handle_of "/src/group.blend" true group_blend.

Definition group_world : World :=
    mkWorld {["/src/group.blend" := BlendContent group_blend]} "/" [].

Definition group : Block := mkBlock 0 "GR" 100 0.
Definition member1 : Block := mkBlock 1 "DATA" 700 0.
Definition member2 : Block := mkBlock 2 "DATA" 800 0.
Definition object1 : Block := mkBlock 3 "OB" 200 0.
Definition object2 : Block := mkBlock 4 "OB" 300 0.

  (** A group whose only member is its own successor. *)
Definition loop_blend : BlendData :=
    mkBlendData 8
      [ mkStoredBlock "GR" 100 0
          (flds [("id.name", VBytes "GRset"); ("gobject.first", VInt 700)]);
        mkStoredBlock "DATA" 700 0 (flds [("next", VInt 700); ("ob", VInt 0)]) ]
      ∅ {["GroupObject" := 5]}.

Definition loop_handle : BlendFile := handle_of "/src/loop.blend" true loop_blend.

Definition loop_world : World :=
    mkWorld {["/src/loop.blend" := BlendContent loop_blend]} "/" [].

  (** The expansion of the sample group, with a loop body that collects the
      records it is given. *)
Definition group_expanded : (gset value * list Block) * World :=
    run_result
      (FilePathM.block_expand 5 group_handle collect group "GR" (∅, []) group_world)
      ((∅, []), group_world).

  (** The library table of the root sample. *)
Definition root_table : list (value * gset value) * World :=
    run_result
      (FilePathM.collect_libs (handle_of "/src/root.blend" true root_blend) None world0)
      ([], world0).

  (** The walk of [pack] over the root sample. *)
Definition root_walked : (option registry * PackVars) * World :=
    run_result
      (FilePathM.visit_from_blend (packer.pack_body "/dst")
         (Some (packer.temp_remap_cb "/dst"))
         5 "/src/root.blend" false true None None 0%nat (Some ∅) (mkPackVars [] [])
         world0)
      ((None, mkPackVars [] []), world0).

  (** [pack] on the root sample. *)
Definition root_packed : unit * World :=
    run_result (packer.pack insertion_order 5 "/src/root.blend" "/dst/root.blend" world0)
               (tt, world0).

  (** The plain visit of the root sample, with a loop body that collects
      the items it is given. *)
Definition root_listed : (option registry * list (FilePath * bytes)) * World :=
    run_result
      (FilePathM.visit_from_blend collect None 1 "/src/root.blend" true false None None
         0%nat None [] world0)
      ((None, []), world0).

  (** The nested visit of [b.blend] of the cyclic pair, step by step: the
      world after its two lines of output, after the hook, after the file
      is opened, and after the scan. *)
Definition nested_start : World :=
    add_event (add_event Samples3.cyclic_world (PrintOpening 1 "/src/b.blend"))
              (PrintBlocks 1 (Some {[VBytes "MEy"]})).

Definition nested_hooked : (bytes * PackVars) * World :=
    run_result (packer.temp_remap_cb "/dst" "/src/b.blend" (mkPackVars [] []) nested_start)
               (("", mkPackVars [] []), nested_start).

Definition nested_opened : BlendFile * World :=
    run_result (blendfile.open_blend nested_hooked.1.1 false nested_hooked.2)
               (handle_of "" false Samples3.b_blend, nested_start).

Definition nested_scanned : (list (value * gset value) * PackVars) * World :=
    run_result
      (FilePathM.scan_blend (packer.pack_body "/dst") 3 nested_opened.1 true
         (Some {[VBytes "MEy"]}) (Some ∅) "/src" "/src" nested_hooked.1.2 nested_opened.2)
      (([], mkPackVars [] []), nested_start).

  (** A copy plan and the world after its copies. *)
Definition plan : list (bytes * bytes) :=
    [("/src/sub/dir/asset.png", "/dst/asset.png"); ("/src/gone.png", "/dst/gone.png")].
End Samples6.

(** * Properties *)

#[local] Arguments String.append : simpl nomatch.

(** ** Sanity checks of the path functions *)

Example abspath_rel : utils.abspath "//tex/a.png" "/home/p" = "/home/p/tex/a.png".
Proof. reflexivity. Qed.

Example normpath_ex : os_path.normpath "/a/./b/../c//d" = "/a/c/d".
Proof. reflexivity. Qed.

Example dirname_ex : os_path.dirname "/a/b/c.blend" = "/a/b".
Proof. reflexivity. Qed.

Example basename_ex : os_path.basename "/a/b/c.blend" = "c.blend".
Proof. reflexivity. Qed.

Example split_ex : Bytes.last (Bytes.split slash (Bytes.last (Bytes.split backslash "a\b/c\d/e"))) = "e".
Proof. reflexivity. Qed.

(** ** Monad laws used by the proofs *)

Lemma bind_ok_inv {S A B} (m : M S A) (k : A -> M S B) (s : S) (r : B * S) :
  bind m k s = Ok r -> exists a s1, m s = Ok (a, s1) /\ k a s1 = Ok r.
Proof.
  unfold bind. destruct (m s) as [[a s1]| |]; [eauto | discriminate | discriminate].
Qed.

Lemma bind_ok {S A B} (m : M S A) (k : A -> M S B) (s s1 : S) (a : A) :
  m s = Ok (a, s1) -> bind m k s = k a s1.
Proof. unfold bind. intros ->. reflexivity. Qed.

Lemma run_result_ok {A} (r : result A) (d : A) :
  is_ok r = true -> r = Ok (run_result r d).
Proof. destruct r; [reflexivity | discriminate | discriminate]. Qed.

(** ** Byte strings *)

Lemma startswith_app (p s : bytes) :
  Bytes.startswith p s = true <-> exists r, s = p ++ r.
Proof.
  revert s. induction p as [|a p IH]; intros s; simpl.
  - split; [intros _; exists s; reflexivity | reflexivity].
  - destruct s as [|b s].
    + split; [discriminate | intros [r Hr]; discriminate].
    + destruct (Ascii.eqb_spec a b) as [->|Hne].
      * rewrite IH. split; intros [r Hr]; exists r; [now rewrite Hr | now injection Hr].
      * split; [discriminate | intros [r Hr]; injection Hr; intros; congruence].
Qed.

Lemma drop_app (p r : bytes) : Bytes.drop (String.length p) (p ++ r) = r.
Proof. induction p; simpl; auto. Qed.

Lemma split_nonempty (c : ascii) (s : bytes) : Bytes.split c s <> [].
Proof.
  induction s as [|a s IH]; simpl; [discriminate|].
  destruct (Ascii.eqb a c); [discriminate|].
  destruct (Bytes.split c s); [discriminate | discriminate].
Qed.

Lemma mem_app (c : ascii) (a b : bytes) :
  Bytes.mem c (a ++ b) = (Bytes.mem c a || Bytes.mem c b)%bool.
Proof. induction a as [|x a IH]; simpl; [reflexivity|]. rewrite IH. now rewrite orb_assoc. Qed.

Lemma endswith1_app (c : ascii) (a b : bytes) :
  b <> "" -> Bytes.endswith1 c (a ++ b) = Bytes.endswith1 c b.
Proof.
  intros Hb. induction a as [|x a IH]; simpl; [reflexivity|].
  rewrite <- IH. destruct (a ++ b) eqn:E; [|reflexivity].
  destruct a; simpl in E; [congruence | discriminate].
Qed.

Lemma split_no_sep (c : ascii) (s : bytes) :
  Bytes.mem c s = false -> Bytes.split c s = [s].
Proof.
  induction s as [|a s IH]; simpl; [reflexivity|].
  intros [Ha Hs]%orb_false_elim. rewrite Ha, (IH Hs). reflexivity.
Qed.

Lemma split_sep (c : ascii) (s : bytes) :
  Bytes.mem c s = true -> exists h h' r, Bytes.split c s = h :: h' :: r.
Proof.
  induction s as [|a s IH]; simpl; [discriminate|].
  destruct (Ascii.eqb a c) eqn:Ha; simpl.
  - intros _. pose proof (split_nonempty c s).
    destruct (Bytes.split c s) as [|h r]; [congruence|]. eauto.
  - intros (h & h' & r & ->)%IH. eauto.
Qed.

Lemma split_last_cons (c a : ascii) (s : bytes) :
  Bytes.last (Bytes.split c (String a s)) =
  if (Bytes.mem c s || Ascii.eqb a c)%bool then Bytes.last (Bytes.split c s)
  else String a s.
Proof.
  unfold Bytes.last. simpl.
  destruct (Bytes.mem c s) eqn:Hs; simpl.
  - destruct (split_sep c s Hs) as (h & h' & r & ->).
    destruct (Ascii.eqb a c); reflexivity.
  - rewrite (split_no_sep c s Hs). destruct (Ascii.eqb a c); reflexivity.
Qed.

(** The last piece of a split is the longest suffix without the separator. *)
Lemma split_last_spec (c : ascii) (s : bytes) :
  exists pre, s = pre ++ Bytes.last (Bytes.split c s)
    /\ Bytes.mem c (Bytes.last (Bytes.split c s)) = false
    /\ (pre = "" \/ Bytes.endswith1 c pre = true).
Proof.
  induction s as [|a s (pre & Hs & Hm & Hp)].
  - exists "". auto.
  - rewrite split_last_cons.
    destruct (Bytes.mem c s || Ascii.eqb a c)%bool eqn:E.
    + exists (String a pre). split; [simpl; now rewrite <- Hs|]. split; [exact Hm|].
      right. destruct Hp as [->|Hp]; simpl.
      * simpl in Hs. rewrite <- Hs in Hm. rewrite Hm in E. exact E.
      * destruct pre; [discriminate | exact Hp].
    + exists "". split; [reflexivity|]. split; [|auto].
      apply orb_false_elim in E as [E1 E2]. simpl. now rewrite E1, E2.
Qed.

Lemma mem_suffix (c : ascii) (a b : bytes) :
  Bytes.mem c (a ++ b) = false -> Bytes.mem c b = false.
Proof. rewrite mem_app. now intros [_ ?]%orb_false_elim. Qed.

Lemma path_base_of_spec (path_rel : bytes) :
  exists pre, path_rel = pre ++ packer.path_base_of path_rel
    /\ Bytes.mem slash (packer.path_base_of path_rel) = false
    /\ Bytes.mem backslash (packer.path_base_of path_rel) = false
    /\ (pre = "" \/ Bytes.endswith1 slash pre = true \/ Bytes.endswith1 backslash pre = true).
Proof.
  unfold packer.path_base_of.
  destruct (split_last_spec backslash path_rel) as (p1 & H1 & M1 & E1).
  set (x := Bytes.last (Bytes.split backslash path_rel)) in *.
  destruct (split_last_spec slash x) as (p2 & H2 & M2 & E2).
  set (y := Bytes.last (Bytes.split slash x)) in *.
  exists (p1 ++ p2). split; [|split; [exact M2|split]].
  - rewrite H1 at 1. rewrite H2 at 1. clear. induction p1; simpl; [reflexivity | now f_equal].
  - rewrite H2 in M1. exact (mem_suffix _ _ _ M1).
  - destruct E2 as [->|E2].
    + assert (p1 ++ "" = p1) as -> by (clear; induction p1; simpl; [reflexivity | now f_equal]).
      destruct E1; auto.
    + right. left. rewrite endswith1_app; [exact E2|]. intros ->. discriminate.
Qed.

(** ** The block store: a write is read back *)

Lemma set_then_get (blend : BlendFile) (b : Block) (f : bytes) (v0 v : value) (w : World) :
  blendfile.get blend b f w = Ok (v0, w) ->
  bf_readonly blend = false ->
  exists w', blendfile.set blend b f v w = Ok (tt, w')
    /\ blendfile.get blend b f w' = Ok (v, w')
    /\ trace w' = trace w /\ cwd w' = cwd w.
Proof.
  unfold blendfile.get, blendfile.set, blendfile.stored. intros Hg ->.
  destruct (fs w !! bf_path blend) as [[d| |]|] eqn:Hf; try discriminate.
  destruct (bd_blocks d !! index b) as [sb|] eqn:Hb; try discriminate.
  destruct (sb_fields sb !! f) as [x|] eqn:Hx; try discriminate.
  eexists. split; [reflexivity|]. simpl. rewrite lookup_insert_eq. simpl.
  rewrite list_lookup_insert_eq by (eapply lookup_lt_Some; eauto). simpl.
  rewrite lookup_insert_eq. auto.
Qed.

(** ** C9 *)

(** C9.  [utils.abspath]: a path that begins with the two-byte marker
    [//] resolves to the remainder joined onto the base directory by
    [os.path.join], which, for a remainder that does not begin with a slash,
    is the base directory, a slash unless the base directory is empty or ends
    with one, and the remainder; a path that does not begin with the marker
    resolves to itself. *)
Theorem abspath_resolves (path rest start : bytes) :
  utils.abspath ("//" ++ rest) start = os_path.join start rest
  /\ (Bytes.startswith "//" path = true <-> exists r, path = "//" ++ r)
  /\ (Bytes.startswith "//" path = false -> utils.abspath path start = path)
  /\ (Bytes.startswith "/" rest = false ->
      os_path.join start rest =
      start ++ (if (String.eqb start "" || Bytes.endswith1 slash start)%bool
                then "" else "/") ++ rest).
Proof.
  split; [|split; [|split]].
  - reflexivity.
  - apply startswith_app.
  - unfold utils.abspath. now intros ->.
  - unfold os_path.join. intros ->.
    destruct (String.eqb start "" || Bytes.endswith1 slash start)%bool; reflexivity.
Qed.

(** ** C7 *)

Lemma from_block_cases {Acc : Type} (body : FilePath * bytes -> Acc -> M World Acc)
    (blend : BlendFile) (b : Block) (basedir rootdir : bytes) (acc : Acc) :
  FilePathM.from_block body blend b basedir rootdir acc =
  if decide (code b = "IM" \/ code b = "LI")
  then body (mkFilePath blend b "name" basedir, rootdir) acc
  else if decide (code b = "DATA") then raise AssertionError
  else ret acc.
Proof.
  unfold FilePathM.from_block, FilePathM._from_block_dict_get,
    FilePathM._from_block_IM, FilePathM._from_block_LI.
  destruct (decide (code b = "DATA")) as [E|E].
  - rewrite E. reflexivity.
  - destruct (decide (code b = "IM")) as [E1|E1].
    + rewrite decide_True by auto. reflexivity.
    + destruct (decide (code b = "LI")) as [E2|E2].
      * rewrite decide_True by auto. reflexivity.
      * rewrite decide_False by tauto. reflexivity.
Qed.

(** C7.  [from_block] runs the loop body exactly once, on the reference over
    the [name] field of the record, for an image record and for a
    library-link record; for a record of any other type tag it never runs
    the body (it returns, or fails its assertion on a [DATA] record).  Seen
    through a body that collects what it is given: one reference for [IM] and
    [LI], none for the others. *)
Theorem from_block_mapping {Acc : Type} (body : FilePath * bytes -> Acc -> M World Acc)
    (blend : BlendFile) (b : Block) (basedir rootdir : bytes) (acc : Acc) :
  (code b = "IM" -> FilePathM.from_block body blend b basedir rootdir acc
                    = body (mkFilePath blend b "name" basedir, rootdir) acc)
  /\ (code b = "LI" -> FilePathM.from_block body blend b basedir rootdir acc
                       = body (mkFilePath blend b "name" basedir, rootdir) acc)
  /\ (code b <> "IM" -> code b <> "LI" ->
      forall w, FilePathM.from_block body blend b basedir rootdir acc w
                = if decide (code b = "DATA") then Raise AssertionError else Ok (acc, w))
  /\ (code b = "IM" \/ code b = "LI" ->
      forall w, FilePathM.from_block collect blend b basedir rootdir [] w
                = Ok ([(mkFilePath blend b "name" basedir, rootdir)], w))
  /\ (code b <> "IM" -> code b <> "LI" -> code b <> "DATA" ->
      forall w, FilePathM.from_block collect blend b basedir rootdir [] w = Ok ([], w)).
Proof.
  rewrite !from_block_cases. split; [|split; [|split; [|split]]].
  - intros E. rewrite decide_True by auto. reflexivity.
  - intros E. rewrite decide_True by auto. reflexivity.
  - intros E1 E2 w. rewrite decide_False by tauto.
    destruct (decide (code b = "DATA")); reflexivity.
  - intros E w. rewrite decide_True by exact E. reflexivity.
  - intros E1 E2 E3 w. rewrite decide_False by tauto.
    rewrite decide_False by exact E3. reflexivity.
Qed.

(** ** C10 *)

(** C10.  The staging path is the destination directory joined with the
    base name of the original, plus the staging suffix, so two originals with
    one base name have one staging path.  Once the hook has staged the first,
    the staging path is in [path_temp_files], and from then on the hook
    returns that path for the second without copying anything: variables and
    world are returned as they were. *)
Theorem staging_reused_for_same_basename (base_dir_dst f1 f2 : bytes)
    (v v1 : PackVars) (w w1 : World) (p : bytes) :
  os_path.basename f1 = os_path.basename f2 ->
  packer.temp_remap_cb base_dir_dst f1 v w = Ok ((p, v1), w1) ->
  p = os_path.join base_dir_dst (os_path.basename f1) ++ "@"
  /\ packer.staging_path base_dir_dst f2 = p
  /\ p ∈ path_temp_files v1
  /\ forall v' w', p ∈ path_temp_files v' ->
       packer.temp_remap_cb base_dir_dst f2 v' w' = Ok ((p, v'), w').
Proof.
  intros Hb H. unfold packer.temp_remap_cb in *.
  assert (packer.staging_path base_dir_dst f2 = packer.staging_path base_dir_dst f1) as E
    by (unfold packer.staging_path; now rewrite Hb).
  rewrite E.
  destruct (decide (packer.staging_path base_dir_dst f1 ∈ path_temp_files v)) as [Hin|Hin].
  - injection H as <- <- <-. repeat split; auto.
    intros v' w' Hin'. rewrite decide_True by exact Hin'. reflexivity.
  - apply bind_ok_inv in H as ([] & s1 & Hc & H). injection H as <- <- <-.
    repeat split; auto.
    + unfold set_add. simpl. rewrite decide_False by exact Hin. set_solver.
    + intros v' w' Hin'. rewrite decide_True by exact Hin'. reflexivity.
Qed.

(** C10, an instance: two libraries [lib.blend] in two directories. *)
Lemma staging_reused_for_same_basename_witness :
  os_path.basename "/src/a/lib.blend" = os_path.basename "/src/b/lib.blend"
  /\ packer.temp_remap_cb "/dst" "/src/a/lib.blend" (mkPackVars [] []) Samples4.shared_world
     = Ok Samples4.shared_staged
  /\ Samples4.shared_staged.1.1 = "/dst/lib.blend@"
  /\ packer.temp_remap_cb "/dst" "/src/b/lib.blend" Samples4.shared_staged.1.2
       Samples4.shared_staged.2
     = Ok (("/dst/lib.blend@", Samples4.shared_staged.1.2), Samples4.shared_staged.2).
Proof.
  assert (packer.temp_remap_cb "/dst" "/src/a/lib.blend" (mkPackVars [] [])
            Samples4.shared_world = Ok Samples4.shared_staged) as Hrun
    by (apply run_result_ok; vm_compute; reflexivity).
  split; [reflexivity|]. split; [exact Hrun|]. split; [vm_compute; reflexivity|].
  destruct Samples4.shared_staged as [[p v1] w1] eqn:E.
  destruct (staging_reused_for_same_basename "/dst" "/src/a/lib.blend" "/src/b/lib.blend"
              (mkPackVars [] []) v1 Samples4.shared_world w1 p eq_refl Hrun)
    as (Hp & _ & Hin & Hsecond).
  cbn [fst snd]. rewrite (Hsecond v1 w1 Hin). rewrite Hp. reflexivity.
Defined.

(** ** C5 *)

(** C5.  The body of the loop of [pack], on a reference whose path field
    holds the byte string [path_rel] in a file open for writing: it stores
    [b"//" + path_base] in the field, where [path_base] is the last piece of
    [path_rel] after splitting on the backslash and then on the slash, and it
    adds to the copy plan the pair of [path_rel] resolved against the
    directory bound to the reference and of the destination directory joined
    with [path_base].  [path_base] is the suffix of [path_rel] after its last
    separator: it holds neither separator, and what precedes it is empty or
    ends with one. *)
Theorem pack_body_flattens (base_dir_dst : bytes) (fp : FilePath) (rootdir : bytes)
    (v : PackVars) (w : World) (path_rel : bytes) :
  FilePathM.filepath fp w = Ok (VBytes path_rel, w) ->
  bf_readonly (fp_file fp) = false ->
  let path_base := packer.path_base_of path_rel in
  let entry := (utils.abspath path_rel (basedir fp),
                os_path.join base_dir_dst path_base) in
  (exists w',
      packer.pack_body base_dir_dst (fp, rootdir) v w =
        Ok (mkPackVars (path_temp_files v) (set_add entry (path_copy_files v)), w')
      /\ FilePathM.filepath fp w' = Ok (VBytes ("//" ++ path_base), w'))
  /\ entry ∈ set_add entry (path_copy_files v)
  /\ (exists pre, path_rel = pre ++ path_base
        /\ Bytes.mem slash path_base = false
        /\ Bytes.mem backslash path_base = false
        /\ (pre = "" \/ Bytes.endswith1 slash pre = true
            \/ Bytes.endswith1 backslash pre = true)).
Proof.
  intros Hget Hrw path_base entry. split; [|split].
  - unfold FilePathM.filepath in Hget.
    destruct (set_then_get _ _ _ _ (VBytes ("//" ++ path_base)) _ Hget Hrw)
      as (w' & Hset & Hget' & _).
    exists w'. split; [|exact Hget'].
    unfold packer.pack_body. simpl.
    unfold FilePathM.filepath. rewrite (bind_ok _ _ _ _ _ Hget).
    unfold FilePathM.set_filepath. simpl.
    rewrite (bind_ok _ _ _ _ _ Hset). reflexivity.
  - unfold set_add. destruct (decide (entry ∈ path_copy_files v)); set_solver.
  - apply path_base_of_spec.
Qed.

(** C5, the example of the specification: the stored path
    [//sub/dir/asset.png] becomes [//asset.png]. *)
Lemma pack_body_flattens_witness :
  FilePathM.filepath Samples2.image_ref Samples2.world_staged
    = Ok (VBytes "//sub/dir/asset.png", Samples2.world_staged)
  /\ exists w',
       packer.pack_body "/dst" (Samples2.image_ref, "/src") (mkPackVars [] [])
         Samples2.world_staged
       = Ok (mkPackVars [] [("/src/sub/dir/asset.png", "/dst/asset.png")], w')
       /\ FilePathM.filepath Samples2.image_ref w' = Ok (VBytes "//asset.png", w').
Proof.
  assert (FilePathM.filepath Samples2.image_ref Samples2.world_staged
          = Ok (VBytes "//sub/dir/asset.png", Samples2.world_staged)) as H
    by (vm_compute; reflexivity).
  split; [exact H|].
  exact (proj1 (pack_body_flattens "/dst" Samples2.image_ref "/src" (mkPackVars [] [])
                  Samples2.world_staged "//sub/dir/asset.png" H eq_refl)).
Defined.

(** ** C3 *)

Lemma range_bounds (n i : Z) : In i (range n) -> 0 <= i < n.
Proof.
  unfold range. rewrite in_map_iff. intros (k & <- & Hk%in_seq). lia.
Qed.

Lemma print_items_ok (blend : BlendFile) (m : Block) (d : BlendData) (l : list Z) (w : World) :
  fs w !! bf_path blend = Some (BlendContent d) ->
  (forall i, In i l -> is_Some (bd_words d !! (file_offset m + pointer_size blend * i))) ->
  foldM (fun i (_ : unit) =>
           (offset <- blendfile.read_pointer blend (file_offset m + pointer_size blend * i) ;;
            print (PrintBlock (blendfile.find_block_from_offset blend offset)))%py) l tt w
  = Ok (tt, mkWorld (fs w) (cwd w)
              (trace w ++ map (fun i => PrintBlock
                                 (blendfile.find_block_from_offset blend
                                    (default 0 (bd_words d !!
                                       (file_offset m + pointer_size blend * i))))) l)).
Proof.
  revert w. induction l as [|i l IH]; intros w Hf Hl; simpl.
  - rewrite app_nil_r. destruct w; reflexivity.
  - destruct (Hl i (or_introl eq_refl)) as [p Hp].
    unfold bind at 1. unfold bind at 1. unfold blendfile.read_pointer at 1.
    rewrite Hf, Hp. simpl.
    rewrite IH; [| exact Hf | intros j Hj; apply Hl; now right].
    simpl. now rewrite <- app_assoc.
Qed.

(** C3, as amended.  The expansion rule of a mesh yields no record, whatever
    the material count: the loop body is never run and the loop-carried value
    is returned as it was.  For a zero count nothing else happens; for a
    non-zero count [n] whose material pointer addresses a [DATA] record, the
    rule reads the [n] elements of the pointer array (element [i] at the base
    offset plus [i] times the pointer size) and prints each of them. *)
Theorem expand_ME_yields_nothing {Acc : Type} (fuel : nat) (blend : BlendFile) (b : Block)
    (body : option Block -> Acc -> M World Acc) (acc : Acc) (w : World) (n : Z) :
  blendfile.get blend b "totcol" w = Ok (VInt n, w) ->
  (n = 0 /\ ExpandID.expand_ME fuel blend b body acc w = Ok (acc, w))
  \/ (n <> 0 /\
      forall m d,
        blendfile.get_pointer blend b "mat" w = Ok (Some m, w) ->
        code m = "DATA" ->
        fs w !! bf_path blend = Some (BlendContent d) ->
        (forall i, 0 <= i < n ->
           is_Some (bd_words d !! (file_offset m + pointer_size blend * i))) ->
        ExpandID.expand_ME fuel blend b body acc w
        = Ok (acc, mkWorld (fs w) (cwd w)
                     (trace w ++ PrintMaterials (VInt n)
                              :: map PrintBlock (array_items blend d m n)))).
Proof.
  intros Hn. unfold ExpandID.expand_ME. rewrite (bind_ok _ _ _ _ _ Hn).
  destruct (decide (n = 0)) as [->|Hne].
  - left. split; [reflexivity|]. rewrite decide_True by reflexivity. reflexivity.
  - right. split; [exact Hne|]. intros m d Hm Hc Hf Hw.
    rewrite decide_False by congruence.
    rewrite (bind_ok _ _ _ _ _ Hm). unfold bind at 1. simpl.
    unfold bf_utils.iter_array. rewrite decide_True by exact Hc.
    unfold bind at 1.
    rewrite (print_items_ok blend m d (range n)); simpl; auto.
    + unfold array_items. rewrite map_map. now rewrite <- app_assoc.
    + intros i Hi. apply Hw. now apply range_bounds.
Qed.

(** C3, an instance: the sample mesh with two material slots. *)
Lemma expand_ME_yields_nothing_witness :
  blendfile.get Samples2.mesh_handle (mkBlock 0 "ME" 100 0) "totcol" Samples2.mesh_world
    = Ok (VInt 2, Samples2.mesh_world)
  /\ ExpandID.expand_ME 0%nat Samples2.mesh_handle (mkBlock 0 "ME" 100 0) collect []
       Samples2.mesh_world
     = Ok ([], mkWorld (fs Samples2.mesh_world) "/"
                 [PrintMaterials (VInt 2);
                  PrintBlock (Some (mkBlock 2 "MA" 600 0));
                  PrintBlock (Some (mkBlock 3 "MA" 700 0))]).
Proof.
  assert (blendfile.get Samples2.mesh_handle (mkBlock 0 "ME" 100 0) "totcol"
            Samples2.mesh_world = Ok (VInt 2, Samples2.mesh_world)) as H
    by (vm_compute; reflexivity).
  split; [exact H|].
  destruct (expand_ME_yields_nothing 0%nat Samples2.mesh_handle (mkBlock 0 "ME" 100 0)
              collect [] Samples2.mesh_world 2 H) as [[H0 _]|[_ H2]]; [discriminate|].
  rewrite (H2 (mkBlock 1 "DATA" 500 64) Samples2.mesh_blend);
    [reflexivity | vm_compute; reflexivity | reflexivity | reflexivity |].
  intros i Hi.
  assert (i = 0 \/ i = 1) as [-> | ->] by lia; vm_compute; eauto.
Defined.

(** C3, counterexample.  The material array of the sample mesh has two
    elements (the count field is 2 and [iter_array] yields both material
    records); the expansion rule of the mesh yields none of them. *)
Lemma expand_ME_counterexample :
  bf_utils.iter_array Samples2.mesh_handle (Some (mkBlock 1 "DATA" 500 64)) (VInt 2)
    collect [] Samples2.mesh_world
  = Ok ([Some (mkBlock 2 "MA" 600 0); Some (mkBlock 3 "MA" 700 0)], Samples2.mesh_world)
  /\ blendfile.get Samples2.mesh_handle (mkBlock 0 "ME" 100 0) "totcol" Samples2.mesh_world
     = Ok (VInt 2, Samples2.mesh_world)
  /\ blendfile.get_pointer Samples2.mesh_handle (mkBlock 0 "ME" 100 0) "mat"
       Samples2.mesh_world
     = Ok (Some (mkBlock 1 "DATA" 500 64), Samples2.mesh_world)
  /\ exists w',
       ExpandID.expand_ME 0%nat Samples2.mesh_handle (mkBlock 0 "ME" 100 0) collect []
         Samples2.mesh_world = Ok ([], w').
Proof.
  split; [vm_compute; reflexivity|]. split; [vm_compute; reflexivity|].
  split; [vm_compute; reflexivity|]. eexists. vm_compute. reflexivity.
Qed.

(** ** Loops *)

Lemma foldM_ext {S A Acc} (f g : A -> Acc -> M S Acc) (l : list A) :
  (forall x acc s, In x l -> f x acc s = g x acc s) ->
  forall acc s, foldM f l acc s = foldM g l acc s.
Proof.
  induction l as [|x l IH]; intros H acc s; simpl; [reflexivity|].
  unfold bind. rewrite (H x acc s (or_introl eq_refl)).
  destruct (g x acc s) as [[a s1]| |]; [|reflexivity|reflexivity].
  apply IH. intros y acc' s' Hy. apply H. now right.
Qed.

(** A loop whose rounds keep an invariant keeps it. *)
Lemma foldM_inv {S A Acc} (J : Acc -> S -> Prop) (f : A -> Acc -> M S Acc) (l : list A) :
  (forall x acc s acc' s', In x l -> J acc s -> f x acc s = Ok (acc', s') -> J acc' s') ->
  forall acc s acc' s', J acc s -> foldM f l acc s = Ok (acc', s') -> J acc' s'.
Proof.
  induction l as [|x l IH]; intros H acc s acc' s' HJ Hr; simpl in Hr.
  - injection Hr as <- <-. exact HJ.
  - apply bind_ok_inv in Hr as (a & s1 & H1 & H2).
    eapply IH; [| |exact H2].
    + intros y a0 s0 a0' s0' Hy. apply H. now right.
    + eapply H; [now left | exact HJ | exact H1].
Qed.

(** ** C1: the nested visit receives no registry *)

(** X1.  In a visit that received no [lib_visit], as every nested visit
    does, each round of the loop over the library table raises
    [AttributeError], whatever the library entry and the world. *)
Lemma follow_lib_without_registry {Acc : Type}
    (visit : bytes -> option (gset value) -> Acc -> M World (option registry * Acc))
    (filepath basedir : bytes) (level : nat) (lib : value * gset value)
    (acc : Acc) (w : World) :
  FilePathM.follow_lib visit filepath basedir level lib (None, acc) w
  = Raise AttributeError.
Proof.
  unfold FilePathM.follow_lib, abspath_value. destruct lib as [[p|n] names]; reflexivity.
Qed.

(** C1 (the code departs from the claim).  The file [a.blend] links the mesh
    [MEy] from [b.blend], and [b.blend], which has a mesh of that name of its
    own, links [MEy] back from [a.blend].  [pack] does not complete on this
    cyclic pair: the recursive call of [visit_from_blend] passes no
    [lib_visit], so the visit of [b.blend] has no registry to consult, and the
    first library it has to follow raises [AttributeError].  This holds for
    every amount of fuel that lets the walk reach the library. *)
Theorem cyclic_libraries_crash (o : SetOrder) (n : nat) :
  packer.pack o (3 + n) "/src/a.blend" "/dst/a.blend" Samples3.cyclic_world
  = Raise AttributeError.
Proof. vm_compute. reflexivity. Qed.

(** ** C2 *)

(** C2, counterexample.  The root file names the library [/src/libs/lib.blend]
    by two path strings and uses the mesh [MEy] through both.  The second
    round of the loop over the library table finds [MEy] already in the
    registry, so nothing remains; the library is visited again all the same,
    with the empty set as filter, and its staging copy is opened a second
    time. *)
Lemma consumed_library_reopened :
  FilePathM.visit_from_blend (packer.pack_body "/dst") (Some (packer.temp_remap_cb "/dst"))
    5 "/src/root.blend" false true None None 0 (Some ∅) (mkPackVars [] [])
    Samples3.twice_world = Ok Runs.walked_twice
  /\ visits (trace Runs.walked_twice.2)
     = [(0, "/src/root.blend"); (1, "/src/libs/lib.blend"); (1, "/src/libs/lib.blend")]%nat
  /\ visit_filters (trace Runs.walked_twice.2) = [None; Some {[VBytes "MEy"]}; Some ∅]
  /\ opened_paths (trace Runs.walked_twice.2)
     = [("/dst/root.blend@", false); ("/dst/lib.blend@", false);
        ("/dst/lib.blend@", false)].
Proof.
  split; [|split; [|split]]; [|vm_compute; reflexivity..].
  apply run_result_ok. vm_compute. reflexivity.
Qed.

(** ** Inversion of the primitive operations *)

Lemma print_inv (e : Event) (w w' : World) (u : unit) :
  print e w = Ok (u, w') -> w' = add_event w e.
Proof. unfold print, modify. now intros [= _ <-]. Qed.

Lemma gets_inv {A} (f : World -> A) (w w' : World) (a : A) :
  gets f w = Ok (a, w') -> a = f w /\ w' = w.
Proof. unfold gets. now intros [= <- <-]. Qed.

Lemma get_inv (blend : BlendFile) (b : Block) (f : bytes) (w w' : World) (v : value) :
  blendfile.get blend b f w = Ok (v, w') -> w' = w.
Proof.
  unfold blendfile.get. destruct (blendfile.stored blend b w) as [sb|]; [|discriminate].
  destruct (sb_fields sb !! f); [|discriminate]. now intros [= _ <-].
Qed.

Lemma get_pointer_inv (blend : BlendFile) (b : Block) (f : bytes) (w w' : World)
    (r : option Block) :
  blendfile.get_pointer blend b f w = Ok (r, w') -> w' = w.
Proof.
  unfold blendfile.get_pointer. intros H. apply bind_ok_inv in H as (v & s1 & H1 & H2).
  apply get_inv in H1 as ->. destruct v; [discriminate|]. now injection H2 as _ <-.
Qed.

Lemma read_pointer_inv (blend : BlendFile) (o : Z) (w w' : World) (p : Z) :
  blendfile.read_pointer blend o w = Ok (p, w') -> w' = w.
Proof.
  unfold blendfile.read_pointer.
  destruct (fs w !! bf_path blend) as [[d| |]|]; try discriminate.
  destruct (bd_words d !! o); [|discriminate]. now intros [= _ <-].
Qed.

Lemma open_blend_inv (p : bytes) (ro : bool) (w w' : World) (blend : BlendFile) :
  blendfile.open_blend p ro w = Ok (blend, w') ->
  w' = add_event w (IoOpen p ro) /\ bf_path blend = p /\ bf_readonly blend = ro.
Proof.
  unfold blendfile.open_blend. destruct (fs w !! p) as [[d| |]|]; try discriminate.
  intros [= <- <-]. auto.
Qed.

Lemma close_inv (blend : BlendFile) (w w' : World) (u : unit) :
  blendfile.close blend w = Ok (u, w') -> w' = add_event w (IoClose (bf_path blend)).
Proof. apply print_inv. Qed.

Lemma ret_inv {S A} (a a' : A) (s s' : S) : ret a s = Ok (a', s') -> a' = a /\ s' = s.
Proof. unfold ret. now intros [= <- <-]. Qed.

(** Inversion of a successful run, one step at a time. *)
Ltac minv1 :=
  match goal with
  | H : bind _ _ _ = Ok _ |- _ =>
      let a := fresh "a" in let s := fresh "w" in
      let H1 := fresh "H" in let H2 := fresh "H" in
      apply bind_ok_inv in H as (a & s & H1 & H2)
  | H : ret _ _ = Ok (_, _) |- _ => apply ret_inv in H as [? ?]; subst
  | H : ret _ _ = Ok ?r |- _ => destruct r; apply ret_inv in H as [? ?]; subst
  | H : raise _ _ = Ok _ |- _ => discriminate H
  | H : out_of_fuel _ = Ok _ |- _ => discriminate H
  | H : print _ _ = Ok _ |- _ => apply print_inv in H; subst
  | H : blendfile.close _ _ = Ok _ |- _ => apply close_inv in H; subst
  | H : gets _ _ = Ok _ |- _ => apply gets_inv in H as [? ?]; subst
  | H : blendfile.get _ _ _ ?w = Ok (_, ?w') |- _ =>
      lazymatch w' with w => fail | _ => pose proof (get_inv _ _ _ _ _ _ H); subst w' end
  | H : blendfile.get_pointer _ _ _ ?w = Ok (_, ?w') |- _ =>
      lazymatch w' with w => fail | _ => pose proof (get_pointer_inv _ _ _ _ _ _ H); subst w' end
  | H : blendfile.read_pointer _ _ ?w = Ok (_, ?w') |- _ =>
      lazymatch w' with w => fail | _ => pose proof (read_pointer_inv _ _ _ _ _ H); subst w' end
  end.
Ltac minv := repeat minv1.

(** ** C2: a visit filtered by the empty set *)

Section EmptyFilter.
Context {Acc : Type}.

Lemma iter_blocks_id_empty (fuel : nat) (blend : BlendFile) (c : bytes)
      (y : Block -> Acc -> M World Acc) (st : option (gset value) * Acc) (w : World) :
    FilePathM.iter_blocks_id fuel blend (Some ∅) c y st w
    = foldM (fun b st => (name <- blendfile.get blend b "id.name" ;; ret st)%py)
            (blendfile.find_blocks_from_code blend c) st w.
Proof.
    unfold FilePathM.iter_blocks_id. apply foldM_ext. intros b st' s _.
    unfold bind. destruct (blendfile.get blend b "id.name" s) as [[v s1]| |]; reflexivity.
Qed.

Lemma iter_blocks_id_empty_ok (fuel : nat) (blend : BlendFile) (c : bytes)
      (y : Block -> Acc -> M World Acc) (st st' : option (gset value) * Acc) (w w' : World) :
    FilePathM.iter_blocks_id fuel blend (Some ∅) c y st w = Ok (st', w') ->
    st' = st /\ w' = w.
Proof.
    rewrite iter_blocks_id_empty.
    apply (foldM_inv (fun a s => a = st /\ s = w)); [|auto].
    intros b a s a' s' _ [-> ->] H. minv. auto.
Qed.

Variables body1 body2 : FilePath * bytes -> Acc -> M World Acc.

Lemma scan_codes_empty (fuel : nat) (blend : BlendFile) (basedir rootdir : bytes)
      (st : option (gset value) * Acc) (w : World) :
    FilePathM.scan_codes body1 fuel blend (Some ∅) basedir rootdir st w
    = FilePathM.scan_codes body2 fuel blend (Some ∅) basedir rootdir st w.
Proof.
    unfold FilePathM.scan_codes. apply foldM_ext. intros c st' s _.
    destruct (FilePathM.skipped_code c); [reflexivity|].
    unfold bind. destruct (print (PrintScanning c) s) as [[u s1]| |]; reflexivity.
Qed.

Lemma scan_codes_empty_ok (fuel : nat) (blend : BlendFile) (basedir rootdir : bytes)
      (st st' : option (gset value) * Acc) (w w' : World) :
    FilePathM.scan_codes body1 fuel blend (Some ∅) basedir rootdir st w = Ok (st', w') ->
    st' = st /\ fs w' = fs w /\ cwd w' = cwd w.
Proof.
    unfold FilePathM.scan_codes.
    apply (foldM_inv (fun a s => a = st /\ fs s = fs w /\ cwd s = cwd w)); [|auto].
    intros c a s a' s' _ (-> & Hf & Hc) H.
    destruct (FilePathM.skipped_code c); minv; [auto|].
    apply iter_blocks_id_empty_ok in H1 as [-> ->]. auto.
Qed.

Lemma scan_libs_empty (fuel : nat) (blend : BlendFile) (basedir rootdir : bytes)
      (st : option (gset value) * Acc) (w : World) :
    FilePathM.scan_libs body1 fuel blend (Some ∅) basedir rootdir st w
    = FilePathM.scan_libs body2 fuel blend (Some ∅) basedir rootdir st w.
Proof. unfold FilePathM.scan_libs. now rewrite !iter_blocks_id_empty. Qed.

End EmptyFilter.

Lemma collect_libs_empty_ok (blend : BlendFile) (w w' : World)
    (lib_all : list (value * gset value)) :
  FilePathM.collect_libs blend (Some ∅) w = Ok (lib_all, w') -> lib_all = [] /\ w' = w.
Proof.
  unfold FilePathM.collect_libs.
  apply (foldM_inv (fun a s => a = [] /\ s = w)); [|auto].
  intros b a s a' s' _ [-> ->] H. minv.
  rewrite bool_decide_false in H1 by set_solver. minv. auto.
Qed.

Lemma bind_ext {S A B} (m : M S A) (k1 k2 : A -> M S B) (s : S) :
  (forall a s1, k1 a s1 = k2 a s1) -> bind m k1 s = bind m k2 s.
Proof. intros H. unfold bind. destruct (m s) as [[a s1]| |]; auto. Qed.

Lemma expand_codes_init_nested (level : nat) (codes : gset value) :
  FilePathM.expand_codes_init true (S level) (Some codes) = Some ∅.
Proof.
  reflexivity.
Qed.

Section EmptyVisit.
Context {Acc : Type}.
Variables body body' : FilePath * bytes -> Acc -> M World Acc.
Variable hook : bytes -> Acc -> M World (bytes * Acc).

Lemma scan_blend_empty (fuel : nat) (blend : BlendFile) (basedir rootdir : bytes)
      (acc : Acc) (w : World) :
    FilePathM.scan_blend body fuel blend true (Some ∅) (Some ∅) basedir rootdir acc w
    = FilePathM.scan_blend body' fuel blend true (Some ∅) (Some ∅) basedir rootdir acc w.
Proof.
    unfold FilePathM.scan_blend.
    unfold bind at 1 4. rewrite (scan_codes_empty body body').
    destruct (FilePathM.scan_codes body' fuel blend (Some ∅) basedir rootdir (Some ∅, acc) w)
      as [[st s1]| |]; [|reflexivity|reflexivity].
    apply bind_ext. intros lib_all s2.
    unfold bind. now rewrite (scan_libs_empty body body').
Qed.

Lemma scan_blend_empty_ok (fuel : nat) (blend : BlendFile) (basedir rootdir : bytes)
      (acc : Acc) (w w' : World) (r : list (value * gset value) * Acc) :
    FilePathM.scan_blend body fuel blend true (Some ∅) (Some ∅) basedir rootdir acc w
      = Ok (r, w') ->
    r = ([], acc) /\ fs w' = fs w.
Proof.
    unfold FilePathM.scan_blend. intros H.
    apply bind_ok_inv in H as (st & w1 & Hcodes & H).
    apply scan_codes_empty_ok in Hcodes as (-> & Hf & _).
    apply bind_ok_inv in H as (lib_all & w2 & Hlibs & H).
    apply collect_libs_empty_ok in Hlibs as [-> ->].
    apply bind_ok_inv in H as (st & w3 & Hli & H).
    apply iter_blocks_id_empty_ok in Hli as [-> ->].
    apply ret_inv in H as [-> ->]. auto.
Qed.

Lemma visit_empty_filter_body (fuel : nat) (p : bytes) (readonly : bool)
      (rootdir : option bytes) (level : nat) (acc : Acc) (w : World) :
    FilePathM.visit_from_blend body (Some hook) fuel p readonly true (Some ∅) rootdir
      (S level) None acc w
    = FilePathM.visit_from_blend body' (Some hook) fuel p readonly true (Some ∅) rootdir
      (S level) None acc w.
Proof.
    destruct fuel as [|fuel]; [reflexivity|].
    cbn [FilePathM.visit_from_blend]. rewrite expand_codes_init_nested.
    apply bind_ext; intros _ w1. apply bind_ext; intros _ w2.
    apply bind_ext; intros wd w3. apply bind_ext; intros tmp w4.
    apply bind_ext; intros blend w5.
    unfold bind at 1 3. rewrite <- scan_blend_empty.
    destruct (FilePathM.scan_blend body fuel blend true (Some ∅) (Some ∅)
                (os_path.dirname (os_path.abspath wd p))
                (default (os_path.dirname (os_path.abspath wd p)) rootdir) tmp.2 w5)
      as [[scanned w6]| |] eqn:E; [|reflexivity|reflexivity].
    apply scan_blend_empty_ok in E as [-> _].
    apply bind_ext; intros _ w7. reflexivity.
Qed.

Lemma visit_empty_filter_ok (fuel : nat) (p : bytes) (readonly : bool)
      (rootdir : option bytes) (level : nat) (acc : Acc) (w w' : World)
      (r : option registry * Acc) :
    FilePathM.visit_from_blend body (Some hook) fuel p readonly true (Some ∅) rootdir
      (S level) None acc w = Ok (r, w') ->
    exists tmp acc1 w1 blend w2,
      hook p acc (add_event (add_event w (PrintOpening (S level) p))
                            (PrintBlocks (S level) (Some ∅)))
        = Ok ((tmp, acc1), w1)
      /\ blendfile.open_blend tmp readonly w1 = Ok (blend, w2)
      /\ r = (None, acc1) /\ fs w' = fs w1.
Proof.
    destruct fuel as [|fuel]; [discriminate|].
    cbn [FilePathM.visit_from_blend]. rewrite expand_codes_init_nested. intros H.
    apply bind_ok_inv in H as (? & w1 & Hp1 & H). apply print_inv in Hp1 as ->.
    apply bind_ok_inv in H as (? & w2 & Hp2 & H). apply print_inv in Hp2 as ->.
    apply bind_ok_inv in H as (wd & w3 & Hwd & H). apply gets_inv in Hwd as [-> ->].
    apply bind_ok_inv in H as ([tmp acc1] & w4 & Hhook & H).
    apply bind_ok_inv in H as (blend & w5 & Hopen & H).
    apply bind_ok_inv in H as (scanned & w6 & Hscan & H).
    apply bind_ok_inv in H as (? & w7 & Hclose & H). apply close_inv in Hclose as ->.
    apply scan_blend_empty_ok in Hscan as [-> Hfs].
    cbn [fst snd foldM] in H. apply ret_inv in H as [-> ->].
    exists tmp, acc1, w4, blend, w5. split; [exact Hhook|]. split; [exact Hopen|].
    split; [reflexivity|]. cbn. rewrite Hfs.
    apply open_blend_inv in Hopen as (-> & _ & _). reflexivity.
Qed.
End EmptyVisit.

(** C2, as amended.  One round of the loop over the library table
    ([follow_lib], in a visit that has a registry), for every library entry,
    every registry and every recursive visit.  The names already in the
    registry under the absolute path of the library are subtracted from the
    referenced names, the two progress lines are printed, and the recursive
    visit is made unconditionally, also when nothing remains, with the
    remaining set as filter; the registry entry becomes the old entry with
    the remainder added, which is the old entry with the referenced names
    added.  For a library all of whose referenced names are already in the
    registry, the remaining set is empty and the registry entry keeps its
    value, yet the visit is made, with the empty set as filter: when the
    round completes, the remap hook was called on the library, the file it
    returned was opened, the loop-carried variables are those the hook
    returned and the file system is as the hook left it; the loop body of the
    caller plays no part (the round gives the same result with any other
    body), so no PathReference is emitted and no library is followed. *)
Theorem consumed_library_is_visited_again {Acc : Type}
    (body body' : FilePath * bytes -> Acc -> M World Acc)
    (hook : bytes -> Acc -> M World (bytes * Acc))
    (fuel : nat) (filepath basedir : bytes) (readonly : bool) (rootdir : bytes)
    (level : nat) (lib_path : bytes) (names : gset value) (reg : registry)
    (acc : Acc) (w : World) :
  let lib_path_abs := utils.abspath lib_path basedir in
  let existing := default ∅ (reg !! lib_path_abs) in
  let remaining := names ∖ existing in
  let visit := fun b lib_path_abs lib_block_codes acc =>
    FilePathM.visit_from_blend b (Some hook) fuel lib_path_abs readonly true
      lib_block_codes (Some rootdir) (level + 1) None acc in
  (forall visit0 : bytes -> option (gset value) -> Acc -> M World (option registry * Acc),
     FilePathM.follow_lib visit0 filepath basedir level (VBytes lib_path, names)
       (Some reg, acc) w
     = (r <- visit0 lib_path_abs (Some remaining) acc ;;
        ret (Some (<[lib_path_abs := existing ∪ remaining]> reg), r.2))%py
         (add_event (add_event w (PrintLibrary level filepath lib_path_abs))
                    (PrintLibraryCodes level remaining)))
  /\ existing ∪ remaining = existing ∪ names
  /\ (names ⊆ existing ->
      forall (r : option registry * Acc) (w' : World),
        FilePathM.follow_lib (visit body) filepath basedir level (VBytes lib_path, names)
          (Some reg, acc) w = Ok (r, w') ->
        exists w0 tmp acc1 w1 blend w2,
          fs w0 = fs w
          /\ trace w0 = (trace w ++ [PrintLibrary level filepath lib_path_abs;
                                    PrintLibraryCodes level ∅;
                                    PrintOpening (level + 1) lib_path_abs;
                                    PrintBlocks (level + 1) (Some ∅)])%list
          /\ hook lib_path_abs acc w0 = Ok ((tmp, acc1), w1)
          /\ blendfile.open_blend tmp readonly w1 = Ok (blend, w2)
          /\ r = (Some (<[lib_path_abs := existing]> reg), acc1)
          /\ fs w' = fs w1
          /\ FilePathM.follow_lib (visit body') filepath basedir level
               (VBytes lib_path, names) (Some reg, acc) w = Ok (r, w')).
Proof.
  intros lib_path_abs existing remaining visit.
  split; [intros visit0; reflexivity|].
  split.
  { apply set_eq. intros x. subst remaining.
    rewrite !elem_of_union, elem_of_difference.
    destruct (decide (x ∈ existing)); tauto. }
  intros Hsub r w' H. subst visit remaining existing lib_path_abs.
  set (lib_path_abs := utils.abspath lib_path basedir) in *.
  assert (names ∖ default ∅ (reg !! lib_path_abs) = ∅) as Hrem by set_solver.
  assert (default ∅ (reg !! lib_path_abs) ∪ names ∖ default ∅ (reg !! lib_path_abs)
          = default ∅ (reg !! lib_path_abs)) as Hreg by set_solver.
  unfold FilePathM.follow_lib in *. cbn [fst snd abspath_value] in *.
  fold lib_path_abs in H |- *.
  assert (forall k : bytes -> M World (option registry * Acc),
            bind (ret lib_path_abs) k w = k lib_path_abs w) as Hret by reflexivity.
  rewrite Hret in *. cbn beta in *.
  rewrite Hrem, Hreg in *. replace (level + 1)%nat with (S level) in * by lia.
  assert (forall (e : Event) (k : unit -> M World (option registry * Acc)) s,
            bind (print e) k s = k tt (add_event s e)) as Hprint by reflexivity.
  rewrite !Hprint in *.
  set (w0 := add_event (add_event w _) _) in *.
  assert ((r <- FilePathM.visit_from_blend body' (Some hook) fuel lib_path_abs readonly true
                  (Some ∅) (Some rootdir) (S level) None acc ;;
           ret (Some (<[lib_path_abs:=default ∅ (reg !! lib_path_abs)]> reg), r.2))%py w0
          = Ok (r, w')) as H'.
  { rewrite <- H. unfold bind. now rewrite (visit_empty_filter_body body' body). }
  apply bind_ok_inv in H as (rv & w1 & Hv & H). apply ret_inv in H as [-> ->].
  apply visit_empty_filter_ok in Hv as (tmp & acc1 & w2 & blend & w3 & Hh & Ho & -> & Hf).
  exists (add_event (add_event w0 (PrintOpening (S level) lib_path_abs))
                    (PrintBlocks (S level) (Some ∅))), tmp, acc1, w2, blend, w3.
  split; [reflexivity|]. split; [cbn; rewrite <- !app_assoc; reflexivity|].
  split; [exact Hh|]. split; [exact Ho|]. split; [reflexivity|]. split; [exact Hf|].
  exact H'.
Qed.

(** C2, an instance: the library of the sample world, whose mesh [MEy] is in
    the registry already. *)
Lemma consumed_library_is_visited_again_witness :
  ({[VBytes "MEy"]} : gset value)
    ⊆ default ∅ (Runs.consumed_registry !! utils.abspath "//libs/lib.blend" "/src")
  /\ FilePathM.follow_lib
       (fun lib_path_abs lib_block_codes acc =>
          FilePathM.visit_from_blend (packer.pack_body "/dst")
            (Some (packer.temp_remap_cb "/dst")) 3 lib_path_abs false true
            lib_block_codes (Some "/src") (0 + 1) None acc)
       "/src/root.blend" "/src" 0 (VBytes "//libs/lib.blend", {[VBytes "MEy"]})
       (Some Runs.consumed_registry, mkPackVars [] []) Samples.world0
     = Ok Runs.followed_consumed
  /\ opened_paths (trace Runs.followed_consumed.2) = [("/dst/lib.blend@", false)]
  /\ exists tmp w1 blend w2, blendfile.open_blend tmp false w1 = Ok (blend, w2).
Proof.
  assert (({[VBytes "MEy"]} : gset value)
            ⊆ default ∅ (Runs.consumed_registry
                           !! utils.abspath "//libs/lib.blend" "/src")) as Hsub.
  { change (utils.abspath "//libs/lib.blend" "/src") with "/src/libs/lib.blend".
    unfold Runs.consumed_registry. rewrite lookup_singleton_eq. reflexivity. }
  assert (FilePathM.follow_lib
       (fun lib_path_abs lib_block_codes acc =>
          FilePathM.visit_from_blend (packer.pack_body "/dst")
            (Some (packer.temp_remap_cb "/dst")) 3 lib_path_abs false true
            lib_block_codes (Some "/src") (0 + 1) None acc)
       "/src/root.blend" "/src" 0 (VBytes "//libs/lib.blend", {[VBytes "MEy"]})
       (Some Runs.consumed_registry, mkPackVars [] []) Samples.world0
     = Ok Runs.followed_consumed) as Hrun
    by (apply run_result_ok; vm_compute; reflexivity).
  split; [exact Hsub|]. split; [exact Hrun|]. split; [vm_compute; reflexivity|].
  rewrite (surjective_pairing Runs.followed_consumed) in Hrun.
  destruct (proj2 (proj2 (consumed_library_is_visited_again (packer.pack_body "/dst")
              (packer.pack_body "/dst") (packer.temp_remap_cb "/dst") 3
              "/src/root.blend" "/src" false "/src" 0 "//libs/lib.blend"
              {[VBytes "MEy"]} Runs.consumed_registry
              (mkPackVars [] []) Samples.world0)) Hsub _ _ Hrun)
    as (w0 & tmp & acc1 & w1 & blend & w2 & _ & _ & _ & Ho & _).
  exists tmp, w1, blend, w2. exact Ho.
Defined.

(** ** Invariants of the expansion rules *)

Section RuleInvariant.
Context {Acc : Type}.
Variable blend : BlendFile.
Variable J : Acc -> World -> Prop.
Variable Gd : Block -> Prop.
Hypothesis J_event : forall acc w e, not_open e -> J acc w -> J acc (add_event w e).
  (** No [data] or [ob] pointer of the open file leads outside [Gd]. *)
Hypothesis reach : forall acc w b0 f sb,
    J acc w -> f = "data" \/ f = "ob" ->
    blendfile.get_pointer blend b0 f w = Ok (Some sb, w) -> Gd sb.
Variable body : option Block -> Acc -> M World Acc.
Hypothesis body_J : forall sub acc w acc' w',
    (forall sb, sub = Some sb -> Gd sb) ->
    J acc w -> body sub acc w = Ok (acc', w') -> J acc' w'.

Lemma iter_ListBase_J (fuel : nat) (first : option Block) (acc : Acc) (w : World)
      (acc' : Acc) (w' : World) :
    J acc w ->
    bf_utils.iter_ListBase fuel blend first
      (fun gobj acc => (ob <- blendfile.get_pointer blend gobj "ob" ;; body ob acc)%py)
      acc w = Ok (acc', w') ->
    J acc' w'.
Proof.
    revert first acc w. induction fuel as [|fuel IH]; intros first acc w HJ H.
    - destruct first; simpl in H; [discriminate|]. apply ret_inv in H as [-> ->]. exact HJ.
    - destruct first as [gobj|]; simpl in H.
      + apply bind_ok_inv in H as (acc1 & w1 & Hb & H).
        apply bind_ok_inv in Hb as (ob & w0 & Hob & Hb).
        pose proof (get_pointer_inv _ _ _ _ _ _ Hob) as ->.
        apply bind_ok_inv in H as (nxt & w2 & Hn & H).
        pose proof (get_pointer_inv _ _ _ _ _ _ Hn) as ->.
        eapply IH; [|exact H].
        eapply body_J; [|exact HJ|exact Hb].
        intros sb ->. eapply reach; [exact HJ|right; reflexivity|exact Hob].
      + apply ret_inv in H as [-> ->]. exact HJ.
Qed.

Lemma print_items_J (mat : option Block) (n : value) (acc : Acc) (w w' : World) (u : unit) :
    J acc w ->
    bf_utils.iter_array blend mat n (fun item _ => print (PrintBlock item)) tt w
      = Ok (u, w') ->
    J acc w'.
Proof.
    unfold bf_utils.iter_array. intros HJ H.
    destruct mat as [m|]; [|discriminate].
    destruct (decide (code m = "DATA")); [|discriminate].
    destruct n as [|n]; [discriminate|].
    revert H. apply (foldM_inv (fun _ s => J acc s)); [|exact HJ].
    intros i a s a' s' _ HJs H.
    apply bind_ok_inv in H as (o & s1 & Ho & H).
    pose proof (read_pointer_inv _ _ _ _ _ Ho) as ->.
    apply print_inv in H as ->. apply J_event; [discriminate|exact HJs].
Qed.

Lemma rule_J (c : bytes) (fn : ExpandID.rule Acc) (fuel : nat) (b : Block)
      (acc : Acc) (w : World) (acc' : Acc) (w' : World) :
    ExpandID.expand_funcs_get c = Some fn ->
    J acc w -> fn fuel blend b body acc w = Ok (acc', w') -> J acc' w'.
Proof.
    unfold ExpandID.expand_funcs_get. intros Hfn HJ H.
    repeat match type of Hfn with
           | (if ?d then _ else _) = _ => destruct d
           end; try discriminate; injection Hfn as <-.
    - (* OB *)
      unfold ExpandID.expand_OB in H. apply bind_ok_inv in H as (sub & w1 & Hs & H).
      pose proof (get_pointer_inv _ _ _ _ _ _ Hs) as ->.
      eapply body_J; [|exact HJ|exact H].
      intros sb ->. eapply reach; [exact HJ|left; reflexivity|exact Hs].
    - (* ME *)
      unfold ExpandID.expand_ME in H. apply bind_ok_inv in H as (len & w1 & Hn & H).
      pose proof (get_inv _ _ _ _ _ _ Hn) as ->.
      destruct (decide (len = VInt 0)).
      + apply ret_inv in H as [-> ->]. exact HJ.
      + apply bind_ok_inv in H as (mat & w1 & Hm & H).
        pose proof (get_pointer_inv _ _ _ _ _ _ Hm) as ->.
        apply bind_ok_inv in H as (? & w2 & Hp & H). apply print_inv in Hp as ->.
        apply bind_ok_inv in H as (? & w3 & Hi & H). apply ret_inv in H as [-> ->].
        eapply print_items_J; [|exact Hi]. apply J_event; [discriminate|exact HJ].
    - (* MA *)
      unfold ExpandID.expand_MA in H.
      apply bind_ok_inv in H as (? & w2 & Hp & H). apply print_inv in Hp as ->.
      apply ret_inv in H as [-> ->]. apply J_event; [discriminate|exact HJ].
    - (* TE *)
      unfold ExpandID.expand_TE in H. apply ret_inv in H as [-> ->]. exact HJ.
    - (* GR *)
      unfold ExpandID.expand_GR in H.
      destruct (sdna_index_from_id blend !! "GroupObject"); [|discriminate].
      apply bind_ok_inv in H as (first & w1 & Hf & H).
      pose proof (get_pointer_inv _ _ _ _ _ _ Hf) as ->.
      eapply iter_ListBase_J; [exact HJ|exact H].
Qed.
End RuleInvariant.

Lemma expand_funcs_get_terminal {Acc : Type} (c : bytes) (fn : ExpandID.rule Acc) :
  terminal_code c -> ExpandID.expand_funcs_get c = Some fn -> False.
Proof.
  unfold terminal_code, ExpandID.expand_funcs_get. intros (T1 & T2 & T3 & T4 & T5) Hfn.
  repeat match type of Hfn with
         | (if ?d then _ else _) = _ => destruct d
         end; congruence.
Qed.

Lemma collect_libs_inv (blend : BlendFile) (ec : option (gset value)) (w w' : World)
    (lib_all : list (value * gset value)) :
  FilePathM.collect_libs blend ec w = Ok (lib_all, w') -> w' = w.
Proof.
  unfold FilePathM.collect_libs.
  apply (foldM_inv (fun _ s => s = w)); [|reflexivity].
  intros b a s a' s' _ -> H.
  apply bind_ok_inv in H as (keep & w1 & Hk & H).
  assert (w1 = w) as ->.
  { destruct ec; [|now apply ret_inv in Hk as [_ ->]].
    apply bind_ok_inv in Hk as (name & w2 & Hn & Hk).
    apply get_inv in Hn as ->. now apply ret_inv in Hk as [_ ->]. }
  destruct keep; [|now apply ret_inv in H as [_ ->]].
  apply bind_ok_inv in H as (lib_id & w2 & Hl & H). apply get_inv in Hl as ->.
  destruct lib_id as [|a0]; [discriminate|].
  destruct (blendfile.find_block_from_offset blend a0); [|discriminate].
  apply bind_ok_inv in H as (lib_path & w2 & Hl & H). apply get_inv in Hl as ->.
  apply bind_ok_inv in H as (name & w2 & Hl & H). apply get_inv in Hl as ->.
  now apply ret_inv in H as [_ ->].
Qed.

(** ** Invariants of the scan of one file *)

Section ScanInvariant.
Context {Acc : Type}.
Variable blend : BlendFile.
Variable J : Acc -> World -> Prop.
Variable Gd : Block -> Prop.
Hypothesis J_event : forall acc w e, not_open e -> J acc w -> J acc (add_event w e).
Variable yield_ : Block -> Acc -> M World Acc.
Hypothesis yield_J : forall b acc w acc' w',
    Gd b -> J acc w -> yield_ b acc w = Ok (acc', w') -> J acc' w'.

Lemma block_expand_J (fuel : nat) (b : Block) (c : bytes) (st : gset value * Acc)
      (w : World) (st' : gset value * Acc) (w' : World) :
    Gd b -> terminal_code c \/ reach_closed blend J Gd ->
    J st.2 w ->
    FilePathM.block_expand fuel blend yield_ b c st w = Ok (st', w') ->
    J st'.2 w'.
Proof.
    revert b c st w st' w'.
    induction fuel as [|fuel IH]; intros b c st w st' w' Hb Hc HJ H; [discriminate|].
    cbn [FilePathM.block_expand] in H.
    apply bind_ok_inv in H as (name & w1 & Hn & H). apply get_inv in Hn as ->.
    destruct (decide (name ∈ st.1)).
    - apply bind_ok_inv in H as (acc1 & w1 & Hy & H). apply ret_inv in H as [-> ->].
      eapply yield_J; eauto.
    - apply bind_ok_inv in H as (acc1 & w1 & Hy & H).
      pose proof (yield_J _ _ _ _ _ Hb HJ Hy) as HJ1.
      destruct (ExpandID.expand_funcs_get c) as [fn|] eqn:Hfn.
      + destruct Hc as [Hc|Hc]; [destruct (expand_funcs_get_terminal _ _ Hc Hfn)|].
        eapply (rule_J blend (fun st w => J st.2 w) Gd) with (c := c) (fn := fn);
          [| | |exact Hfn| |exact H].
        * intros a s e He. apply J_event. exact He.
        * intros a s b0 f sb. apply Hc.
        * intros sub a s a' s' Hsub HJa Hsubrun.
          destruct sub as [sb|].
          -- eapply IH; [apply Hsub; reflexivity|right; exact Hc|exact HJa|exact Hsubrun].
          -- now apply ret_inv in Hsubrun as [-> ->].
        * exact HJ1.
      + now apply ret_inv in H as [-> ->].
Qed.

Lemma block_expand_sel_J (fuel : nat) (b : Block) (c : bytes)
      (st : option (gset value) * Acc) (w : World)
      (st' : option (gset value) * Acc) (w' : World) :
    Gd b -> st.1 = None \/ terminal_code c \/ reach_closed blend J Gd ->
    J st.2 w ->
    FilePathM.block_expand_sel fuel blend yield_ b c st w = Ok (st', w') ->
    J st'.2 w' /\ (st.1 = None -> st'.1 = None).
Proof.
    intros Hb Hc HJ H. unfold FilePathM.block_expand_sel in H.
    destruct st.1 as [ec|].
    - apply bind_ok_inv in H as (r & w1 & Hr & H). apply ret_inv in H as [-> ->].
      split; [|discriminate].
      destruct Hc as [Hc|Hc]; [discriminate|].
      exact (block_expand_J _ _ _ (ec, st.2) _ _ _ Hb Hc HJ Hr).
    - apply bind_ok_inv in H as (a & w1 & Hy & H). apply ret_inv in H as [-> ->].
      split; [|reflexivity]. eapply yield_J; eauto.
Qed.

Lemma iter_blocks_id_J (fuel : nat) (block_codes : option (gset value)) (c : bytes)
      (st : option (gset value) * Acc) (w : World)
      (st' : option (gset value) * Acc) (w' : World) :
    (forall b, In b (blendfile.find_blocks_from_code blend c) -> Gd b) ->
    st.1 = None \/ terminal_code c \/ reach_closed blend J Gd ->
    J st.2 w ->
    FilePathM.iter_blocks_id fuel blend block_codes c yield_ st w = Ok (st', w') ->
    J st'.2 w' /\ (st.1 = None -> st'.1 = None).
Proof.
    intros Hblocks Hc HJ H. unfold FilePathM.iter_blocks_id in H.
    destruct block_codes as [codes|]; revert H;
      apply (foldM_inv (fun a s => J a.2 s /\ (st.1 = None -> a.1 = None))); auto.
    - intros b a s a' s' Hin [HJa Hnone] H.
      apply bind_ok_inv in H as (name & w1 & Hn & H). apply get_inv in Hn as ->.
      destruct (decide (name ∈ codes)).
      + assert (a.1 = None \/ terminal_code c \/ reach_closed blend J Gd) as Hc'
          by (destruct Hc as [Hc|Hc]; [left; auto|right; exact Hc]).
        destruct (block_expand_sel_J _ _ _ _ _ _ _ (Hblocks b Hin) Hc' HJa H)
          as [HJ' Hnone'].
        split; [exact HJ'|]. auto.
      + apply ret_inv in H as [-> ->]. auto.
    - intros b a s a' s' Hin [HJa Hnone] H.
      apply bind_ok_inv in H as (acc1 & w1 & Hy & H). apply ret_inv in H as [-> ->].
      split; [eapply yield_J; eauto|exact Hnone].
Qed.
End ScanInvariant.

(** ** Invariants of a whole walk *)

Section WalkInvariant.
Context {Acc : Type}.
Variable body : FilePath * bytes -> Acc -> M World Acc.
Variable temp_remap_cb : option (bytes -> Acc -> M World (bytes * Acc)).
Variable readonly : bool.
Variable J : Acc -> World -> Prop.
  (** What is known of the paths that the walker opens. *)
Variable Q : bytes -> Prop.
Hypothesis J_event : forall acc w e, not_open e -> J acc w -> J acc (add_event w e).
Hypothesis J_open : forall acc w p,
    Q p -> J acc w -> J acc (add_event w (IoOpen p readonly)).
Hypothesis body_J : forall fp rd acc w acc' w',
    Q (bf_path (fp_file fp)) -> J acc w -> body (fp, rd) acc w = Ok (acc', w') -> J acc' w'.
Hypothesis hook_J :
    match temp_remap_cb with
    | Some cb => forall f acc w r w',
        J acc w -> cb f acc w = Ok (r, w') -> J r.2 w' /\ Q r.1
    | None => forall p, Q p
    end.

Lemma emit_J (blend : BlendFile) (basedir rootdir : bytes) (b : Block)
      (acc : Acc) (w : World) (acc' : Acc) (w' : World) :
    Q (bf_path blend) -> J acc w ->
    FilePathM.emit body blend basedir rootdir b acc w = Ok (acc', w') -> J acc' w'.
Proof.
    intros HQ HJ. unfold FilePathM.emit. rewrite from_block_cases.
    destruct (decide (code b = "IM" \/ code b = "LI")).
    - apply body_J; [exact HQ|exact HJ].
    - destruct (decide (code b = "DATA")); [discriminate|].
      intros H. now apply ret_inv in H as [-> ->].
Qed.

Lemma scan_blend_J (fuel : nat) (blend : BlendFile) (recursive : bool)
      (block_codes expand_codes : option (gset value)) (basedir rootdir : bytes)
      (acc : Acc) (w : World) (r : list (value * gset value) * Acc) (w' : World) :
    Q (bf_path blend) -> J acc w ->
    FilePathM.scan_blend body fuel blend recursive block_codes expand_codes
      basedir rootdir acc w = Ok (r, w') ->
    J r.2 w'.
Proof.
    intros HQ HJ H. unfold FilePathM.scan_blend in H.
    assert (forall fuel c st s st' s',
              J st.2 s ->
              FilePathM.iter_blocks_id fuel blend block_codes c
                (FilePathM.emit body blend basedir rootdir) st s = Ok (st', s') ->
              J st'.2 s') as Hiter.
    { intros fuel0 c st s st' s' HJs Hrun.
      eapply proj1.
      eapply (iter_blocks_id_J blend J (fun _ => True)); [exact J_event| | | |exact HJs|exact Hrun].
      - intros b a s0 a' s0' _. now apply emit_J.
      - auto.
      - right. right. intros a s0 b0 f sb _ _ _. exact I. }
    apply bind_ok_inv in H as (st & w1 & Hcodes & H).
    assert (J st.2 w1) as HJ1.
    { revert Hcodes. unfold FilePathM.scan_codes.
      apply (foldM_inv (fun st s => J st.2 s)); [|exact HJ].
      intros c a s a' s' _ HJa Hc.
      destruct (FilePathM.skipped_code c); [now apply ret_inv in Hc as [-> ->]|].
      apply bind_ok_inv in Hc as (? & s1 & Hp & Hc). apply print_inv in Hp as ->.
      eapply Hiter; [|exact Hc]. apply J_event; [discriminate|exact HJa]. }
    apply bind_ok_inv in H as (lib_all & w2 & Hlibs & H).
    assert (w2 = w1) as ->.
    { destruct recursive; [now apply collect_libs_inv in Hlibs|].
      now apply ret_inv in Hlibs as [_ ->]. }
    apply bind_ok_inv in H as (st' & w3 & Hli & H). apply ret_inv in H as [-> ->].
    eapply Hiter; [exact HJ1|exact Hli].
Qed.

Lemma visit_J (fuel : nat) (filepath : bytes) (recursive : bool)
      (block_codes : option (gset value)) (rootdir : option bytes) (level : nat)
      (lib_visit : option registry) (acc : Acc) (w : World)
      (r : option registry * Acc) (w' : World) :
    J acc w ->
    FilePathM.visit_from_blend body temp_remap_cb fuel filepath readonly recursive
      block_codes rootdir level lib_visit acc w = Ok (r, w') ->
    J r.2 w'.
Proof.
    revert filepath recursive block_codes rootdir level lib_visit acc w r w'.
    induction fuel as [|fuel IH];
      intros filepath recursive block_codes rootdir level lib_visit acc w r w' HJ H;
      [discriminate|].
    cbn [FilePathM.visit_from_blend] in H.
    apply bind_ok_inv in H as (? & w1 & Hp & H). apply print_inv in Hp as ->.
    apply bind_ok_inv in H as (? & w2 & Hp & H). apply print_inv in Hp as ->.
    apply bind_ok_inv in H as (wd & w3 & Hwd & H). apply gets_inv in Hwd as [-> ->].
    apply bind_ok_inv in H as (tmp & w4 & Hhook & H).
    assert (J tmp.2 w4 /\ Q tmp.1) as [HJ4 HQ].
    { assert (J acc (add_event (add_event w (PrintOpening level filepath))
                               (PrintBlocks level block_codes))) as HJ2
        by (apply J_event; [discriminate|]; apply J_event; [discriminate|exact HJ]).
      destruct temp_remap_cb as [cb|].
      - eapply hook_J; [exact HJ2|exact Hhook].
      - apply ret_inv in Hhook as [-> ->]. split; [exact HJ2|apply hook_J]. }
    apply bind_ok_inv in H as (blend & w5 & Hopen & H).
    apply open_blend_inv in Hopen as (-> & Hpath & _).
    apply bind_ok_inv in H as (scanned & w6 & Hscan & H).
    apply scan_blend_J in Hscan; [|rewrite Hpath; exact HQ|apply J_open; assumption].
    apply bind_ok_inv in H as (? & w7 & Hc & H). apply close_inv in Hc as ->.
    assert (J scanned.2 (add_event w6 (IoClose (bf_path blend)))) as HJ7
      by (apply J_event; [discriminate|exact Hscan]).
    destruct recursive; [|now apply ret_inv in H as [-> ->]].
    revert H. apply (foldM_inv (fun st s => J st.2 s)); [|exact HJ7].
    intros lib st s st' s' _ HJs H. unfold FilePathM.follow_lib in H.
    apply bind_ok_inv in H as (lib_path_abs & s1 & Ha & H).
    assert (s1 = s) as ->
      by (unfold abspath_value in Ha; destruct lib.1; [now apply ret_inv in Ha as [_ ->]|discriminate]).
    destruct st.1 as [reg|]; [|discriminate].
    apply bind_ok_inv in H as (? & s2 & Hp & H). apply print_inv in Hp as ->.
    apply bind_ok_inv in H as (? & s3 & Hp & H). apply print_inv in Hp as ->.
    apply bind_ok_inv in H as (rv & s4 & Hv & H). apply ret_inv in H as [-> ->].
    change (J rv.2 s4).
    eapply IH; [|exact Hv].
    apply J_event; [discriminate|]. apply J_event; [discriminate|exact HJs].
Qed.
End WalkInvariant.

(** ** The file system: directories, copies and moves *)

Lemma isdir_true (w : World) (p : bytes) :
  isdir w p = true <-> fs w !! p = Some Directory.
Proof.
  unfold isdir. destruct (fs w !! p) as [[d|r|]|]; split; congruence.
Qed.

Lemma isdir_false (w : World) (p : bytes) :
  isdir w p = false <-> fs w !! p <> Some Directory.
Proof.
  unfold isdir. destruct (fs w !! p) as [[d|r|]|]; split; congruence.
Qed.

Lemma open_for_writing_isdir (w : World) (p : bytes) :
  open_for_writing w p = None -> isdir w p = false.
Proof.
  unfold open_for_writing, isdir. destruct (fs w !! p) as [[d|r|]|]; congruence.
Qed.

(** Two worlds with the same directories. *)
Lemma parent_exists_ext (w w' : World) (p : bytes) :
  (forall q, isdir w' q = isdir w q) -> parent_exists w' p = parent_exists w p.
Proof. intros H. unfold parent_exists. now rewrite H. Qed.

(** A path that can be opened for writing still can after files have been
    added. *)
Lemma open_for_writing_mono (w w' : World) (p : bytes) :
  (forall q, isdir w' q = isdir w q) ->
  (forall q, is_Some (fs w !! q) -> is_Some (fs w' !! q)) ->
  open_for_writing w p = None -> open_for_writing w' p = None.
Proof.
  intros Hd Hm H. pose proof (open_for_writing_isdir _ _ H) as Hp.
  rewrite <- Hd in Hp. apply isdir_false in Hp.
  unfold open_for_writing in *.
  destruct (fs w' !! p) as [[d|r|]|] eqn:E'; try reflexivity; [congruence|].
  destruct (fs w !! p) as [c|] eqn:E.
  - destruct (Hm p) as [x Hx]; [rewrite E; eauto|]. congruence.
  - rewrite (parent_exists_ext w w' p Hd).
    destruct (parent_exists w p); [reflexivity|discriminate].
Qed.

(** A path whose directory exists can be opened for writing unless it is a
    directory itself. *)
Lemma open_for_writing_parent (w : World) (p : bytes) :
  isdir w p = false -> parent_exists w p = true -> open_for_writing w p = None.
Proof.
  intros Hd Hp. apply isdir_false in Hd. unfold open_for_writing.
  destruct (fs w !! p) as [[d|r|]|]; try reflexivity; [congruence|].
  now rewrite Hp.
Qed.

Lemma isdir_insert (m : gmap bytes FileContent) (cw : bytes) (t : list Event)
    (k : bytes) (c : FileContent) (w : World) (p : bytes) :
  c <> Directory -> isdir w k = false -> fs w = m ->
  isdir (mkWorld (<[k := c]> m) cw t) p = isdir w p.
Proof.
  intros Hc Hk <-. unfold isdir in *. cbn [fs].
  destruct (decide (k = p)) as [->|Hne].
  - rewrite lookup_insert_eq. destruct c; [| |congruence];
      destruct (fs w !! p) as [[d'|r'|]|]; congruence.
  - now rewrite lookup_insert_ne.
Qed.

Lemma isdir_delete (cw : bytes) (t : list Event) (k : bytes) (m : gmap bytes FileContent)
    (w : World) (p : bytes) :
  isdir w k = false -> fs w = m ->
  isdir (mkWorld (delete k m) cw t) p = isdir w p.
Proof.
  intros Hk <-. unfold isdir in *. cbn [fs].
  destruct (decide (k = p)) as [->|Hne].
  - rewrite lookup_delete_eq. destruct (fs w !! p) as [[d'|r'|]|]; congruence.
  - now rewrite lookup_delete_ne.
Qed.

(** *** [shutil.copy] *)

Lemma copy_inv (src dst : bytes) (w : World) (u : unit) (w' : World) :
  shutil.copy src dst w = Ok (u, w') ->
  exists c, fs w !! src = Some c /\ c <> Directory
    /\ src <> shutil.copy_target w src dst
    /\ open_for_writing w (shutil.copy_target w src dst) = None
    /\ w' = mkWorld (<[shutil.copy_target w src dst := c]> (fs w)) (cwd w)
                    (trace w ++ [IoCopy src (shutil.copy_target w src dst)]).
Proof.
  unfold shutil.copy. destruct (fs w !! src) as [c|]; [|discriminate].
  destruct (decide (src = shutil.copy_target w src dst)) as [|Hne]; [discriminate|].
  destruct (open_for_writing w (shutil.copy_target w src dst)) as [e|] eqn:Ho.
  - destruct c; discriminate.
  - intros H. exists c. destruct c; try discriminate; injection H as _ <-;
      repeat split; auto; discriminate.
Qed.

Lemma copy_target_file (w : World) (src dst : bytes) :
  isdir w dst = false -> shutil.copy_target w src dst = dst.
Proof. unfold shutil.copy_target. now intros ->. Qed.

Lemma copy_ok (src dst : bytes) (w : World) (c : FileContent) :
  fs w !! src = Some c -> c <> Directory -> src <> dst ->
  open_for_writing w dst = None ->
  shutil.copy src dst w
  = Ok (tt, mkWorld (<[dst := c]> (fs w)) (cwd w) (trace w ++ [IoCopy src dst])).
Proof.
  intros Hs Hc Hne Ho. unfold shutil.copy.
  rewrite (copy_target_file _ _ _ (open_for_writing_isdir _ _ Ho)), Hs, Ho.
  rewrite decide_False by exact Hne. destruct c; [reflexivity|reflexivity|congruence].
Qed.

(** A copy leaves the directories as they are and removes no file. *)
Lemma copy_keeps (src dst : bytes) (w : World) (u : unit) (w' : World) :
  shutil.copy src dst w = Ok (u, w') ->
  (forall q, isdir w' q = isdir w q)
  /\ (forall q, is_Some (fs w !! q) -> is_Some (fs w' !! q))
  /\ cwd w' = cwd w.
Proof.
  intros (c & Hs & Hc & _ & Ho & ->)%copy_inv. split; [|split; [|reflexivity]].
  - intros q. apply isdir_insert; [exact Hc| |reflexivity].
    now apply open_for_writing_isdir.
  - intros q Hq. cbn [fs].
    destruct (decide (shutil.copy_target w src dst = q)) as [->|Hne].
    + rewrite lookup_insert_eq. eauto.
    + now rewrite lookup_insert_ne.
Qed.

(** *** [shutil.move] *)

Lemma rename_inv (src dst : bytes) (w : World) (u : unit) (w' : World) :
  shutil.rename src dst w = Ok (u, w') ->
  exists c, fs w !! src = Some c /\ c <> Directory
    /\ open_for_writing w dst = None
    /\ w' = mkWorld (<[dst := c]> (delete src (fs w))) (cwd w)
                    (trace w ++ [IoMove src dst]).
Proof.
  unfold shutil.rename. destruct (fs w !! src) as [c|]; [|discriminate].
  destruct (open_for_writing w dst) as [e|] eqn:Ho.
  - destruct c; discriminate.
  - intros H. exists c. destruct c; try discriminate; injection H as _ <-;
      repeat split; auto; discriminate.
Qed.

(** The file that [shutil.move(src, dst)] writes. *)
Lemma move_inv (src dst : bytes) (w : World) (u : unit) (w' : World) :
  shutil.move src dst w = Ok (u, w') ->
  (isdir w dst = true /\ src = dst /\ w' = add_event w (IoMove src dst))
  \/ exists c target,
       fs w !! src = Some c /\ c <> Directory
       /\ ((isdir w dst = false /\ target = dst)
           \/ (isdir w dst = true
               /\ target = os_path.join dst (os_path.basename (Bytes.rstrip slash src))
               /\ fs w !! target = None))
       /\ open_for_writing w target = None
       /\ w' = mkWorld (<[target := c]> (delete src (fs w))) (cwd w)
                       (trace w ++ [IoMove src target]).
Proof.
  unfold shutil.move. destruct (isdir w dst) eqn:Hd.
  - destruct (decide (src = dst)) as [->|Hne].
    + intros [= _ <-]. left. auto.
    + destruct (bool_decide (is_Some (fs w !! os_path.join dst
                  (os_path.basename (Bytes.rstrip slash src))))) eqn:Hex; [discriminate|].
      intros (c & Hs & Hc & Ho & ->)%rename_inv. right.
      exists c, (os_path.join dst (os_path.basename (Bytes.rstrip slash src))).
      split; [exact Hs|]. split; [exact Hc|]. split; [|split; [exact Ho|reflexivity]].
      right. split; [reflexivity|]. split; [reflexivity|].
      apply bool_decide_eq_false_1 in Hex. apply eq_None_not_Some, Hex.
  - intros (c & Hs & Hc & Ho & ->)%rename_inv. right. exists c, dst. auto 10.
Qed.

Lemma move_ok (src dst : bytes) (w : World) (c : FileContent) :
  fs w !! src = Some c -> c <> Directory -> open_for_writing w dst = None ->
  shutil.move src dst w
  = Ok (tt, mkWorld (<[dst := c]> (delete src (fs w))) (cwd w)
                    (trace w ++ [IoMove src dst])).
Proof.
  intros Hs Hc Ho. unfold shutil.move.
  rewrite (open_for_writing_isdir _ _ Ho). unfold shutil.rename. rewrite Hs, Ho.
  destruct c; [reflexivity|reflexivity|congruence].
Qed.

(** A move leaves the directories as they are and removes no path but its
    source. *)
Lemma move_keeps (src dst : bytes) (w : World) (u : unit) (w' : World) :
  shutil.move src dst w = Ok (u, w') ->
  (forall q, isdir w' q = isdir w q)
  /\ (forall q, q <> src -> is_Some (fs w !! q) -> is_Some (fs w' !! q))
  /\ cwd w' = cwd w.
Proof.
  intros [(_ & _ & ->)|(c & target & Hs & Hc & _ & Ho & ->)]%move_inv.
  - split; [reflexivity|]. split; [|reflexivity]. auto.
  - assert (isdir w src = false) as Hsd
      by (apply isdir_false; rewrite Hs; congruence).
    split; [|split; [|reflexivity]].
    + intros q.
      rewrite <- (isdir_delete (cwd w) (trace w) src (fs w) w q Hsd eq_refl).
      apply isdir_insert; [exact Hc| |reflexivity].
      rewrite (isdir_delete (cwd w) (trace w) src (fs w) w target Hsd eq_refl).
      now apply open_for_writing_isdir.
    + intros q Hq Hx. cbn [fs].
      destruct (decide (target = q)) as [->|Hne].
      * rewrite lookup_insert_eq. eauto.
      * rewrite lookup_insert_ne by exact Hne. now rewrite lookup_delete_ne.
Qed.

(** *** The block store *)

Lemma set_keeps (blend : BlendFile) (b : Block) (f : bytes) (v : value)
    (w : World) (u : unit) (w' : World) :
  blendfile.set blend b f v w = Ok (u, w') ->
  (forall q, isdir w' q = isdir w q)
  /\ (forall q, is_Some (fs w !! q) -> is_Some (fs w' !! q))
  /\ (forall q, q <> bf_path blend -> fs w' !! q = fs w !! q).
Proof.
  unfold blendfile.set. destruct (bf_readonly blend); [discriminate|].
  destruct (fs w !! bf_path blend) as [[d| |]|] eqn:Hp; try discriminate.
  destruct (bd_blocks d !! index b) as [sb|]; [|discriminate].
  destruct (sb_fields sb !! f); [|discriminate]. intros [= _ <-].
  split; [|split].
  - intros q. apply isdir_insert; [discriminate| |reflexivity].
    apply isdir_false. rewrite Hp. discriminate.
  - intros q Hq. cbn [with_fs fs].
    destruct (decide (bf_path blend = q)) as [->|Hne].
    + rewrite lookup_insert_eq. eauto.
    + now rewrite lookup_insert_ne.
  - intros q Hq. cbn [with_fs fs]. now rewrite lookup_insert_ne.
Qed.

(** ** Byte strings: base names *)

Lemma rfind_from_spec (c : ascii) (s : bytes) (i found : Z) :
  let r := Bytes.rfind_from c s i found in
  (r = found /\ Bytes.mem c s = false)
  \/ (i <= r < i + Z.of_nat (String.length s)
      /\ Bytes.mem c (Bytes.drop (Z.to_nat (r - i + 1)) s) = false).
Proof.
  revert i found. induction s as [|a s IH]; intros i found; simpl.
  - left. auto.
  - destruct (IH (i + 1) (if Ascii.eqb a c then i else found)) as [[Hr Hm]|[Hr Hm]].
    + destruct (Ascii.eqb a c) eqn:E.
      * right. rewrite Hr. split; [lia|].
        replace (i - i + 1) with 1 by lia. simpl. exact Hm.
      * left. simpl. auto.
    + right. split; [lia|].
      set (r := Bytes.rfind_from c s (i + 1) (if Ascii.eqb a c then i else found)) in *.
      replace (Z.to_nat (r - i + 1)) with (S (Z.to_nat (r - (i + 1) + 1))) by lia.
      simpl. exact Hm.
Qed.

Lemma basename_no_slash (p : bytes) : Bytes.mem slash (os_path.basename p) = false.
Proof.
  unfold os_path.basename, Bytes.rfind.
  destruct (rfind_from_spec slash p 0 (-1)) as [[-> Hm]|[Hr Hm]].
  - simpl. exact Hm.
  - replace (Bytes.rfind_from slash p 0 (-1) + 1)
      with (Bytes.rfind_from slash p 0 (-1) - 0 + 1) by lia. exact Hm.
Qed.

Lemma take_app_length (s t : bytes) : Bytes.take (String.length s) (s ++ t) = s.
Proof. induction s as [|a s IH]; simpl; [now destruct t|now rewrite IH]. Qed.

Lemma length_app (s t : bytes) :
  String.length (s ++ t) = (String.length s + String.length t)%nat.
Proof. induction s as [|a s IH]; simpl; [reflexivity|now rewrite IH]. Qed.

Lemma drop_last_suffix (s : bytes) : Bytes.drop_last (s ++ "@") = s.
Proof.
  unfold Bytes.drop_last. rewrite length_app. simpl.
  replace (Nat.pred (String.length s + 1)) with (String.length s) by lia.
  apply take_app_length.
Qed.

Lemma append_assoc (a b c : bytes) : (a ++ b) ++ c = a ++ (b ++ c).
Proof. induction a as [|x a IH]; simpl; [reflexivity|now rewrite IH]. Qed.





(** ** C4: what [pack] writes *)

Lemma opened_paths_app (a b : list Event) :
  opened_paths (a ++ b) = (opened_paths a ++ opened_paths b)%list.
Proof. unfold opened_paths. apply flat_map_app. Qed.

Lemma opened_paths_not_open (e : Event) : not_open e -> opened_paths [e] = [].
Proof. intros H. destruct e; try reflexivity. now destruct (H filepath readonly). Qed.

Section PackFrame.
Variable blendfile_dst : bytes.
Variable w0 : World.

Lemma pack_frame_refl : pack_frame blendfile_dst w0 w0.
Proof.
    split; [reflexivity|]. split; [reflexivity|]. split; [reflexivity|].
    exists []. split; [now rewrite app_nil_r|constructor].
Qed.

Lemma pack_frame_step (w w' : World) (es : list Event) :
    pack_frame blendfile_dst w0 w ->
    (forall p, ~ written_by_pack blendfile_dst p -> ~ written_inside blendfile_dst p ->
               fs w' !! p = fs w !! p) ->
    (forall p, isdir w' p = isdir w p) ->
    ((forall t, written_by_pack blendfile_dst t -> isdir w t = false) ->
     forall p, ~ written_by_pack blendfile_dst p -> fs w' !! p = fs w !! p) ->
    trace w' = (trace w ++ es)%list ->
    Forall (staging_open (os_path.dirname blendfile_dst)) (opened_paths es) ->
    pack_frame blendfile_dst w0 w'.
Proof.
    intros (Hfs & Hd & Hp & t & Ht & Ho) Hfs' Hd' Hp' Ht' Ho'.
    split; [|split; [|split]].
    - intros p H1 H2. rewrite (Hfs' p H1 H2). now apply Hfs.
    - intros p. rewrite Hd'. apply Hd.
    - intros HA p Hnp. rewrite Hp'; [now apply Hp| |exact Hnp].
      intros t0 Ht0. rewrite Hd. now apply HA.
    - exists (t ++ es)%list. split; [rewrite Ht', Ht; now rewrite app_assoc|].
      rewrite opened_paths_app. apply Forall_app. auto.
Qed.

Lemma pack_frame_event (w : World) (e : Event) :
    not_open e -> pack_frame blendfile_dst w0 w -> pack_frame blendfile_dst w0 (add_event w e).
Proof.
    intros He H.
    apply (pack_frame_step w _ [e] H); [reflexivity|reflexivity|reflexivity|reflexivity|].
    rewrite (opened_paths_not_open e He). constructor.
Qed.

Lemma pack_frame_open (w : World) (p : bytes) :
    (exists f, p = packer.staging_path (os_path.dirname blendfile_dst) f) ->
    pack_frame blendfile_dst w0 w ->
    pack_frame blendfile_dst w0 (add_event w (IoOpen p false)).
Proof.
    intros Hp H.
    apply (pack_frame_step w _ [IoOpen p false] H);
      [reflexivity|reflexivity|reflexivity|reflexivity|].
    repeat constructor. exact Hp.
Qed.

Lemma staging_written (f : bytes) :
    written_by_pack blendfile_dst (packer.staging_path (os_path.dirname blendfile_dst) f).
Proof.
    right. exists (os_path.basename f). split; [apply basename_no_slash|]. right. reflexivity.
Qed.


  (** The file that a copy to one of the paths of [pack] writes. *)
Lemma copy_target_written (w : World) (src dst : bytes) :
    written_by_pack blendfile_dst dst ->
    (isdir w dst = false /\ shutil.copy_target w src dst = dst)
    \/ (isdir w dst = true /\ written_inside blendfile_dst (shutil.copy_target w src dst)).
Proof.
    intros Hd. unfold shutil.copy_target. destruct (isdir w dst); [right|left; auto].
    split; [reflexivity|]. exists dst, (os_path.basename src).
    split; [exact Hd|]. split; [apply basename_no_slash|reflexivity].
Qed.

Lemma copy_frame (src dst : bytes) (w w' : World) (u : unit) :
    written_by_pack blendfile_dst dst ->
    pack_frame blendfile_dst w0 w ->
    shutil.copy src dst w = Ok (u, w') ->
    pack_frame blendfile_dst w0 w'.
Proof.
    intros Hd H Hc. pose proof (copy_keeps _ _ _ _ _ Hc) as (Hdirs & _ & _).
    apply copy_inv in Hc as (c & _ & _ & _ & _ & ->).
    destruct (copy_target_written w src dst Hd) as [[Hnd Ht]|[Hid Ht]].
    - rewrite Ht in *.
      apply (pack_frame_step w _ [IoCopy src dst] H);
        [|exact Hdirs| |reflexivity|constructor].
      + intros p Hp _. cbn. apply lookup_insert_ne. intros ->. contradiction.
      + intros _ p Hp. cbn. apply lookup_insert_ne. intros ->. contradiction.
    - apply (pack_frame_step w _ [IoCopy src (shutil.copy_target w src dst)] H);
        [|exact Hdirs| |reflexivity|constructor].
      + intros p _ Hp. cbn [fs]. apply lookup_insert_ne. intros E. apply Hp.
        now rewrite <- E.
      + intros HA. rewrite (HA dst Hd) in Hid. discriminate.
Qed.


Lemma set_frame (blend : BlendFile) (b : Block) (f : bytes) (v : value)
      (w w' : World) (u : unit) :
    written_by_pack blendfile_dst (bf_path blend) ->
    pack_frame blendfile_dst w0 w ->
    blendfile.set blend b f v w = Ok (u, w') ->
    pack_frame blendfile_dst w0 w'.
Proof.
    intros Hp H Hs. pose proof (set_keeps _ _ _ _ _ _ _ Hs) as (Hdirs & _ & Hframe).
    assert (trace w' = trace w) as Ht.
    { unfold blendfile.set in Hs.
      destruct (bf_readonly blend); [discriminate|].
      destruct (fs w !! bf_path blend) as [[dd| |]|]; try discriminate.
      destruct (bd_blocks dd !! index b) as [sb|]; [|discriminate].
      destruct (sb_fields sb !! f); [|discriminate]. now injection Hs as _ <-. }
    apply (pack_frame_step w _ [] H);
      [|exact Hdirs| |now rewrite app_nil_r|constructor].
    - intros p Hnp _. apply Hframe. intros ->. contradiction.
    - intros _ p Hnp. apply Hframe. intros ->. contradiction.
Qed.

Lemma hook_inv (f : bytes) (v : PackVars) (w : World) (r : bytes * PackVars) (w' : World) :
    pack_inv blendfile_dst w0 v w ->
    packer.temp_remap_cb (os_path.dirname blendfile_dst) f v w = Ok (r, w') ->
    pack_inv blendfile_dst w0 r.2 w'
    /\ exists f', r.1 = packer.staging_path (os_path.dirname blendfile_dst) f'.
Proof.
    intros [Hf [Ht Hc]] H. unfold packer.temp_remap_cb in H.
    destruct (decide (packer.staging_path (os_path.dirname blendfile_dst) f
                        ∈ path_temp_files v)).
    - apply ret_inv in H as [-> ->]. split; [split; [exact Hf|split; assumption]|eauto].
    - apply bind_ok_inv in H as (? & w1 & Hcopy & H). apply ret_inv in H as [-> ->].
      split; [|eauto]. split.
      + eapply copy_frame; [apply staging_written|exact Hf|exact Hcopy].
      + split; [|exact Hc]. cbn. unfold set_add.
        destruct (decide (packer.staging_path (os_path.dirname blendfile_dst) f
                            ∈ path_temp_files v)); [exact Ht|].
        apply Forall_app. split; [exact Ht|]. repeat constructor. eauto.
Qed.

Lemma body_inv (fp : FilePath) (rd : bytes) (v : PackVars) (w : World)
      (v' : PackVars) (w' : World) :
    (exists f, bf_path (fp_file fp)
               = packer.staging_path (os_path.dirname blendfile_dst) f) ->
    pack_inv blendfile_dst w0 v w ->
    packer.pack_body (os_path.dirname blendfile_dst) (fp, rd) v w = Ok (v', w') ->
    pack_inv blendfile_dst w0 v' w'.
Proof.
    intros [f Hp] [Hf [Ht Hc]] H. unfold packer.pack_body in H. cbn [fst] in H.
    apply bind_ok_inv in H as (path_rel & w1 & Hg & H).
    unfold FilePathM.filepath in Hg. apply get_inv in Hg as ->.
    destruct path_rel as [path_rel|]; [|discriminate].
    apply bind_ok_inv in H as (? & w1 & Hs & H). apply ret_inv in H as [-> ->].
    split.
    - unfold FilePathM.set_filepath in Hs.
      eapply set_frame; [|exact Hf|exact Hs]. rewrite Hp. apply staging_written.
    - split; [exact Ht|]. cbn. unfold set_add.
      destruct (decide (_ ∈ path_copy_files v)); [exact Hc|].
      apply Forall_app. split; [exact Hc|]. repeat constructor.
      exists (packer.path_base_of path_rel). split; [|reflexivity].
      destruct (path_base_of_spec path_rel) as (_ & _ & Hm & _). exact Hm.
Qed.

Lemma walk_inv (fuel : nat) (filepath : bytes) (recursive : bool)
      (block_codes : option (gset value)) (rootdir : option bytes) (level : nat)
      (lib_visit : option registry) (v : PackVars) (w : World)
      (r : option registry * PackVars) (w' : World) :
    pack_inv blendfile_dst w0 v w ->
    FilePathM.visit_from_blend (packer.pack_body (os_path.dirname blendfile_dst))
      (Some (packer.temp_remap_cb (os_path.dirname blendfile_dst)))
      fuel filepath false recursive block_codes rootdir level lib_visit v w = Ok (r, w') ->
    pack_inv blendfile_dst w0 r.2 w'.
Proof.
    apply (visit_J (packer.pack_body (os_path.dirname blendfile_dst))
             (Some (packer.temp_remap_cb (os_path.dirname blendfile_dst))) false
             (pack_inv blendfile_dst w0)
             (fun p => exists f, p = packer.staging_path (os_path.dirname blendfile_dst) f)).
    - intros acc s e He [Hf Hv]. split; [now apply pack_frame_event|exact Hv].
    - intros acc s p Hp [Hf Hv]. split; [now apply pack_frame_open|exact Hv].
    - intros fp rd acc s acc' s' Hq. now apply body_inv.
    - intros f acc s r0 s'. apply hook_inv.
Qed.
End PackFrame.

Lemma forM_inv {S A} (I : S -> Prop) (f : A -> M S unit) (l : list A) :
  (forall x s u s', In x l -> I s -> f x s = Ok (u, s') -> I s') ->
  forall s u s', I s -> forM f l s = Ok (u, s') -> I s'.
Proof.
  induction l as [|x l IH]; intros H s u s' HI Hr; simpl in Hr.
  - now apply ret_inv in Hr as [_ ->].
  - apply bind_ok_inv in Hr as (a & s1 & H1 & H2).
    eapply IH; [| |exact H2].
    + intros y s0 u0 s0' Hy. apply H. now right.
    + eapply H; [now left|exact HI|exact H1].
Qed.







(** Where the destination directory holds a directory named like an image,
    the copy of the image goes inside it. *)
Lemma pack_copies_into_directory :
  packer.pack insertion_order 3 "/src/blendfile/test/paths.blend" "/out/paths.blend"
    Samples7.inside_world = Ok Samples7.inside_packed
  /\ fs Samples7.inside_packed.2 !! "/out/asset.png" = Some Directory
  /\ fs Samples7.inside_packed.2 !! "/out/asset.png/asset.png"
     = Some (RawContent "texture").
Proof.
  split; [apply run_result_ok; vm_compute; reflexivity|].
  split; vm_compute; reflexivity.
Qed.

(** ** C8: the order of the references of one file *)

Lemma get_pointer_field (blend : BlendFile) (b : Block) (f : bytes) (w : World) (sb : Block) :
  blendfile.get_pointer blend b f w = Ok (Some sb, w) ->
  exists a, field_of blend b f w = Some (VInt a)
            /\ blendfile.find_block_from_offset blend a = Some sb.
Proof.
  unfold blendfile.get_pointer, blendfile.get, field_of, bind.
  destruct (blendfile.stored blend b w) as [s|]; [|discriminate].
  destruct (sb_fields s !! f) as [[x|a]|]; try discriminate.
  unfold ret. intros [= H]. eauto.
Qed.

Lemma find_blocks_from_code_code (blend : BlendFile) (c : bytes) (b : Block) :
  In b (blendfile.find_blocks_from_code blend c) -> code b = c.
Proof.
  unfold blendfile.find_blocks_from_code. rewrite <- list_elem_of_In.
  rewrite list_elem_of_filter. tauto.
Qed.

Lemma terminal_LI : terminal_code "LI".
Proof. repeat split; discriminate. Qed.

Lemma skipped_LI (c : bytes) : FilePathM.skipped_code c = false -> c <> "LI".
Proof. intros H ->. discriminate H. Qed.

Section Order.
Context {Acc : Type}.
Variable body : FilePath * bytes -> Acc -> M World Acc.
Variable blend : BlendFile.
Variables basedir rootdir : bytes.

Lemma emit_scan_inv (expanding : Prop) (b : Block) (st st' : list (FilePath * bytes) * Acc)
      (w w' : World) :
    (expanding -> writes_path_only body) ->
    code b <> "LI" ->
    scan_inv blend expanding st w ->
    FilePathM.emit (logging body) blend basedir rootdir b st w = Ok (st', w') ->
    scan_inv blend expanding st' w'.
Proof.
    intros Hbody Hb [Hwf Hem] H. unfold FilePathM.emit in H.
    rewrite from_block_cases in H.
    destruct (decide (code b = "IM" \/ code b = "LI")).
    - unfold logging in H. apply bind_ok_inv in H as (acc' & w1 & Hrun & H).
      apply ret_inv in H as [-> ->]. split.
      + intros He b0 f a t Hf Hfield Hfind.
        apply (Hwf He b0 f a t Hf); [|exact Hfind].
        rewrite <- Hfield. symmetry.
        apply (Hbody He _ _ _ _ _ Hrun b0 f).
        cbn. destruct Hf as [-> | ->]; discriminate.
      + cbn. apply Forall_app. split; [exact Hem|]. repeat constructor. exact Hb.
    - destruct (decide (code b = "DATA")); [discriminate|].
      apply ret_inv in H as [-> ->]. split; assumption.
Qed.

Lemma emit_libs_inv (refs : list (FilePath * bytes)) (b : Block)
      (st st' : list (FilePath * bytes) * Acc) (w w' : World) :
    code b = "LI" ->
    libs_inv refs st w ->
    FilePathM.emit (logging body) blend basedir rootdir b st w = Ok (st', w') ->
    libs_inv refs st' w'.
Proof.
    intros Hb (libs & Hst & Hlibs) H. unfold FilePathM.emit in H.
    rewrite from_block_cases in H.
    rewrite decide_True in H by auto.
    unfold logging in H. apply bind_ok_inv in H as (acc' & w1 & Hrun & H).
    apply ret_inv in H as [-> ->].
    exists (libs ++ [(mkFilePath blend b "name" basedir, rootdir)])%list. split.
    - cbn. rewrite Hst. now rewrite app_assoc.
    - apply Forall_app. split; [exact Hlibs|]. repeat constructor. exact Hb.
Qed.
End Order.

(** C8.  The scan of one open file ([scan_blend], the part of
    [visit_from_blend] between the opening and the closing of the file), with
    a loop body that records every reference it receives.  What is recorded is [refs ++ libs]: [refs], from
    the loop over the type tags, holds no library-link reference, and [libs],
    from the loop over the library records, holds only such references.  The
    library table is computed in the world [w1] that the first loop leaves,
    when exactly [refs] has been emitted, and computing it changes nothing.
    At the outermost visit ([expand_codes] is [None]) this holds for every
    store and loop body; where records are expanded it holds for stores that
    follow the schema (no data pointer of an object and no object pointer of
    a group member addresses a library-link record) and for loop bodies that
    change the file only through the reference they are given. *)
Theorem references_before_libraries {Acc : Type}
    (body : FilePath * bytes -> Acc -> M World Acc)
    (fuel : nat) (blend : BlendFile) (recursive : bool)
    (block_codes expand_codes : option (gset value)) (basedir rootdir : bytes)
    (acc : Acc) (w : World) (lib_all : list (value * gset value))
    (emitted : list (FilePath * bytes)) (acc' : Acc) (w' : World) :
  expand_codes = None \/ (pointers_well_typed blend w /\ writes_path_only body) ->
  FilePathM.scan_blend (logging body) fuel blend recursive block_codes expand_codes
    basedir rootdir ([], acc) w = Ok ((lib_all, (emitted, acc')), w') ->
  exists refs libs st1 w1 ec3,
    emitted = (refs ++ libs)%list
    /\ Forall (fun x => ~ is_library_ref x) refs
    /\ Forall is_library_ref libs
    /\ FilePathM.scan_codes (logging body) fuel blend block_codes basedir rootdir
         (expand_codes, ([], acc)) w = Ok (st1, w1)
    /\ st1.2.1 = refs
    /\ (if recursive then FilePathM.collect_libs blend st1.1 else ret []) w1
       = Ok (lib_all, w1)
    /\ FilePathM.scan_libs (logging body) fuel blend block_codes basedir rootdir st1 w1
       = Ok ((ec3, (emitted, acc')), w').
Proof.
  intros Hwf H. unfold FilePathM.scan_blend in H.
  apply bind_ok_inv in H as (st1 & w1 & Hcodes & H).
  apply bind_ok_inv in H as (libs_tab & w2 & Htab & H).
  assert (w2 = w1) as ->.
  { destruct recursive; [now apply collect_libs_inv in Htab|].
    now apply ret_inv in Htab as [_ ->]. }
  apply bind_ok_inv in H as (st3 & w3 & Hlibs & H).
  apply ret_inv in H as [H ->].
  pose proof (f_equal fst H) as Htab'. pose proof (f_equal snd H) as Hst3.
  cbn in Htab', Hst3. subst lib_all. clear H. symmetry in Hst3.
  set (expanding := expand_codes <> None).
  (* the scan of the type tags *)
  assert (scan_inv blend expanding st1.2 w1 /\ (expand_codes = None -> st1.1 = None))
    as [[_ Hrefs] Hnone].
  { revert Hcodes. unfold FilePathM.scan_codes.
    apply (foldM_inv (fun st s => scan_inv blend expanding st.2 s
                                  /\ (expand_codes = None -> st.1 = None))).
    - intros c st s st' s' _ [HJ Hn] Hc.
      destruct (FilePathM.skipped_code c) eqn:Hskip;
        [apply ret_inv in Hc as [-> ->]; auto|].
      apply bind_ok_inv in Hc as (? & s1 & Hp & Hc). apply print_inv in Hp as ->.
      eapply (iter_blocks_id_J blend (scan_inv blend expanding)
                (fun b => code b <> "LI")) in Hc as [HJ' Hn'].
      + split; [exact HJ'|]. auto.
      + intros a0 s0 e _ [Hw He]. split; [exact Hw|exact He].
      + intros b a0 s0 a0' s0' Hb. apply emit_scan_inv; [|exact Hb].
        intros Hex. destruct Hwf as [Hwf|[_ Hwf]]; [destruct (Hex Hwf)|exact Hwf].
      + intros b Hb%find_blocks_from_code_code. rewrite Hb. now apply skipped_LI.
      + destruct expand_codes as [ec|] eqn:Hec.
        * right. right. intros a0 s0 b0 f sb [Hw _] Hf Hg.
          apply get_pointer_field in Hg as (a & Hfield & Hfind).
          exact (Hw ltac:(discriminate) b0 f a sb Hf Hfield Hfind).
        * left. auto.
      + exact HJ.
    - split; [|auto]. split; [|constructor].
      intros Hex. destruct Hwf as [Hwf|[Hwf _]]; [destruct (Hex Hwf)|exact Hwf]. }
  (* the scan of the library records *)
  assert (libs_inv st1.2.1 st3.2 w3) as (libs & Hem & Hl).
  { unfold FilePathM.scan_libs in Hlibs.
    eapply (iter_blocks_id_J blend (libs_inv st1.2.1) (fun b => code b = "LI")) in Hlibs
      as [HJ' _]; [exact HJ'| | | | |].
    - intros a0 s0 e _ HJ. exact HJ.
    - intros b a0 s0 a0' s0' Hb. now apply emit_libs_inv.
    - intros b Hb. now apply find_blocks_from_code_code in Hb.
    - right. left. apply terminal_LI.
    - exists []. split; [now rewrite app_nil_r|constructor]. }
  exists st1.2.1, libs, st1, w1, st3.1.
  rewrite Hst3 in Hem. cbn in Hem.
  split; [exact Hem|]. split; [exact Hrefs|]. split; [exact Hl|].
  split; [exact Hcodes|]. split; [reflexivity|]. split; [exact Htab|].
  rewrite Hlibs. rewrite <- Hst3. now destruct st3 as [? [? ?]].
Qed.

Lemma set_field_of (blend : BlendFile) (b : Block) (f : bytes) (v : value)
    (w w' : World) (u : unit) (b0 : Block) (f0 : bytes) :
  blendfile.set blend b f v w = Ok (u, w') ->
  f0 <> f -> field_of blend b0 f0 w' = field_of blend b0 f0 w.
Proof.
  unfold blendfile.set, field_of, blendfile.stored. intros H Hne.
  destruct (bf_readonly blend); [discriminate|].
  destruct (fs w !! bf_path blend) as [[d| |]|] eqn:Hd; try discriminate.
  destruct (bd_blocks d !! index b) as [sb|] eqn:Hsb; [|discriminate].
  destruct (sb_fields sb !! f); [|discriminate]. injection H as _ <-.
  cbn. rewrite lookup_insert_eq. cbn.
  destruct (decide (index b0 = index b)) as [E|E].
  - rewrite E, Hsb. rewrite list_lookup_insert_eq by (eapply lookup_lt_Some; eauto).
    cbn. now rewrite lookup_insert_ne.
  - now rewrite list_lookup_insert_ne.
Qed.

Lemma pack_body_writes_path_only (base_dir_dst : bytes) :
  writes_path_only (packer.pack_body base_dir_dst).
Proof.
  intros [fp rd] acc w acc' w' H b f Hf. unfold packer.pack_body in H. cbn [fst] in *.
  apply bind_ok_inv in H as (path_rel & w1 & Hg & H).
  unfold FilePathM.filepath in Hg. apply get_inv in Hg as ->.
  destruct path_rel as [path_rel|]; [|discriminate].
  apply bind_ok_inv in H as (? & w1 & Hs & H). apply ret_inv in H as [-> ->].
  unfold FilePathM.set_filepath in Hs. eapply set_field_of; eauto.
Qed.

Lemma objs_well_typed : pointers_well_typed Samples5.objs_handle Samples5.objs_world.
Proof.
  intros b f a t Hf Hfield Hfind. unfold field_of, blendfile.stored in Hfield.
  cbn in Hfield.
  destruct (index b) as [|[|[|[|[|n]]]]]; cbn in Hfield;
    destruct Hf as [-> | ->]; vm_compute in Hfield; try discriminate Hfield.
  injection Hfield as <-. vm_compute in Hfind. injection Hfind as <-. discriminate.
Qed.

(** C8, an instance with expansion: a nested visit of the sample library,
    through the loop body of [pack]. *)
Lemma references_before_libraries_witness :
  (Some (∅ : gset value) = None
   \/ (pointers_well_typed Samples5.objs_handle Samples5.objs_world
       /\ writes_path_only (packer.pack_body "/dst")))
  /\ FilePathM.scan_blend (logging (packer.pack_body "/dst")) 4 Samples5.objs_handle true
       (Some Samples5.objs_codes) (Some ∅) "/src" "/src" ([], mkPackVars [] [])
       Samples5.objs_world = Ok Samples5.objs_scanned
  /\ map (fun x : FilePath * bytes => code (block x.1)) Samples5.objs_scanned.1.2.1
     = ["IM"; "LI"]
  /\ Samples5.objs_scanned.1.1 = [(VBytes "//other.blend", {[VBytes "MEcube"]})]
  /\ exists refs libs,
       Samples5.objs_scanned.1.2.1 = (refs ++ libs)%list
       /\ Forall (fun x => ~ is_library_ref x) refs /\ Forall is_library_ref libs.
Proof.
  assert (Some (∅ : gset value) = None
          \/ (pointers_well_typed Samples5.objs_handle Samples5.objs_world
              /\ writes_path_only (packer.pack_body "/dst"))) as Hwf
    by (right; split; [exact objs_well_typed|apply pack_body_writes_path_only]).
  assert (FilePathM.scan_blend (logging (packer.pack_body "/dst")) 4 Samples5.objs_handle
            true (Some Samples5.objs_codes) (Some ∅) "/src" "/src" ([], mkPackVars [] [])
            Samples5.objs_world = Ok Samples5.objs_scanned) as Hrun
    by (apply run_result_ok; vm_compute; reflexivity).
  split; [exact Hwf|]. split; [exact Hrun|].
  split; [vm_compute; reflexivity|]. split; [vm_compute; reflexivity|].
  destruct Samples5.objs_scanned as [[tab [em v]] w'].
  destruct (references_before_libraries _ _ _ _ _ _ _ _ _ _ _ _ _ _ Hwf Hrun)
    as (refs & libs & st1 & w1 & ec3 & Hem & Hrefs & Hlibs & _).
  exists refs, libs. auto.
Defined.

(** * Further properties of the packer *)

(** ** Base names *)

Lemma append_nil_r (s : bytes) : s ++ "" = s.
Proof. induction s as [|a s IH]; simpl; [reflexivity|now rewrite IH]. Qed.

Lemma rfind_from_nomem (c : ascii) (s : bytes) (i found : Z) :
  Bytes.mem c s = false -> Bytes.rfind_from c s i found = found.
Proof.
  revert i found. induction s as [|a s IH]; intros i found; simpl; [reflexivity|].
  intros [Ha Hs]%orb_false_elim. rewrite Ha. apply IH, Hs.
Qed.

Lemma rfind_from_app (c : ascii) (a b : bytes) (i found : Z) :
  Bytes.rfind_from c (a ++ b) i found
  = Bytes.rfind_from c b (i + Z.of_nat (String.length a)) (Bytes.rfind_from c a i found).
Proof.
  revert i found. induction a as [|x a IH]; intros i found.
  - simpl. f_equal. lia.
  - cbn [String.append Bytes.rfind_from String.length]. rewrite IH. f_equal. lia.
Qed.

Lemma rfind_from_endswith (c : ascii) (a : bytes) (i found : Z) :
  Bytes.endswith1 c a = true ->
  Bytes.rfind_from c a i found = i + Z.of_nat (String.length a) - 1.
Proof.
  revert i found. induction a as [|x a IH]; intros i found; [discriminate|].
  destruct a as [|y a].
  - simpl. intros ->. lia.
  - intros H.
    change (Bytes.endswith1 c (String y a) = true) in H.
    change (Bytes.rfind_from c (String x (String y a)) i found)
      with (Bytes.rfind_from c (String y a) (i + 1) (if Ascii.eqb x c then i else found)).
    rewrite (IH _ _ H). cbn [String.length]. lia.
Qed.

(** The base name of a path is what follows its last slash. *)
Lemma basename_unique (pre s : bytes) :
  Bytes.mem slash s = false ->
  pre = "" \/ Bytes.endswith1 slash pre = true ->
  os_path.basename (pre ++ s) = s.
Proof.
  intros Hs Hp. unfold os_path.basename, Bytes.rfind.
  rewrite rfind_from_app, (rfind_from_nomem _ _ _ _ Hs).
  destruct Hp as [->|Hp].
  - reflexivity.
  - rewrite (rfind_from_endswith _ _ _ _ Hp).
    replace (Z.to_nat (0 + Z.of_nat (String.length pre) - 1 + 1))
      with (String.length pre) by lia.
    apply drop_app.
Qed.

Lemma basename_last_split (p : bytes) :
  os_path.basename p = Bytes.last (Bytes.split slash p).
Proof.
  destruct (split_last_spec slash p) as (pre & H & Hm & Hp).
  rewrite <- (basename_unique pre _ Hm Hp). now rewrite <- H.
Qed.

Lemma basename_prefix (x q : bytes) :
  x = "" \/ Bytes.endswith1 slash x = true ->
  os_path.basename (x ++ q) = os_path.basename q.
Proof.
  intros Hx.
  destruct (split_last_spec slash q) as (pre & H & Hm & Hp).
  rewrite (basename_last_split q).
  set (bq := Bytes.last (Bytes.split slash q)) in *.
  rewrite H, <- append_assoc. apply basename_unique; [exact Hm|].
  destruct Hp as [->|Hp].
  - now rewrite append_nil_r.
  - right. rewrite endswith1_app; [exact Hp|]. intros ->. discriminate.
Qed.

(** [os.path.join(a, b)] is [b] behind a prefix that is empty or ends with
    a slash. *)
Lemma join_prefix (a b : bytes) :
  exists x, os_path.join a b = x ++ b /\ (x = "" \/ Bytes.endswith1 slash x = true).
Proof.
  unfold os_path.join. destruct (Bytes.startswith "/" b).
  - exists "". auto.
  - destruct (String.eqb a "" || Bytes.endswith1 slash a)%bool eqn:E.
    + exists a. split; [reflexivity|].
      apply orb_true_iff in E as [E|E]; [left; now apply String.eqb_eq|now right].
    + exists (a ++ "/"). split; [now rewrite append_assoc|].
      right. now rewrite endswith1_app.
Qed.

Lemma basename_join (a q : bytes) :
  os_path.basename (os_path.join a q) = os_path.basename q.
Proof.
  destruct (join_prefix a q) as (x & -> & Hx). now apply basename_prefix.
Qed.

Lemma path_base_of_basename (p : bytes) :
  Bytes.mem backslash p = false -> packer.path_base_of p = os_path.basename p.
Proof.
  intros H. unfold packer.path_base_of. rewrite (split_no_sep _ _ H).
  symmetry. apply basename_last_split.
Qed.

Lemma staging_path_basename (d f : bytes) :
  os_path.basename (packer.staging_path d f) = os_path.basename f ++ "@".
Proof.
  unfold packer.staging_path.
  destruct (join_prefix d (os_path.basename f)) as (x & -> & Hx).
  rewrite append_assoc. apply basename_unique; [|exact Hx].
  rewrite mem_app, basename_no_slash. reflexivity.
Qed.

(** The staging path of a file is never the path of the file itself. *)
Lemma staging_path_ne (d f : bytes) : packer.staging_path d f <> f.
Proof.
  intros E. pose proof (staging_path_basename d f) as H. rewrite E in H.
  apply (f_equal String.length) in H. rewrite length_app in H. simpl in H. lia.
Qed.

Lemma staging_path_suffix (d f : bytes) :
  Bytes.endswith1 "@" (packer.staging_path d f) = true.
Proof. unfold packer.staging_path. now rewrite endswith1_app. Qed.

(** ** [pack] on a source that does not exist *)



(** ** The remap hook *)

(** X3.  The first call of the remap hook for a staging path, for an
    original that is a regular file and a staging path that can be opened
    for writing (it is no directory, and it exists or the destination
    directory does), copies the original to that path and records the
    path: afterwards the staging copy holds the content of the original,
    the original is still there, every other file is as it was, and the
    only event is the copy.  The copy is never a copy of a file onto
    itself. *)
Theorem temp_remap_cb_stages_copy (base_dir_dst filepath : bytes) (v : PackVars)
    (w : World) (c : FileContent) :
  fs w !! filepath = Some c ->
  c <> Directory ->
  packer.staging_path base_dir_dst filepath ∉ path_temp_files v ->
  open_for_writing w (packer.staging_path base_dir_dst filepath) = None ->
  let filepath_tmp := packer.staging_path base_dir_dst filepath in
  exists w',
    packer.temp_remap_cb base_dir_dst filepath v w
    = Ok ((filepath_tmp,
           mkPackVars (path_temp_files v ++ [filepath_tmp])%list (path_copy_files v)), w')
    /\ fs w' !! filepath_tmp = Some c
    /\ fs w' !! filepath = Some c
    /\ (forall p, p <> filepath_tmp -> fs w' !! p = fs w !! p)
    /\ trace w' = (trace w ++ [IoCopy filepath filepath_tmp])%list.
Proof.
  intros Hc Hfile Hnew Hopen tmp. unfold packer.temp_remap_cb. fold tmp.
  rewrite decide_False by exact Hnew.
  unfold bind.
  rewrite (copy_ok filepath tmp w c Hc Hfile
             (fun E => staging_path_ne base_dir_dst filepath (eq_sym E)) Hopen).
  unfold set_add. rewrite decide_False by exact Hnew.
  eexists. split; [reflexivity|]. cbn [fs trace].
  split; [apply lookup_insert_eq|].
  split; [rewrite lookup_insert_ne by apply staging_path_ne; exact Hc|].
  split; [|reflexivity].
  intros p Hp. apply lookup_insert_ne. congruence.
Qed.

Lemma temp_remap_cb_stages_copy_witness :
  fs Samples.world0 !! "/src/root.blend" = Some (BlendContent Samples.root_blend)
  /\ open_for_writing Samples.world0 (packer.staging_path "/dst" "/src/root.blend") = None
  /\ exists w',
       packer.temp_remap_cb "/dst" "/src/root.blend" (mkPackVars [] []) Samples.world0
       = Ok ((packer.staging_path "/dst" "/src/root.blend",
              mkPackVars ([] ++ [packer.staging_path "/dst" "/src/root.blend"])%list []), w')
       /\ fs w' !! packer.staging_path "/dst" "/src/root.blend"
          = Some (BlendContent Samples.root_blend).
Proof.
  assert (fs Samples.world0 !! "/src/root.blend" = Some (BlendContent Samples.root_blend))
    as H by (vm_compute; reflexivity).
  assert (open_for_writing Samples.world0 (packer.staging_path "/dst" "/src/root.blend")
          = None) as Ho by (vm_compute; reflexivity).
  split; [exact H|]. split; [exact Ho|].
  destruct (temp_remap_cb_stages_copy "/dst" "/src/root.blend" (mkPackVars [] [])
              Samples.world0 _ H ltac:(discriminate) (not_elem_of_nil _) Ho)
    as (w' & Hrun & Hc & _).
  exists w'. split; [exact Hrun|exact Hc].
Defined.

(** ** The loop body of [pack] *)

(** X4.  The path that the loop body of [pack] writes into the record
    resolves, relative to the destination directory, to the destination
    that it plans for the copy of the referenced file; the source of that
    copy is the old path resolved relative to the directory of the
    original file. *)
Theorem rewritten_path_resolves_to_copy (base_dir_dst : bytes) (fp : FilePath)
    (rootdir : bytes) (v : PackVars) (w : World) (path_rel : bytes) :
  FilePathM.filepath fp w = Ok (VBytes path_rel, w) ->
  bf_readonly (fp_file fp) = false ->
  exists v' w' path_new,
    packer.pack_body base_dir_dst (fp, rootdir) v w = Ok (v', w')
    /\ FilePathM.filepath fp w' = Ok (VBytes path_new, w')
    /\ (utils.abspath path_rel (basedir fp), utils.abspath path_new base_dir_dst)
       ∈ path_copy_files v'
    /\ path_temp_files v' = path_temp_files v.
Proof.
  intros Hget Hrw. unfold FilePathM.filepath in Hget.
  destruct (set_then_get _ _ _ _ (VBytes ("//" ++ packer.path_base_of path_rel)) _ Hget Hrw)
    as (w' & Hset & Hget' & _).
  eexists _, w', _. split; [|split; [exact Hget'|]].
  - unfold packer.pack_body. cbn [fst].
    unfold FilePathM.filepath. rewrite (bind_ok _ _ _ _ _ Hget).
    unfold FilePathM.set_filepath. rewrite (bind_ok _ _ _ _ _ Hset). reflexivity.
  - cbn [path_copy_files path_temp_files]. split; [|reflexivity].
    change (utils.abspath ("//" ++ packer.path_base_of path_rel) base_dir_dst)
      with (os_path.join base_dir_dst (packer.path_base_of path_rel)).
    unfold set_add. destruct (decide (_ ∈ path_copy_files v)) as [Hin|Hin]; [exact Hin|].
    apply elem_of_app. right. apply list_elem_of_singleton. reflexivity.
Qed.

Lemma rewritten_path_resolves_to_copy_witness :
  FilePathM.filepath Samples2.image_ref Samples2.world_staged
    = Ok (VBytes "//sub/dir/asset.png", Samples2.world_staged)
  /\ exists v' w' path_new,
       packer.pack_body "/dst" (Samples2.image_ref, "/src") (mkPackVars [] [])
         Samples2.world_staged = Ok (v', w')
       /\ FilePathM.filepath Samples2.image_ref w' = Ok (VBytes path_new, w')
       /\ (utils.abspath "//sub/dir/asset.png" (basedir Samples2.image_ref),
           utils.abspath path_new "/dst") ∈ path_copy_files v'.
Proof.
  assert (FilePathM.filepath Samples2.image_ref Samples2.world_staged
          = Ok (VBytes "//sub/dir/asset.png", Samples2.world_staged)) as H
    by (vm_compute; reflexivity).
  split; [exact H|].
  destruct (rewritten_path_resolves_to_copy "/dst" Samples2.image_ref "/src"
              (mkPackVars [] []) Samples2.world_staged _ H eq_refl)
    as (v' & w' & p & Hrun & Hget & Hin & _).
  exists v', w', p. split; [exact Hrun|]. split; [exact Hget|exact Hin].
Defined.

(** ** Libraries in the copy plan *)

(** X5.  For a library path without a backslash, the destination that the
    loop body of [pack] plans for the copy of the library file is the path
    to which the staging copy of that library is moved (its staging path
    without the staging suffix): the planned copy and the move of the
    staged library have one and the same target. *)
Theorem library_copy_lands_on_staged_library (base_dir_dst basedir path_rel : bytes) :
  Bytes.mem backslash path_rel = false ->
  os_path.join base_dir_dst (packer.path_base_of path_rel)
  = Bytes.drop_last (packer.staging_path base_dir_dst (utils.abspath path_rel basedir)).
Proof.
  intros H. unfold packer.staging_path. rewrite drop_last_suffix. f_equal.
  rewrite (path_base_of_basename _ H). unfold utils.abspath.
  destruct (Bytes.startswith "//" path_rel) eqn:E; [|reflexivity].
  apply startswith_app in E as [r ->].
  rewrite basename_join. change (Bytes.drop 2 ("//" ++ r)) with r.
  apply (basename_prefix "//" r). now right.
Qed.

Lemma library_copy_lands_on_staged_library_witness :
  Bytes.mem backslash "//libs/lib.blend" = false
  /\ os_path.join "/dst" (packer.path_base_of "//libs/lib.blend")
     = Bytes.drop_last (packer.staging_path "/dst" (utils.abspath "//libs/lib.blend" "/src")).
Proof.
  split; [reflexivity|].
  exact (library_copy_lands_on_staged_library "/dst" "/src" "//libs/lib.blend" eq_refl).
Defined.

(** ** The final copy loop of [pack] *)

Lemma insert_keeps (m : gmap bytes FileContent) (k p : bytes) (c : FileContent) :
  is_Some (m !! p) -> is_Some (<[k := c]> m !! p).
Proof.
  intros H. destruct (decide (k = p)) as [->|Hne].
  - rewrite lookup_insert_eq. eauto.
  - now rewrite lookup_insert_ne.
Qed.

(** *** The loop in the words of the specification *)

Lemma copy_step_fs_ne (e : bytes * bytes) (m : gmap bytes FileContent) (p : bytes) :
  p <> e.2 -> copy_step_fs e m !! p = m !! p.
Proof.
  intros Hp. unfold copy_step_fs.
  destruct (m !! e.1); [apply lookup_insert_ne; congruence|reflexivity].
Qed.

Lemma copy_step_fs_keeps (e : bytes * bytes) (m : gmap bytes FileContent) (p : bytes) :
  is_Some (m !! p) -> is_Some (copy_step_fs e m !! p).
Proof.
  intros Hp. unfold copy_step_fs. destruct (m !! e.1); [now apply insert_keeps|exact Hp].
Qed.



Lemma copied_fs_frame (plan : list (bytes * bytes)) (m : gmap bytes FileContent)
    (p : bytes) :
  p ∉ plan.*2 -> copied_fs plan m !! p = m !! p.
Proof.
  revert m. induction plan as [|e plan IH]; intros m Hp; [reflexivity|].
  rewrite fmap_cons in Hp. apply not_elem_of_cons in Hp as [Hp1 Hp2].
  cbn [copied_fs]. rewrite (IH _ Hp2). now apply copy_step_fs_ne.
Qed.

Lemma copied_fs_keeps (plan : list (bytes * bytes)) (m : gmap bytes FileContent)
    (p : bytes) :
  is_Some (m !! p) -> is_Some (copied_fs plan m !! p).
Proof.
  revert m. induction plan as [|e plan IH]; intros m Hp; [exact Hp|].
  cbn [copied_fs]. apply IH. now apply copy_step_fs_keeps.
Qed.

(** A destination that is planned once, from a source that is no
    destination, ends up with the content the source had at the start, if
    it had one. *)
Lemma copied_fs_content (plan : list (bytes * bytes)) (m : gmap bytes FileContent)
    (src dst : bytes) :
  (src, dst) ∈ plan -> src ∉ plan.*2 ->
  (forall src', (src', dst) ∈ plan -> src' = src) ->
  copied_fs plan m !! dst = match m !! src with
                            | Some c => Some c
                            | None => m !! dst
                            end.
Proof.
  revert m. induction plan as [|e plan IH]; intros m Hin Hsrc Huniq.
  { now apply elem_of_nil in Hin. }
  rewrite fmap_cons in Hsrc. apply not_elem_of_cons in Hsrc as [Hs1 Hs2].
  cbn [copied_fs].
  destruct (decide ((src, dst) ∈ plan)) as [Hr|Hr].
  - rewrite (IH _ Hr Hs2)
      by (intros s' Hs'; apply Huniq; now apply list_elem_of_further).
    rewrite (copy_step_fs_ne e m src Hs1).
    destruct (m !! src) as [c|] eqn:Hc; [reflexivity|].
    destruct (decide (dst = e.2)) as [Hd|Hd]; [|now apply copy_step_fs_ne].
    assert (e.1 = src) as E.
    { apply Huniq. rewrite Hd. destruct e. apply list_elem_of_here. }
    unfold copy_step_fs. rewrite E, Hc. reflexivity.
  - apply elem_of_cons in Hin as [Hin|Hin]; [|contradiction]. subst e. cbn [fst snd] in *.
    assert (dst ∉ plan.*2) as Hd.
    { intros Hd. apply list_elem_of_fmap in Hd as ([s' d'] & Heq & Hd).
      cbn in Heq. subst d'. apply Hr.
      rewrite <- (Huniq s'); [exact Hd|]. now apply list_elem_of_further. }
    rewrite (copied_fs_frame _ _ _ Hd). unfold copy_step_fs. cbn [fst snd].
    destruct (m !! src); [apply lookup_insert_eq|reflexivity].
Qed.


(** *** The loop of the code against these words *)

Lemma copy_possible_allowed (w : World) (e : bytes * bytes) :
  copy_possible w e -> copy_allowed w e.
Proof.
  intros (H1 & H2 & Hne & Hp). unfold names_directory in *.
  apply orb_false_elim in H1 as [[H1 _]%orb_false_elim _].
  apply orb_false_elim in H2 as [[H2 _]%orb_false_elim _].
  split; [exact H1|]. split; [exact H2|]. split; [exact Hne|].
  now apply open_for_writing_parent.
Qed.

Lemma copy_allowed_ext (w w' : World) (e : bytes * bytes) :
  (forall q, isdir w' q = isdir w q) ->
  (forall q, is_Some (fs w !! q) -> is_Some (fs w' !! q)) ->
  copy_allowed w e -> copy_allowed w' e.
Proof.
  intros Hd Hm (H1 & H2 & Hne & Ho).
  split; [now rewrite Hd|]. split; [now rewrite Hd|]. split; [exact Hne|].
  now apply (open_for_writing_mono w w').
Qed.

(** One round of the loop. *)
Lemma copy_one_spec (e : bytes * bytes) (w : World) :
  copy_allowed w e ->
  packer.copy_one e w
  = Ok (tt, mkWorld (copy_step_fs e (fs w)) (cwd w)
              (trace w ++ copy_step_events e (fs w))).
Proof.
  intros (H1 & H2 & Hne & Ho). unfold packer.copy_one, os_path_exists, gets, bind.
  unfold copy_step_fs, copy_step_events.
  destruct (fs w !! e.1) as [c|] eqn:Hc.
  - rewrite bool_decide_eq_true_2 by eauto.
    unfold print, modify.
    rewrite (copy_ok e.1 e.2 _ c); [cbn; now rewrite <- app_assoc|exact Hc| |exact Hne|].
    + apply isdir_false in H1. congruence.
    + exact Ho.
  - rewrite bool_decide_eq_false_2 by (intros [x Hx]; discriminate).
    reflexivity.
Qed.

Lemma copy_step_keeps_dirs (e : bytes * bytes) (w : World) (t : list Event) (q : bytes) :
  isdir w e.1 = false -> isdir w e.2 = false ->
  isdir (mkWorld (copy_step_fs e (fs w)) (cwd w) t) q = isdir w q.
Proof.
  intros H1 H2. unfold copy_step_fs. destruct (fs w !! e.1) as [c|] eqn:Hc.
  - apply isdir_insert; [|exact H2|reflexivity].
    apply isdir_false in H1. congruence.
  - reflexivity.
Qed.

(** The whole loop: it completes, and does what the specification says. *)
Lemma copy_files_spec (plan : list (bytes * bytes)) (w : World) :
  Forall (copy_allowed w) plan ->
  packer.copy_files plan w
  = Ok (tt, mkWorld (copied_fs plan (fs w)) (cwd w) (trace w ++ copy_events plan (fs w))).
Proof.
  revert w. induction plan as [|e plan IH]; intros w Hall.
  - cbn. rewrite app_nil_r. now destruct w.
  - apply Forall_cons in Hall as [He Hrest].
    unfold packer.copy_files in *. cbn [forM].
    rewrite (bind_ok _ _ _ _ _ (copy_one_spec e w He)).
    rewrite IH.
    + cbn [fs cwd trace copied_fs copy_events]. now rewrite <- app_assoc.
    + eapply Forall_impl; [exact Hrest|]. intros e' He'.
      destruct He as (H1 & H2 & _).
      apply (copy_allowed_ext w); [| |exact He'].
      * intros q. now apply copy_step_keeps_dirs.
      * intros q. cbn [fs]. apply copy_step_fs_keeps.
Qed.

(** X6.  The final loop of [pack], over a plan in which every copy can be
    made (no source and no destination names a directory, no entry copies a
    file onto itself, and the directory of every destination exists),
    completes: a missing source is skipped, not an error.  It changes no
    file other than the destinations of the plan and leaves the working
    directory alone.  Where a destination is planned once and its source is
    not itself a destination, the destination ends up with the content the
    source had when the loop started, or is left as it was if that source
    did not exist. *)
Theorem copy_files_outcome (plan : list (bytes * bytes)) (w : World) :
  Forall (copy_possible w) plan ->
  exists w',
    packer.copy_files plan w = Ok (tt, w')
    /\ cwd w' = cwd w
    /\ (forall p, p ∉ plan.*2 -> fs w' !! p = fs w !! p)
    /\ (forall src dst,
          (src, dst) ∈ plan -> src ∉ plan.*2 ->
          (forall src', (src', dst) ∈ plan -> src' = src) ->
          fs w' !! dst = match fs w !! src with
                         | Some c => Some c
                         | None => fs w !! dst
                         end).
Proof.
  intros Hall. eexists. split.
  { apply copy_files_spec. eapply Forall_impl; [exact Hall|].
    intros e. apply copy_possible_allowed. }
  cbn [fs cwd]. split; [reflexivity|]. split.
  - intros p. apply copied_fs_frame.
  - intros src dst. apply copied_fs_content.
Qed.

Lemma sample_plan_possible : Forall (copy_possible Samples.world0) Samples6.plan.
Proof. repeat constructor; try (vm_compute; reflexivity); discriminate. Defined.

Lemma copy_files_outcome_witness :
  Forall (copy_possible Samples.world0) Samples6.plan
  /\ exists w',
       packer.copy_files Samples6.plan Samples.world0 = Ok (tt, w')
       /\ fs w' !! "/dst/asset.png" = Some (RawContent "png")
       /\ fs w' !! "/dst/gone.png" = None.
Proof.
  split; [exact sample_plan_possible|].
  destruct (copy_files_outcome Samples6.plan Samples.world0 sample_plan_possible)
    as (w' & Hrun & _ & _ & Hcontent).
  exists w'. split; [exact Hrun|]. split.
  - rewrite (Hcontent "/src/sub/dir/asset.png" "/dst/asset.png").
    + vm_compute. reflexivity.
    + apply list_elem_of_here.
    + intros Hin. apply list_elem_of_In in Hin. cbn in Hin.
      destruct Hin as [E|[E|[]]]; discriminate.
    + intros src' Hin. apply list_elem_of_In in Hin. cbn in Hin.
      destruct Hin as [E|[E|[]]]; [now injection E|discriminate].
  - rewrite (Hcontent "/src/gone.png" "/dst/gone.png").
    + vm_compute. reflexivity.
    + apply list_elem_of_further, list_elem_of_here.
    + intros Hin. apply list_elem_of_In in Hin. cbn in Hin.
      destruct Hin as [E|[E|[]]]; discriminate.
    + intros src' Hin. apply list_elem_of_In in Hin. cbn in Hin.
      destruct Hin as [E|[E|[]]]; [discriminate|now injection E].
Defined.

(** ** What a completed [pack] leaves *)

(** After the walk and the moves there is something at the destination
    path. *)
Lemma pack_stage_destination (o : SetOrder) (fuel : nat)
    (blendfile_src blendfile_dst : bytes) (w : World)
    (plan : list (bytes * bytes)) (w1 : World) :
  Bytes.endswith1 "@" blendfile_dst = false ->
  packer.pack_stage o fuel blendfile_src blendfile_dst w = Ok (plan, w1) ->
  is_Some (fs w1 !! blendfile_dst).
Proof.
  intros Hdst Hstage. unfold packer.pack_stage in Hstage.
  apply bind_ok_inv in Hstage as (r & s1 & Hwalk & Hstage).
  apply walk_inv with (w0 := w) in Hwalk;
    [|split; [apply pack_frame_refl|split; constructor]].
  apply bind_ok_inv in Hstage as (tmp & s2 & Hhook & Hstage).
  destruct (hook_inv _ _ _ _ _ _ _ Hwalk Hhook) as [[_ [Ht2 _]] [f' Hq]].
  assert (forall f, packer.staging_path (os_path.dirname blendfile_dst) f <> blendfile_dst)
    as Hne.
  { intros f E. pose proof (staging_path_suffix (os_path.dirname blendfile_dst) f) as Hs.
    rewrite E in Hs. congruence. }
  apply bind_ok_inv in Hstage as (? & s3 & Hmove & Hstage).
  assert (is_Some (fs s3 !! blendfile_dst)) as H3.
  { pose proof (move_keeps _ _ _ _ _ Hmove) as (_ & Hkeep & _).
    apply move_inv in Hmove
      as [(Hd & _ & ->)|(c & target & _ & _ & [[_ ->]|(Hd & _ & _)] & _ & ->)].
    - apply isdir_true in Hd. cbn [add_event fs]. rewrite Hd. eauto.
    - cbn [fs]. rewrite lookup_insert_eq. eauto.
    - apply Hkeep; [rewrite Hq; intros E; exact (Hne _ (eq_sym E))|].
      apply isdir_true in Hd. rewrite Hd. eauto. }
  apply bind_ok_inv in Hstage as (temps & s4 & Hrem & Hstage).
  assert (s4 = s3 /\ Forall (fun p => p <> blendfile_dst) temps) as [-> Htemps].
  { unfold packer.set_remove in Hrem.
    destruct (decide (tmp.1 ∈ path_temp_files tmp.2)); [|discriminate].
    apply ret_inv in Hrem as [-> ->]. split; [reflexivity|].
    apply Forall_forall. intros fn0 Hx.
    apply list_elem_of_filter in Hx as [_ Hx].
    rewrite Forall_forall in Ht2. destruct (Ht2 fn0 Hx) as [f ->]. apply Hne. }
  apply bind_ok_inv in Hstage as (? & s5 & Hmoves & Hstage).
  apply ret_inv in Hstage as [-> ->].
  revert Hmoves.
  apply (forM_inv (fun s => is_Some (fs s !! blendfile_dst))); [|exact H3].
  intros fn s ? s' Hin HI Hm. rewrite Forall_forall in Htemps.
  apply list_elem_of_In in Hin. rewrite (order_temp_perm o temps) in Hin.
  specialize (Htemps fn Hin).
  apply move_keeps in Hm as (_ & Hkeep & _). apply Hkeep; [congruence|exact HI].
Qed.

(** X7.  When [pack] completes for a destination path that does not end
    with the staging suffix, the destination file exists, and the last
    thing the run did is to report it as written. *)
Theorem pack_leaves_destination (o : SetOrder) (fuel : nat)
    (blendfile_src blendfile_dst : bytes) (w : World) (u : unit) (w' : World) :
  Bytes.endswith1 "@" blendfile_dst = false ->
  packer.pack o fuel blendfile_src blendfile_dst w = Ok (u, w') ->
  is_Some (fs w' !! blendfile_dst)
  /\ exists t, trace w' = (t ++ [PrintWritten blendfile_dst])%list.
Proof.
  intros Hdst H. unfold packer.pack in H.
  apply bind_ok_inv in H as (plan & w1 & Hstage & H).
  pose proof (pack_stage_destination _ _ _ _ _ _ _ Hdst Hstage) as H5.
  apply bind_ok_inv in H as (? & s6 & Hcopies & H).
  apply print_inv in H as ->. cbn [add_event fs trace]. split; [|eauto].
  revert Hcopies. unfold packer.copy_files.
  apply (forM_inv (fun s => is_Some (fs s !! blendfile_dst))); [|exact H5].
  intros e s ? s' Hin HI Hone. unfold packer.copy_one in Hone.
  apply bind_ok_inv in Hone as (present & s7 & Hex & Hone).
  apply gets_inv in Hex as [-> ->].
  destruct (bool_decide (is_Some (fs s !! e.1))).
  - apply bind_ok_inv in Hone as (? & s8 & Hp & Hone). apply print_inv in Hp as ->.
    apply copy_keeps in Hone as (_ & Hkeep & _). now apply Hkeep.
  - apply print_inv in Hone as ->. exact HI.
Qed.

Lemma pack_leaves_destination_witness :
  Bytes.endswith1 "@" "/src/blendfile/test/out/paths.blend" = false
  /\ packer.pack insertion_order 5 "/src/blendfile/test/paths.blend"
       "/src/blendfile/test/out/paths.blend" Samples4.nested_world
     = Ok Samples4.nested_packed
  /\ is_Some (fs Samples4.nested_packed.2 !! "/src/blendfile/test/out/paths.blend").
Proof.
  assert (packer.pack insertion_order 5 "/src/blendfile/test/paths.blend"
            "/src/blendfile/test/out/paths.blend" Samples4.nested_world
          = Ok Samples4.nested_packed) as Hrun
    by (apply run_result_ok; vm_compute; reflexivity).
  split; [reflexivity|]. split; [exact Hrun|].
  rewrite (surjective_pairing Samples4.nested_packed) in Hrun.
  exact (proj1 (pack_leaves_destination insertion_order 5 "/src/blendfile/test/paths.blend"
                  "/src/blendfile/test/out/paths.blend" _ _ _ eq_refl Hrun)).
Defined.

(** ** C6: a missing source *)




(** ** The loop over a linked list: [bf_utils.iter_ListBase] *)

Lemma chain_kept {Acc} (blend : BlendFile) (body : Block -> Acc -> M World Acc)
    (b : Block) (acc acc' : Acc) (w w' : World) (first : option Block) (l : list Block) :
  keeps_links blend body ->
  body b acc w = Ok (acc', w') ->
  chain blend w first l -> chain blend w' first l.
Proof.
  intros Hk Hb Hc. induction Hc as [|x nxt l Hx Hc IH]; [constructor|].
  econstructor; [|exact IH]. exact (Hk _ _ _ _ _ Hb _ _ Hx).
Qed.

(** A loop body that does not change the world leaves the links alone. *)
Lemma same_world_keeps_links {Acc} (blend : BlendFile)
    (body : Block -> Acc -> M World Acc) :
  (forall b acc w acc' w', body b acc w = Ok (acc', w') -> w' = w) ->
  keeps_links blend body.
Proof. intros H b acc w acc' w' Hb x y Hx. now rewrite (H _ _ _ _ _ Hb). Qed.

(** The loop along a list that ends, by induction on the bound. *)
Lemma iter_ListBase_chain {Acc} (blend : BlendFile)
    (body : Block -> Acc -> M World Acc) (fuel : nat) (first : option Block)
    (l : list Block) (acc : Acc) (w : World) :
  keeps_links blend body ->
  chain blend w first l ->
  (length l <= fuel)%nat ->
  bf_utils.iter_ListBase fuel blend first body acc w = foldM body l acc w.
Proof.
  intros Hk. revert first l acc w.
  induction fuel as [|fuel IH]; intros first l acc w Hc Hlen.
  - destruct Hc as [|b nxt l Hb Hc]; [reflexivity|]. cbn in Hlen. lia.
  - destruct Hc as [|b nxt l Hb Hc]; [reflexivity|].
    cbn [bf_utils.iter_ListBase foldM]. unfold bind at 1 3.
    destruct (body b acc w) as [[acc1 w1]| |] eqn:Hbody; [|reflexivity|reflexivity].
    unfold bind. rewrite (Hk _ _ _ _ _ Hbody _ _ Hb).
    apply IH; [exact (chain_kept _ _ _ _ _ _ _ _ _ Hk Hbody Hc)|].
    cbn in Hlen. lia.
Qed.

(** X8.  On a list that ends with the null pointer, [iter_ListBase] is the
    loop over the records of the list, in list order, each record given to
    the loop body once: first the record it starts from, then the one its
    [next] pointer addresses, and so on.  The loop body may do anything
    except change a [next] pointer. *)
Theorem iter_ListBase_walks_chain {Acc} (blend : BlendFile)
    (body : Block -> Acc -> M World Acc) (fuel : nat) (first : option Block)
    (l : list Block) (acc : Acc) (w : World) :
  keeps_links blend body ->
  chain blend w first l ->
  (length l <= fuel)%nat ->
  bf_utils.iter_ListBase fuel blend first body acc w = foldM body l acc w.
Proof. apply iter_ListBase_chain. Qed.

Lemma group_members_chain :
  chain Samples6.group_handle Samples6.group_world (Some Samples6.member1)
    [Samples6.member1; Samples6.member2].
Proof.
  econstructor; [vm_compute; reflexivity|].
  econstructor; [vm_compute; reflexivity|]. constructor.
Defined.

Lemma collect_same_world {A} (x : A) (acc acc' : list A) (w w' : World) :
  collect x acc w = Ok (acc', w') -> w' = w.
Proof. unfold collect. intros H. now apply ret_inv in H as [_ ->]. Qed.

Lemma iter_ListBase_walks_chain_witness :
  keeps_links Samples6.group_handle (@collect Block)
  /\ chain Samples6.group_handle Samples6.group_world (Some Samples6.member1)
       [Samples6.member1; Samples6.member2]
  /\ (length [Samples6.member1; Samples6.member2] <= 2)%nat
  /\ bf_utils.iter_ListBase 2 Samples6.group_handle (Some Samples6.member1) collect []
       Samples6.group_world
     = Ok ([Samples6.member1; Samples6.member2], Samples6.group_world).
Proof.
  assert (keeps_links Samples6.group_handle (@collect Block)) as Hk
    by (apply same_world_keeps_links; intros b acc w acc' w'; apply collect_same_world).
  split; [exact Hk|]. split; [exact group_members_chain|]. split; [cbn; lia|].
  rewrite (iter_ListBase_walks_chain Samples6.group_handle collect 2
             (Some Samples6.member1) [Samples6.member1; Samples6.member2] []
             Samples6.group_world Hk group_members_chain (le_n 2)).
  reflexivity.
Defined.

(** X9.  [iter_ListBase] has no guard against a list that does not end: from
    a record whose [next] pointers never reach the null pointer, the loop
    gives the loop body one record after the other and never finishes,
    whatever bound is put on the number of its rounds. *)
Theorem iter_ListBase_cycle_never_ends {Acc} (blend : BlendFile)
    (body : Block -> Acc -> M World Acc) (P : Block -> Prop) (w : World)
    (fuel : nat) (b : Block) (acc : Acc) :
  quiet body ->
  endless blend w P ->
  P b ->
  bf_utils.iter_ListBase fuel blend (Some b) body acc w = OutOfFuel.
Proof.
  intros Hq He. revert b acc. induction fuel as [|fuel IH]; intros b acc Hb; [reflexivity|].
  cbn [bf_utils.iter_ListBase]. destruct (Hq b acc w) as [acc' Hbody].
  destruct (He b Hb) as (b' & Hnext & Hb').
  rewrite (bind_ok _ _ _ _ _ Hbody), (bind_ok _ _ _ _ _ Hnext). apply IH, Hb'.
Qed.

Lemma iter_ListBase_cycle_never_ends_witness :
  quiet (@collect Block)
  /\ endless Samples6.loop_handle Samples6.loop_world (fun b => b = Samples6.member1)
  /\ bf_utils.iter_ListBase 1000 Samples6.loop_handle (Some Samples6.member1) collect []
       Samples6.loop_world
     = OutOfFuel.
Proof.
  assert (quiet (@collect Block)) as Hq by (intros x acc w; eexists; reflexivity).
  assert (endless Samples6.loop_handle Samples6.loop_world (fun b => b = Samples6.member1))
    as He.
  { intros b ->. exists Samples6.member1. split; [vm_compute; reflexivity|reflexivity]. }
  split; [exact Hq|]. split; [exact He|].
  exact (iter_ListBase_cycle_never_ends Samples6.loop_handle collect _ Samples6.loop_world
           1000 Samples6.member1 [] Hq He eq_refl).
Defined.

(** ** The group rule: [ExpandID.expand_GR] *)

(** X11.  The group rule fails with [KeyError] when the schema of the file
    has no [GroupObject] structure, before it reads anything.  Otherwise,
    for a group whose member list ends with the null pointer, it yields one
    item per member, in list order: the record that the [ob] pointer of the
    member addresses, or [None]. *)
Theorem expand_GR_yields_members {Acc} (fuel : nat) (blend : BlendFile) (b : Block)
    (body : option Block -> Acc -> M World Acc) (acc : Acc) (w : World)
    (first : option Block) (l : list Block) :
  let per_member := fun gobj acc =>
    (ob <- blendfile.get_pointer blend gobj "ob" ;; body ob acc)%py in
  (sdna_index_from_id blend !! "GroupObject" = None ->
   ExpandID.expand_GR fuel blend b body acc w = Raise KeyError)
  /\ (is_Some (sdna_index_from_id blend !! "GroupObject") ->
      blendfile.get_pointer blend b "gobject.first" w = Ok (first, w) ->
      chain blend w first l ->
      (length l <= fuel)%nat ->
      keeps_links blend per_member ->
      ExpandID.expand_GR fuel blend b body acc w = foldM per_member l acc w).
Proof.
  intros per_member. unfold ExpandID.expand_GR. split.
  - intros ->. reflexivity.
  - intros [i ->] Hfirst Hc Hlen Hk. rewrite (bind_ok _ _ _ _ _ Hfirst).
    now apply iter_ListBase_chain.
Qed.

Lemma expand_GR_yields_members_witness :
  is_Some (sdna_index_from_id Samples6.group_handle !! "GroupObject")
  /\ blendfile.get_pointer Samples6.group_handle Samples6.group "gobject.first"
       Samples6.group_world = Ok (Some Samples6.member1, Samples6.group_world)
  /\ ExpandID.expand_GR 2%nat Samples6.group_handle Samples6.group collect []
       Samples6.group_world
     = Ok ([Some Samples6.object1; Some Samples6.object2], Samples6.group_world).
Proof.
  assert (is_Some (sdna_index_from_id Samples6.group_handle !! "GroupObject")) as Hs
    by (exists 5; vm_compute; reflexivity).
  assert (blendfile.get_pointer Samples6.group_handle Samples6.group "gobject.first"
            Samples6.group_world = Ok (Some Samples6.member1, Samples6.group_world)) as Hf
    by (vm_compute; reflexivity).
  split; [exact Hs|]. split; [exact Hf|].
  rewrite (proj2 (expand_GR_yields_members 2 Samples6.group_handle Samples6.group
                    collect [] Samples6.group_world (Some Samples6.member1)
                    [Samples6.member1; Samples6.member2])
             Hs Hf group_members_chain (le_n 2)).
  - vm_compute. reflexivity.
  - apply same_world_keeps_links. intros g acc w acc' w' H.
    apply bind_ok_inv in H as (ob & w1 & Hob & H).
    apply get_pointer_inv in Hob as ->. now apply collect_same_world in H.
Defined.

(** ** The expansion of a record: [block_expand] *)

(** X10.  When the expansion of a record completes, the set of expanded
    names has only grown and holds the name of the record; from then on the
    record is not expanded again: [block_expand] on it yields the record
    itself and nothing else, and applies no expansion rule. *)
Theorem block_expand_marks_once {Acc} (fuel : nat) (blend : BlendFile)
    (yield_ : Block -> Acc -> M World Acc) (b : Block) (c : bytes)
    (st : gset value * Acc) (w : World) (st' : gset value * Acc) (w' : World) :
  FilePathM.block_expand fuel blend yield_ b c st w = Ok (st', w') ->
  st.1 ⊆ st'.1
  /\ exists name,
       blendfile.get blend b "id.name" w = Ok (name, w)
       /\ name ∈ st'.1
       /\ forall (yield2 : Block -> Acc -> M World Acc) (fuel2 : nat) (c2 : bytes)
                 (acc2 : Acc) (w2 : World),
            blendfile.get blend b "id.name" w2 = Ok (name, w2) ->
            FilePathM.block_expand (S fuel2) blend yield2 b c2 (st'.1, acc2) w2
            = (acc' <- yield2 b acc2 ;; ret (st'.1, acc'))%py w2.
Proof.
  intros H.
  cut (st.1 ⊆ st'.1
       /\ exists name, blendfile.get blend b "id.name" w = Ok (name, w) /\ name ∈ st'.1).
  { intros [Hsub (name & Hname & Hin)]. split; [exact Hsub|].
    exists name. split; [exact Hname|]. split; [exact Hin|].
    intros yield2 fuel2 c2 acc2 w2 Hname2. cbn [FilePathM.block_expand].
    rewrite (bind_ok _ _ _ _ _ Hname2). cbn [fst snd].
    now rewrite decide_True by exact Hin. }
  revert b c st w st' w' H.
  induction fuel as [|fuel IH]; intros b c st w st' w' H; [discriminate|].
  cbn [FilePathM.block_expand] in H.
  apply bind_ok_inv in H as (name & w1 & Hn & H).
  pose proof (get_inv _ _ _ _ _ _ Hn) as ->.
  destruct (decide (name ∈ st.1)) as [Hin|Hin].
  - apply bind_ok_inv in H as (acc1 & w1 & Hy & H). apply ret_inv in H as [-> ->].
    split; [reflexivity|]. exists name. auto.
  - apply bind_ok_inv in H as (acc1 & w1 & Hy & H).
    assert ({[name]} ∪ st.1 ⊆ st'.1) as Hsub.
    { destruct (ExpandID.expand_funcs_get c) as [fn|] eqn:Hfn.
      - eapply (rule_J blend (fun (a : gset value * Acc) (_ : World) =>
                                {[name]} ∪ st.1 ⊆ a.1) (fun _ => True))
          with (c := c) (fn := fn); [| | |exact Hfn| |exact H].
        + intros a s e _ Ha. exact Ha.
        + intros a s b0 f sb _ _ _. exact I.
        + intros sub a s a' s' _ Ha Hsubrun. destruct sub as [sb|].
          * destruct (IH _ _ _ _ _ _ Hsubrun) as [Hmono _].
            etransitivity; [exact Ha|exact Hmono].
          * now apply ret_inv in Hsubrun as [-> ->].
        + reflexivity.
      - now apply ret_inv in H as [-> ->]. }
    split.
    + etransitivity; [apply union_subseteq_r|exact Hsub].
    + exists name. split; [exact Hn|]. apply Hsub, elem_of_union_l, elem_of_singleton_2.
      reflexivity.
Qed.

Lemma block_expand_marks_once_witness :
  FilePathM.block_expand 5 Samples6.group_handle collect Samples6.group "GR" (∅, [])
    Samples6.group_world = Ok Samples6.group_expanded
  /\ Samples6.group_expanded.1.2
     = [Samples6.group; Samples6.object1; Samples6.object2]
  /\ exists name,
       blendfile.get Samples6.group_handle Samples6.group "id.name" Samples6.group_world
       = Ok (name, Samples6.group_world)
       /\ name ∈ Samples6.group_expanded.1.1.
Proof.
  assert (FilePathM.block_expand 5 Samples6.group_handle collect Samples6.group "GR"
            (∅, []) Samples6.group_world = Ok Samples6.group_expanded) as Hrun
    by (apply run_result_ok; vm_compute; reflexivity).
  split; [exact Hrun|]. split; [vm_compute; reflexivity|].
  rewrite (surjective_pairing Samples6.group_expanded) in Hrun.
  destruct (block_expand_marks_once _ _ _ _ _ _ _ _ _ Hrun)
    as (_ & name & Hname & Hin & _).
  exists name. split; [exact Hname|exact Hin].
Defined.

(** ** The library table: [lib_all] *)

(** A loop keeps an invariant that speaks of the items it has gone
    through. *)
Lemma foldM_prefix_inv {S A Acc} (J : list A -> Acc -> S -> Prop)
    (f : A -> Acc -> M S Acc) (l : list A) :
  (forall pre x acc s acc' s',
      J pre acc s -> f x acc s = Ok (acc', s') -> J (pre ++ [x])%list acc' s') ->
  forall pre acc s acc' s',
    J pre acc s -> foldM f l acc s = Ok (acc', s') -> J (pre ++ l)%list acc' s'.
Proof.
  intros Hstep. induction l as [|x l IH]; intros pre acc s acc' s' HJ H; simpl in H.
  - apply ret_inv in H as [-> ->]. now rewrite app_nil_r.
  - apply bind_ok_inv in H as (a & s1 & H1 & H2).
    replace (pre ++ x :: l)%list with ((pre ++ [x]) ++ l)%list by now rewrite <- app_assoc.
    eapply IH; [|exact H2]. eapply Hstep; [exact HJ|exact H1].
Qed.

Lemma table_names_cons (k0 : value) (names : gset value)
    (rest : list (value * gset value)) (k : value) :
  table_names ((k0, names) :: rest) k
  = if decide (k0 = k) then names else table_names rest k.
Proof.
  unfold table_names. cbn [List.find fst].
  destruct (decide (k0 = k)) as [E|E].
  - now rewrite bool_decide_eq_true_2.
  - now rewrite bool_decide_eq_false_2.
Qed.

Lemma table_names_add (lib_path name : value) (l : list (value * gset value)) (k : value) :
  table_names (lib_all_add lib_path name l) k
  = if decide (k = lib_path) then {[name]} ∪ table_names l k else table_names l k.
Proof.
  induction l as [|[k0 names] rest IH].
  - cbn [lib_all_add]. rewrite table_names_cons.
    destruct (decide (lib_path = k)) as [E|E].
    + rewrite decide_True by congruence. unfold table_names. cbn.
      now rewrite (right_id_L ∅ (∪)).
    + rewrite decide_False by congruence. reflexivity.
  - cbn [lib_all_add]. destruct (decide (k0 = lib_path)) as [E0|E0].
    + rewrite !table_names_cons. subst k0.
      destruct (decide (lib_path = k)) as [E|E].
      * now rewrite decide_True by congruence.
      * now rewrite decide_False by congruence.
    + rewrite !table_names_cons, IH.
      destruct (decide (k0 = k)) as [E|E]; [|reflexivity].
      now rewrite decide_False by congruence.
Qed.

Lemma lib_all_add_keys (lib_path name : value) (l : list (value * gset value)) (k : value) :
  k ∈ (lib_all_add lib_path name l).*1 <-> k = lib_path \/ k ∈ l.*1.
Proof.
  induction l as [|[k0 names] rest IH].
  - cbn. rewrite list_elem_of_singleton. split; [auto|].
    intros [E|E]; [exact E|]. now apply elem_of_nil in E.
  - cbn [lib_all_add]. destruct (decide (k0 = lib_path)) as [E0|E0].
    + cbn. rewrite !elem_of_cons. subst k0. tauto.
    + cbn. rewrite !elem_of_cons, IH. tauto.
Qed.

Lemma lib_all_add_NoDup (lib_path name : value) (l : list (value * gset value)) :
  NoDup l.*1 -> NoDup (lib_all_add lib_path name l).*1.
Proof.
  induction l as [|[k0 names] rest IH]; intros H.
  - cbn. apply NoDup_singleton.
  - cbn [lib_all_add]. destruct (decide (k0 = lib_path)) as [E0|E0]; [exact H|].
    cbn in *. apply NoDup_cons in H as [Hk Hrest]. apply NoDup_cons. split; [|auto].
    rewrite lib_all_add_keys. intros [E|E]; [congruence|contradiction].
Qed.

Lemma lib_all_add_nonempty (lib_path name : value) (l : list (value * gset value)) :
  Forall (fun e : value * gset value => e.2 <> ∅) l ->
  Forall (fun e : value * gset value => e.2 <> ∅) (lib_all_add lib_path name l).
Proof.
  assert (forall X : gset value, {[name]} ∪ X <> ∅) as Hne.
  { intros X E. assert (name ∈ ({[name]} ∪ X)) as Hin
      by (apply elem_of_union_l, elem_of_singleton_2; reflexivity).
    rewrite E in Hin. now apply not_elem_of_empty in Hin. }
  induction l as [|[k0 names] rest IH]; intros H.
  - cbn. repeat constructor. cbn. rewrite <- (right_id_L ∅ (∪) {[name]}). apply Hne.
  - cbn [lib_all_add]. apply Forall_cons in H as [H0 Hrest].
    destruct (decide (k0 = lib_path)); apply Forall_cons; split; auto. cbn. apply Hne.
Qed.

(** X12.  The loop that fills the library table only reads: the world is
    as before.  The table has one entry per library path, no entry is empty,
    and the names under a library path are exactly the names of the
    linked-ID placeholders that belong to the library record with that path
    and, in a visit that expands records, whose name is among the expanded
    names. *)
Theorem collect_libs_groups_by_library (blend : BlendFile)
    (expand_codes : option (gset value)) (w : World)
    (lib_all : list (value * gset value)) (w' : World) :
  FilePathM.collect_libs blend expand_codes w = Ok (lib_all, w') ->
  w' = w
  /\ NoDup lib_all.*1
  /\ Forall (fun e : value * gset value => e.2 <> ∅) lib_all
  /\ forall lib_path name,
       name ∈ table_names lib_all lib_path <->
       exists b, b ∈ blendfile.find_blocks_from_code blend "ID"
         /\ placeholder_of blend w b lib_path name
         /\ (forall codes, expand_codes = Some codes -> name ∈ codes).
Proof.
  unfold FilePathM.collect_libs. intros H.
  change (blendfile.find_blocks_from_code blend "ID")
    with ([] ++ blendfile.find_blocks_from_code blend "ID")%list.
  revert H.
  apply (foldM_prefix_inv
           (fun pre (lib_all : list (value * gset value)) s =>
              s = w
              /\ NoDup lib_all.*1
              /\ Forall (fun e : value * gset value => e.2 <> ∅) lib_all
              /\ forall lib_path name,
                   name ∈ table_names lib_all lib_path <->
                   exists b, b ∈ pre
                     /\ placeholder_of blend w b lib_path name
                     /\ (forall codes, expand_codes = Some codes -> name ∈ codes))).
  - intros pre x acc s acc' s' (-> & Hnd & Hne & Hspec) H.
    apply bind_ok_inv in H as (keep & w1 & Hk & H).
    assert (w1 = w
            /\ (keep = true ->
                forall codes n, expand_codes = Some codes ->
                  blendfile.get blend x "name" w = Ok (n, w) -> n ∈ codes)
            /\ (keep = false ->
                exists codes n, expand_codes = Some codes
                  /\ blendfile.get blend x "name" w = Ok (n, w) /\ n ∉ codes))
      as (-> & Hkept & Hdropped).
    { destruct expand_codes as [codes|].
      - apply bind_ok_inv in Hk as (n1 & w2 & Hn1 & Hk).
        pose proof (get_inv _ _ _ _ _ _ Hn1) as ->.
        apply ret_inv in Hk as [-> ->]. split; [reflexivity|]. split.
        + intros Ht codes' n [= <-] Hn. apply bool_decide_eq_true_1 in Ht. congruence.
        + intros Hf. exists codes, n1. apply bool_decide_eq_false_1 in Hf. auto.
      - apply ret_inv in Hk as [-> ->]. split; [reflexivity|]. split; [|discriminate].
        intros _ codes n [=]. }
    destruct keep.
    + apply bind_ok_inv in H as (lib_id & w2 & Hl & H).
      pose proof (get_inv _ _ _ _ _ _ Hl) as ->.
      destruct lib_id as [|a]; [discriminate|].
      destruct (blendfile.find_block_from_offset blend a) as [lib|] eqn:Hfind;
        [|discriminate].
      apply bind_ok_inv in H as (lib_path0 & w2 & Hlp & H).
      pose proof (get_inv _ _ _ _ _ _ Hlp) as ->.
      apply bind_ok_inv in H as (name0 & w2 & Hn & H).
      pose proof (get_inv _ _ _ _ _ _ Hn) as ->.
      apply ret_inv in H as [-> ->].
      split; [reflexivity|]. split; [now apply lib_all_add_NoDup|].
      split; [now apply lib_all_add_nonempty|].
      intros lib_path name. rewrite table_names_add.
      destruct (decide (lib_path = lib_path0)) as [->|Hlib].
      * rewrite elem_of_union, elem_of_singleton, Hspec. split.
        -- intros [->|(b & Hb & Hp & Hf)].
           ++ exists x. split; [apply elem_of_app; right; apply list_elem_of_here|].
              split; [split; [exact Hn|]; exists a, lib; auto|].
              intros codes Hc. exact (Hkept eq_refl codes name0 Hc Hn).
           ++ exists b. split; [apply elem_of_app; now left|]. auto.
        -- intros (b & Hb & Hp & Hf). apply elem_of_app in Hb as [Hb|Hb].
           ++ right. exists b. auto.
           ++ apply list_elem_of_singleton in Hb as ->. left.
              destruct Hp as [Hn' _]. congruence.
      * rewrite Hspec. split.
        -- intros (b & Hb & Hp & Hf). exists b. split; [apply elem_of_app; now left|]. auto.
        -- intros (b & Hb & Hp & Hf). apply elem_of_app in Hb as [Hb|Hb].
           ++ exists b. auto.
           ++ apply list_elem_of_singleton in Hb as ->.
              destruct Hp as (_ & a' & lib' & Ha' & Hfind' & Hlp').
              assert (a' = a) as -> by congruence.
              assert (lib' = lib) as -> by congruence.
              congruence.
    + apply ret_inv in H as [-> ->].
      split; [reflexivity|]. split; [exact Hnd|]. split; [exact Hne|].
      intros lib_path name. rewrite Hspec. split.
      * intros (b & Hb & Hp & Hf). exists b. split; [apply elem_of_app; now left|]. auto.
      * intros (b & Hb & Hp & Hf). apply elem_of_app in Hb as [Hb|Hb].
        -- exists b. auto.
        -- apply list_elem_of_singleton in Hb as ->.
           destruct (Hdropped eq_refl) as (codes & n & Hc & Hn & Hnot).
           destruct Hp as [Hn' _]. assert (name = n) as -> by congruence.
           destruct (Hnot (Hf codes Hc)).
  - split; [reflexivity|]. split; [constructor|]. split; [constructor|].
    intros lib_path name. unfold table_names. cbn. split.
    + intros Hin. now apply not_elem_of_empty in Hin.
    + intros (b & Hb & _). now apply elem_of_nil in Hb.
Qed.

Lemma collect_libs_groups_by_library_witness :
  FilePathM.collect_libs (handle_of "/src/root.blend" true Samples.root_blend) None
    Samples.world0 = Ok Samples6.root_table
  /\ Samples6.root_table.2 = Samples.world0
  /\ NoDup Samples6.root_table.1.*1
  /\ table_names Samples6.root_table.1 (VBytes "//libs/lib.blend") = {[VBytes "MEy"]}.
Proof.
  assert (FilePathM.collect_libs (handle_of "/src/root.blend" true Samples.root_blend)
            None Samples.world0 = Ok Samples6.root_table) as Hrun
    by (apply run_result_ok; vm_compute; reflexivity).
  split; [exact Hrun|].
  rewrite (surjective_pairing Samples6.root_table) in Hrun.
  destruct (collect_libs_groups_by_library _ _ _ _ _ Hrun) as (Hw & Hnd & _).
  split; [exact Hw|]. split; [exact Hnd|]. vm_compute. reflexivity.
Defined.

(** ** The registry of visited libraries: [lib_visit] *)

(** X13.  A visit that completes hands back a registry exactly when it was
    given one, and the registry it hands back has only grown: under every
    library path it holds at least the names it held before. *)
Theorem registry_only_grows {Acc} (body : FilePath * bytes -> Acc -> M World Acc)
    (temp_remap_cb : option (bytes -> Acc -> M World (bytes * Acc)))
    (fuel : nat) (filepath : bytes) (readonly recursive : bool)
    (block_codes : option (gset value)) (rootdir : option bytes) (level : nat)
    (lib_visit : option registry) (acc : Acc) (w : World)
    (r : option registry * Acc) (w' : World) :
  FilePathM.visit_from_blend body temp_remap_cb fuel filepath readonly recursive
    block_codes rootdir level lib_visit acc w = Ok (r, w') ->
  match lib_visit with
  | None => r.1 = None
  | Some reg =>
      exists reg', r.1 = Some reg'
        /\ forall p, visited_names reg p ⊆ visited_names reg' p
  end.
Proof.
  destruct fuel as [|fuel]; [discriminate|]. intros H.
  cbn [FilePathM.visit_from_blend] in H.
  apply bind_ok_inv in H as (? & w1 & _ & H).
  apply bind_ok_inv in H as (? & w2 & _ & H).
  apply bind_ok_inv in H as (wd & w3 & _ & H).
  apply bind_ok_inv in H as (tmp & w4 & _ & H).
  apply bind_ok_inv in H as (blend & w5 & _ & H).
  apply bind_ok_inv in H as (scanned & w6 & _ & H).
  apply bind_ok_inv in H as (? & w7 & _ & H).
  assert (match lib_visit with
          | None => (lib_visit, scanned.2).1 = None
          | Some reg =>
              exists reg', (lib_visit, scanned.2).1 = Some reg'
                /\ forall p, visited_names reg p ⊆ visited_names reg' p
          end) as Hinit.
  { destruct lib_visit as [reg|]; [|reflexivity]. exists reg. split; [reflexivity|].
    intros p. reflexivity. }
  destruct recursive; [|apply ret_inv in H as [-> ->]; exact Hinit].
  revert H.
  apply (foldM_inv (fun (st : option registry * Acc) (_ : World) =>
                      match lib_visit with
                      | None => st.1 = None
                      | Some reg =>
                          exists reg', st.1 = Some reg'
                            /\ forall p, visited_names reg p ⊆ visited_names reg' p
                      end)); [|exact Hinit].
  intros lib st s st' s' _ HJ H. unfold FilePathM.follow_lib in H.
  apply bind_ok_inv in H as (lib_path_abs & s1 & _ & H).
  destruct st.1 as [reg1|] eqn:Hst; [|discriminate].
  apply bind_ok_inv in H as (? & s2 & _ & H).
  apply bind_ok_inv in H as (? & s3 & _ & H).
  apply bind_ok_inv in H as (rv & s4 & _ & H). apply ret_inv in H as [-> ->].
  destruct lib_visit as [reg|]; [|discriminate].
  destruct HJ as (reg' & [= <-] & Hsub).
  eexists. split; [reflexivity|]. intros p. etransitivity; [apply Hsub|].
  unfold visited_names. destruct (decide (lib_path_abs = p)) as [->|Hp].
  - rewrite lookup_insert_eq. cbn. apply union_subseteq_l.
  - now rewrite lookup_insert_ne.
Qed.

Lemma registry_only_grows_witness :
  FilePathM.visit_from_blend (packer.pack_body "/dst") (Some (packer.temp_remap_cb "/dst"))
    5 "/src/root.blend" false true None None 0 (Some ∅) (mkPackVars [] [])
    Samples.world0 = Ok Samples6.root_walked
  /\ exists reg', Samples6.root_walked.1.1 = Some reg'
       /\ forall p, visited_names ∅ p ⊆ visited_names reg' p.
Proof.
  assert (FilePathM.visit_from_blend (packer.pack_body "/dst")
            (Some (packer.temp_remap_cb "/dst"))
            5 "/src/root.blend" false true None None 0 (Some ∅) (mkPackVars [] [])
            Samples.world0 = Ok Samples6.root_walked) as Hrun
    by (apply run_result_ok; vm_compute; reflexivity).
  split; [exact Hrun|].
  rewrite (surjective_pairing Samples6.root_walked) in Hrun.
  exact (registry_only_grows _ _ _ _ _ _ _ _ _ _ _ _ _ _ Hrun).
Defined.

(** ** What the walker yields *)

Lemma bind_ext2 {S A B} (m1 m2 : M S A) (k1 k2 : A -> M S B) (s : S) :
  m1 s = m2 s -> (forall a s', k1 a s' = k2 a s') -> bind m1 k1 s = bind m2 k2 s.
Proof.
  intros Hm Hk. unfold bind. rewrite Hm.
  destruct (m2 s) as [[a s1]| |]; [apply Hk|reflexivity|reflexivity].
Qed.

(** One visit, after its two lines of output and the look-up of the
    working directory. *)
Lemma visit_unfold {Acc} (body : FilePath * bytes -> Acc -> M World Acc)
    (temp_remap_cb : option (bytes -> Acc -> M World (bytes * Acc)))
    (fuel : nat) (filepath : bytes) (readonly recursive : bool)
    (block_codes : option (gset value)) (rootdir : option bytes) (level : nat)
    (lib_visit : option registry) (acc : Acc) (w : World) :
  FilePathM.visit_from_blend body temp_remap_cb (S fuel) filepath readonly recursive
    block_codes rootdir level lib_visit acc w
  = (tmp <- match temp_remap_cb with
            | Some cb => cb filepath acc
            | None => ret (filepath, acc)
            end ;;
     blend <- blendfile.open_blend tmp.1 readonly ;;
     scanned <- FilePathM.scan_blend body fuel blend recursive block_codes
                  (FilePathM.expand_codes_init recursive level block_codes)
                  (os_path.dirname (os_path.abspath (cwd w) filepath))
                  (default (os_path.dirname (os_path.abspath (cwd w) filepath)) rootdir)
                  tmp.2 ;;
     blendfile.close blend ;;;
     if recursive then
       foldM (FilePathM.follow_lib
                (fun lib_path_abs lib_block_codes acc =>
                   FilePathM.visit_from_blend body temp_remap_cb fuel lib_path_abs
                     readonly true lib_block_codes
                     (Some (default (os_path.dirname (os_path.abspath (cwd w) filepath))
                                    rootdir))
                     (level + 1) None acc)
                filepath (os_path.dirname (os_path.abspath (cwd w) filepath)) level)
             scanned.1 (lib_visit, scanned.2)
     else ret (lib_visit, scanned.2))%py
      (add_event (add_event w (PrintOpening level filepath))
                 (PrintBlocks level block_codes)).
Proof. reflexivity. Qed.

Section Agree.
Context {Acc : Type}.

Lemma iter_ListBase_ext (blend : BlendFile) (f g : Block -> Acc -> M World Acc) :
    (forall b acc s, f b acc s = g b acc s) ->
    forall fuel first acc s,
      bf_utils.iter_ListBase fuel blend first f acc s
      = bf_utils.iter_ListBase fuel blend first g acc s.
Proof.
    intros H. induction fuel as [|fuel IH]; intros first acc s;
      destruct first as [b|]; try reflexivity.
    cbn [bf_utils.iter_ListBase]. apply bind_ext2; [apply H|].
    intros acc' s'. apply bind_ext2; [reflexivity|]. intros nxt s''. apply IH.
Qed.

Lemma rule_ext (c : bytes) (fn : ExpandID.rule Acc)
      (f g : option Block -> Acc -> M World Acc) :
    ExpandID.expand_funcs_get c = Some fn ->
    (forall sub acc s, f sub acc s = g sub acc s) ->
    forall fuel blend b acc s, fn fuel blend b f acc s = fn fuel blend b g acc s.
Proof.
    unfold ExpandID.expand_funcs_get. intros Hfn H fuel blend b acc s.
    repeat match type of Hfn with
           | (if ?d then _ else _) = _ => destruct d
           end; try discriminate; injection Hfn as <-; try reflexivity.
    - unfold ExpandID.expand_OB. apply bind_ext2; [reflexivity|]. intros sub s'. apply H.
    - unfold ExpandID.expand_GR.
      destruct (sdna_index_from_id blend !! "GroupObject"); [|reflexivity].
      apply bind_ext2; [reflexivity|]. intros first s'. apply iter_ListBase_ext.
      intros gobj acc' s''. apply bind_ext2; [reflexivity|]. intros ob s3. apply H.
Qed.
End Agree.

Section AgreeScan.
Context {Acc : Type}.
Variable blend : BlendFile.
Variables y1 y2 : Block -> Acc -> M World Acc.
Hypothesis Hy : forall b acc s, y1 b acc s = y2 b acc s.

Lemma block_expand_ext (fuel : nat) (b : Block) (c : bytes) (st : gset value * Acc)
      (s : World) :
    FilePathM.block_expand fuel blend y1 b c st s
    = FilePathM.block_expand fuel blend y2 b c st s.
Proof.
    revert b c st s. induction fuel as [|fuel IH]; intros b c st s; [reflexivity|].
    cbn [FilePathM.block_expand]. apply bind_ext2; [reflexivity|]. intros name s1.
    destruct (decide (name ∈ st.1)).
    - apply bind_ext2; [apply Hy|]. reflexivity.
    - apply bind_ext2; [apply Hy|]. intros acc' s2.
      destruct (ExpandID.expand_funcs_get c) as [fn|] eqn:Hfn; [|reflexivity].
      apply (rule_ext c fn _ _ Hfn). intros [sb|] st' s3; [apply IH|reflexivity].
Qed.

Lemma iter_blocks_id_ext (fuel : nat) (block_codes : option (gset value)) (c : bytes)
      (st : option (gset value) * Acc) (s : World) :
    FilePathM.iter_blocks_id fuel blend block_codes c y1 st s
    = FilePathM.iter_blocks_id fuel blend block_codes c y2 st s.
Proof.
    unfold FilePathM.iter_blocks_id. destruct block_codes as [codes|];
      apply foldM_ext; intros b st' s' _.
    - apply bind_ext2; [reflexivity|]. intros name s1.
      destruct (decide (name ∈ codes)); [|reflexivity].
      unfold FilePathM.block_expand_sel. destruct st'.1.
      + apply bind_ext2; [apply block_expand_ext|]. reflexivity.
      + apply bind_ext2; [apply Hy|]. reflexivity.
    - apply bind_ext2; [apply Hy|]. reflexivity.
Qed.
End AgreeScan.

Section AgreeWalk.
Context {Acc : Type}.
Variables body1 body2 : FilePath * bytes -> Acc -> M World Acc.
Variable temp_remap_cb : option (bytes -> Acc -> M World (bytes * Acc)).
Variable r : bytes.
  (** The two loop bodies agree on every reference to the field [name] of
      an image or library record that carries the root directory [r]. *)
Hypothesis agree : forall blend b basedir acc s,
    code b = "IM" \/ code b = "LI" ->
    body1 (mkFilePath blend b "name" basedir, r) acc s
    = body2 (mkFilePath blend b "name" basedir, r) acc s.

Lemma emit_agree (blend : BlendFile) (basedir : bytes) (b : Block) (acc : Acc)
      (s : World) :
    FilePathM.emit body1 blend basedir r b acc s
    = FilePathM.emit body2 blend basedir r b acc s.
Proof.
    unfold FilePathM.emit. rewrite !from_block_cases.
    destruct (decide (code b = "IM" \/ code b = "LI")); [now apply agree|reflexivity].
Qed.

Lemma scan_blend_agree (fuel : nat) (blend : BlendFile) (recursive : bool)
      (block_codes expand_codes : option (gset value)) (basedir : bytes) (acc : Acc)
      (s : World) :
    FilePathM.scan_blend body1 fuel blend recursive block_codes expand_codes basedir r acc s
    = FilePathM.scan_blend body2 fuel blend recursive block_codes expand_codes basedir r
        acc s.
Proof.
    unfold FilePathM.scan_blend. apply bind_ext2.
    - unfold FilePathM.scan_codes. apply foldM_ext. intros c st s' _.
      destruct (FilePathM.skipped_code c); [reflexivity|].
      apply bind_ext2; [reflexivity|]. intros _ s1.
      apply iter_blocks_id_ext. apply emit_agree.
    - intros st s1. apply bind_ext2; [reflexivity|]. intros lib_all s2.
      apply bind_ext2; [|reflexivity].
      unfold FilePathM.scan_libs. apply iter_blocks_id_ext. apply emit_agree.
Qed.

Lemma visit_agree (fuel : nat) (filepath : bytes) (readonly recursive : bool)
      (block_codes : option (gset value)) (rootdir : option bytes) (level : nat)
      (lib_visit : option registry) (acc : Acc) (w : World) :
    default (os_path.dirname (os_path.abspath (cwd w) filepath)) rootdir = r ->
    FilePathM.visit_from_blend body1 temp_remap_cb fuel filepath readonly recursive
      block_codes rootdir level lib_visit acc w
    = FilePathM.visit_from_blend body2 temp_remap_cb fuel filepath readonly recursive
        block_codes rootdir level lib_visit acc w.
Proof.
    revert filepath recursive block_codes rootdir level lib_visit acc w.
    induction fuel as [|fuel IH];
      intros filepath recursive block_codes rootdir level lib_visit acc w Hr;
      [reflexivity|].
    rewrite !visit_unfold, Hr.
    apply bind_ext2; [reflexivity|]. intros tmp s1.
    apply bind_ext2; [reflexivity|]. intros blend s2.
    apply bind_ext2; [apply scan_blend_agree|]. intros scanned s3.
    apply bind_ext2; [reflexivity|]. intros _ s4.
    destruct recursive; [|reflexivity].
    apply foldM_ext. intros lib st s5 _. unfold FilePathM.follow_lib.
    apply bind_ext2; [reflexivity|]. intros lib_path_abs s6.
    destruct st.1; [|reflexivity].
    apply bind_ext2; [reflexivity|]. intros _ s7.
    apply bind_ext2; [reflexivity|]. intros _ s8.
    apply bind_ext2; [|reflexivity]. apply IH. reflexivity.
Qed.
End AgreeWalk.

(** X14.  Every item that the walker yields refers to the field [name] of
    an image or library record and carries one root directory: the one the
    visit was given or, if it was given none, the directory of the file it
    started from.  A loop body that asserts this of every item it is given
    behaves as the loop body without the assertion, in every run; and the
    items of a completed walk, collected in a list, all have the property. *)
Theorem walker_yields_name_references {Acc}
    (body : FilePath * bytes -> Acc -> M World Acc)
    (temp_remap_cb : option (bytes -> Acc -> M World (bytes * Acc)))
    (fuel : nat) (filepath : bytes) (readonly recursive : bool)
    (block_codes : option (gset value)) (rootdir : option bytes) (level : nat)
    (lib_visit : option registry) (acc : Acc) (w : World) :
  let r := default (os_path.dirname (os_path.abspath (cwd w) filepath)) rootdir in
  FilePathM.visit_from_blend (checked (name_reference r) body) temp_remap_cb fuel
    filepath readonly recursive block_codes rootdir level lib_visit acc w
  = FilePathM.visit_from_blend body temp_remap_cb fuel filepath readonly recursive
      block_codes rootdir level lib_visit acc w
  /\ forall (items items' : list (FilePath * bytes)) lv' w',
       Forall (fun x => name_reference r x = true) items ->
       FilePathM.visit_from_blend collect None fuel filepath readonly recursive
         block_codes rootdir level lib_visit items w = Ok ((lv', items'), w') ->
       Forall (fun x => name_reference r x = true) items'.
Proof.
  intros r.
  assert (forall A (bd : FilePath * bytes -> A -> M World A) blend b basedir a s,
            code b = "IM" \/ code b = "LI" ->
            checked (name_reference r) bd (mkFilePath blend b "name" basedir, r) a s
            = bd (mkFilePath blend b "name" basedir, r) a s) as Hagree.
  { intros A bd blend b basedir a s Hb. unfold checked, name_reference.
    now rewrite bool_decide_eq_true_2 by (cbn; auto). }
  split.
  - apply (visit_agree _ _ _ r); [apply Hagree|reflexivity].
  - intros items items' lv' w' Hitems H.
    rewrite <- (visit_agree (checked (name_reference r) collect) collect None r
                  (Hagree _ collect)) in H by reflexivity.
    change items' with (lv', items').2. revert H.
    apply (visit_J (checked (name_reference r) collect) None readonly
             (fun (l : list (FilePath * bytes)) (_ : World) =>
                Forall (fun x => name_reference r x = true) l)
             (fun _ => True)); [| | | |exact Hitems].
    + intros l s e _ Hl. exact Hl.
    + intros l s p _ Hl. exact Hl.
    + intros fp rd l s l' s' _ Hl Hb. unfold checked in Hb.
      destruct (name_reference r (fp, rd)) eqn:Hok; [|discriminate].
      unfold collect in Hb. apply ret_inv in Hb as [-> ->].
      apply Forall_app. split; [exact Hl|]. repeat constructor. exact Hok.
    + intros p. exact I.
Qed.

Lemma walker_yields_name_references_witness :
  FilePathM.visit_from_blend collect None 1 "/src/root.blend" true false None None 0 None
    [] Samples.world0 = Ok Samples6.root_listed
  /\ length Samples6.root_listed.1.2 = 2%nat
  /\ Forall (fun x => name_reference "/src" x = true) Samples6.root_listed.1.2.
Proof.
  assert (FilePathM.visit_from_blend collect None 1 "/src/root.blend" true false None
            None 0 None [] Samples.world0 = Ok Samples6.root_listed) as Hrun
    by (apply run_result_ok; vm_compute; reflexivity).
  split; [exact Hrun|]. split; [vm_compute; reflexivity|].
  rewrite (surjective_pairing Samples6.root_listed),
    (surjective_pairing Samples6.root_listed.1) in Hrun.
  exact (proj2 (walker_yields_name_references collect None 1 "/src/root.blend" true false
                  None None 0 None [] Samples.world0)
           [] _ _ _ (Forall_nil_2 _) Hrun).
Defined.

(** ** The plain visit: no filter, no recursion *)

Lemma set_add_NoDup {A} `{EqDecision A} (x : A) (l : list A) :
  NoDup l -> NoDup (set_add x l).
Proof.
  intros H. unfold set_add. destruct (decide (x ∈ l)); [exact H|].
  apply NoDup_app. split; [exact H|]. split; [|apply NoDup_singleton].
  intros y Hy Hy'. apply list_elem_of_singleton in Hy' as ->. contradiction.
Qed.

Lemma set_add_elem {A} `{EqDecision A} (x y : A) (l : list A) :
  y ∈ set_add x l <-> y = x \/ y ∈ l.
Proof.
  unfold set_add. destruct (decide (x ∈ l)).
  - split; [auto|]. intros [->|H]; assumption.
  - rewrite elem_of_app, list_elem_of_singleton. tauto.
Qed.

Lemma keys_fold (l : list Block) (acc : list bytes) :
  NoDup acc ->
  NoDup (fold_left (fun acc b => set_add (code b) acc) l acc)
  /\ forall c, c ∈ fold_left (fun acc b => set_add (code b) acc) l acc
               <-> c ∈ acc \/ exists b, b ∈ l /\ code b = c.
Proof.
  revert acc. induction l as [|b l IH]; intros acc Hnd; cbn [fold_left].
  - split; [exact Hnd|]. intros c. split; [auto|].
    intros [H|(b & Hb & _)]; [exact H|]. now apply elem_of_nil in Hb.
  - destruct (IH _ (set_add_NoDup (code b) acc Hnd)) as [Hnd' Hspec].
    split; [exact Hnd'|]. intros c. rewrite Hspec, set_add_elem. split.
    + intros [[->|H]|(b' & Hb' & Hc)]; [right; exists b|auto|right; exists b'].
      * split; [apply list_elem_of_here|reflexivity].
      * split; [now apply list_elem_of_further|exact Hc].
    + intros [H|(b' & Hb' & Hc)]; [auto|].
      apply elem_of_cons in Hb' as [->|Hb']; [auto|]. right. eauto.
Qed.

Lemma code_index_keys_NoDup (blend : BlendFile) : NoDup (blendfile.code_index_keys blend).
Proof. apply keys_fold. constructor. Qed.

Lemma code_index_keys_elem (blend : BlendFile) (c : bytes) :
  c ∈ blendfile.code_index_keys blend <-> exists b, b ∈ bf_blocks blend /\ code b = c.
Proof.
  unfold blendfile.code_index_keys.
  destruct (keys_fold (bf_blocks blend) [] (NoDup_nil_2)) as [_ H]. rewrite H.
  split; [|auto]. intros [Hc|Hc]; [now apply elem_of_nil in Hc|exact Hc].
Qed.

Lemma flat_map_single {A B} `{EqDecision A} (k : A) (X : list B) (l : list A) :
  NoDup l ->
  flat_map (fun c => if decide (c = k) then X else []) l
  = if decide (k ∈ l) then X else [].
Proof.
  induction l as [|c l IH]; intros Hnd; cbn [flat_map].
  - rewrite decide_False by apply not_elem_of_nil. reflexivity.
  - apply NoDup_cons in Hnd as [Hc Hnd]. rewrite (IH Hnd).
    destruct (decide (c = k)) as [->|Hne].
    + rewrite (decide_False (P := k ∈ l)) by exact Hc.
      rewrite decide_True by apply list_elem_of_here. apply app_nil_r.
    + destruct (decide (k ∈ l)) as [Hin|Hin].
      * rewrite decide_True by now apply list_elem_of_further. reflexivity.
      * rewrite decide_False; [reflexivity|].
        intros [E|E]%elem_of_cons; [congruence|contradiction].
Qed.

Lemma skipped_not_DATA (c : bytes) : FilePathM.skipped_code c = false -> c <> "DATA".
Proof. intros H ->. discriminate H. Qed.

Section Plain.
Variable blend : BlendFile.
Variables basedir rootdir : bytes.

Lemma emit_collect (b : Block) (acc : list (FilePath * bytes)) (w : World) :
    code b <> "DATA" ->
    FilePathM.emit collect blend basedir rootdir b acc w
    = Ok ((acc ++ if decide (code b = "IM" \/ code b = "LI")
                  then [name_item blend basedir rootdir b]
                  else [])%list,
          w).
Proof.
    intros Hd. unfold FilePathM.emit. rewrite from_block_cases.
    destruct (decide (code b = "IM" \/ code b = "LI")); [reflexivity|].
    rewrite decide_False by exact Hd. now rewrite app_nil_r.
Qed.

Lemma iter_plain (fuel : nat) (c : bytes) (ec : option (gset value))
      (acc : list (FilePath * bytes)) (w : World) :
    c <> "DATA" ->
    FilePathM.iter_blocks_id fuel blend None c
      (FilePathM.emit collect blend basedir rootdir) (ec, acc) w
    = Ok ((ec, (acc ++ if decide (c = "IM" \/ c = "LI")
                       then map (name_item blend basedir rootdir)
                                (blendfile.find_blocks_from_code blend c)
                       else [])%list), w).
Proof.
    intros Hd. unfold FilePathM.iter_blocks_id.
    assert (Forall (fun b => code b = c) (blendfile.find_blocks_from_code blend c)) as Hall.
    { apply Forall_forall. intros b Hb. apply list_elem_of_In in Hb.
      now apply find_blocks_from_code_code in Hb. }
    revert acc. induction Hall as [|b l Hb Hall IH]; intros acc; cbn [foldM map].
    - unfold ret. destruct (decide (c = "IM" \/ c = "LI")); now rewrite app_nil_r.
    - cbn [snd fst].
      rewrite (bind_ok _ _ _ _ _ (bind_ok _ _ _ _ _
                 (emit_collect b acc w ltac:(now rewrite Hb)))).
      unfold ret at 1. rewrite IH, Hb.
      destruct (decide (c = "IM" \/ c = "LI")).
      + now rewrite <- app_assoc.
      + now rewrite !app_nil_r.
Qed.

Lemma scan_codes_plain (fuel : nat) (ec : option (gset value)) (l : list bytes)
      (acc : list (FilePath * bytes)) (w : World) :
    foldM (fun c st =>
             if FilePathM.skipped_code c then ret st
             else
               (print (PrintScanning c) ;;;
                FilePathM.iter_blocks_id fuel blend None c
                  (FilePathM.emit collect blend basedir rootdir) st)%py)
          l (ec, acc) w
    = Ok ((ec, (acc ++ flat_map (fun c => if decide (c = "IM")
                                          then map (name_item blend basedir rootdir)
                                                   (blendfile.find_blocks_from_code
                                                      blend "IM")
                                          else []) l)%list),
          add_events w (map PrintScanning
                          (filter (fun c => FilePathM.skipped_code c = false) l))).
Proof.
    revert acc w. induction l as [|c l IH]; intros acc w; cbn [foldM flat_map].
    - unfold ret, add_events. cbn. rewrite !app_nil_r. now destruct w.
    - destruct (FilePathM.skipped_code c) eqn:Hs.
      + unfold bind, ret. rewrite IH.
        rewrite decide_False by (intros ->; discriminate Hs).
        rewrite filter_cons_False by (rewrite Hs; discriminate). reflexivity.
      + unfold bind at 1 2. cbn [print modify].
        rewrite (iter_plain fuel c ec acc _ (skipped_not_DATA c Hs)).
        rewrite IH. rewrite filter_cons_True by exact Hs.
        f_equal. f_equal.
        * f_equal. rewrite <- app_assoc. f_equal. f_equal.
          destruct (decide (c = "IM")) as [->|Hne].
          -- now rewrite decide_True by auto.
          -- rewrite decide_False; [reflexivity|].
             intros [E|E]; [congruence|]. now apply (skipped_LI c Hs).
        * unfold add_events. cbn. now rewrite <- app_assoc.
Qed.

Lemma scan_blend_plain (fuel : nat) (acc : list (FilePath * bytes)) (w : World) :
    FilePathM.scan_blend collect fuel blend false None None basedir rootdir acc w
    = Ok (([], (acc ++ map (name_item blend basedir rootdir)
                           (blendfile.find_blocks_from_code blend "IM")
                    ++ map (name_item blend basedir rootdir)
                           (blendfile.find_blocks_from_code blend "LI"))%list),
          add_events w (scanning_lines blend)).
Proof.
    unfold FilePathM.scan_blend, FilePathM.scan_codes, FilePathM.scan_libs.
    rewrite (bind_ok _ _ _ _ _ (scan_codes_plain fuel None _ acc w)).
    unfold bind at 1, ret at 1.
    rewrite (bind_ok _ _ _ _ _ (iter_plain fuel "LI" None _ _ ltac:(discriminate))).
    unfold ret. cbn [snd]. rewrite decide_True by auto.
    rewrite (flat_map_single "IM" _ _ (code_index_keys_NoDup blend)).
    f_equal. f_equal. f_equal. rewrite <- app_assoc. f_equal. f_equal.
    destruct (decide ("IM" ∈ blendfile.code_index_keys blend)) as [Hin|Hin]; [reflexivity|].
    destruct (blendfile.find_blocks_from_code blend "IM") as [|b l] eqn:E; [reflexivity|].
    exfalso. apply Hin. apply code_index_keys_elem. exists b.
    assert (b ∈ blendfile.find_blocks_from_code blend "IM") as Hb
      by (rewrite E; apply list_elem_of_here).
    unfold blendfile.find_blocks_from_code in Hb.
    apply list_elem_of_filter in Hb as [Hc Hb]. auto.
Qed.
End Plain.

(** X15.  The call with the default options (no filter, no recursion, no
    remap hook) on a scene file yields one item per image record, in file
    order, followed by one item per library record, in file order, and
    nothing else.  Every item refers to the field [name] of its record,
    relative to the directory of the file.  The visit opens the file once,
    closes it, writes nothing, hands back the registry it was given, and
    completes whatever the records hold. *)
Theorem plain_visit_lists_references (fuel : nat) (filepath : bytes) (readonly : bool)
    (rootdir : option bytes) (level : nat) (lib_visit : option registry)
    (acc : list (FilePath * bytes)) (w : World) (d : BlendData) :
  fs w !! filepath = Some (BlendContent d) ->
  let blend := handle_of filepath readonly d in
  let basedir := os_path.dirname (os_path.abspath (cwd w) filepath) in
  let item := name_item blend basedir (default basedir rootdir) in
  exists w',
    FilePathM.visit_from_blend collect None (S fuel) filepath readonly false None rootdir
      level lib_visit acc w
    = Ok ((lib_visit,
           (acc ++ map item (blendfile.find_blocks_from_code blend "IM")
                ++ map item (blendfile.find_blocks_from_code blend "LI"))%list), w')
    /\ fs w' = fs w
    /\ cwd w' = cwd w
    /\ trace w' = (trace w
                   ++ [PrintOpening level filepath; PrintBlocks level None;
                       IoOpen filepath readonly]
                   ++ scanning_lines blend ++ [IoClose filepath])%list.
Proof.
  intros Hd blend basedir item. rewrite visit_unfold.
  unfold bind at 1, ret at 1. cbn [fst snd].
  assert (blendfile.open_blend filepath readonly
            (add_event (add_event w (PrintOpening level filepath)) (PrintBlocks level None))
          = Ok (blend, add_event (add_event (add_event w (PrintOpening level filepath))
                                            (PrintBlocks level None))
                                 (IoOpen filepath readonly))) as Hopen.
  { unfold blendfile.open_blend. cbn [add_event fs]. rewrite Hd. reflexivity. }
  rewrite (bind_ok _ _ _ _ _ Hopen).
  change (FilePathM.expand_codes_init false level None) with (@None (gset value)).
  rewrite (bind_ok _ _ _ _ _ (scan_blend_plain blend basedir (default basedir rootdir)
                                fuel acc _)).
  unfold bind, blendfile.close, print, modify, ret. cbn [fst snd].
  eexists. split; [reflexivity|]. cbn [fs cwd trace add_events add_event].
  split; [reflexivity|]. split; [reflexivity|].
  rewrite <- !app_assoc. reflexivity.
Qed.

Lemma plain_visit_lists_references_witness :
  fs Samples.world0 !! "/src/root.blend" = Some (BlendContent Samples.root_blend)
  /\ exists w',
       FilePathM.visit_from_blend collect None 1 "/src/root.blend" true false None None 0
         None [] Samples.world0
       = Ok ((None,
              [(mkFilePath (handle_of "/src/root.blend" true Samples.root_blend)
                  (mkBlock 0 "IM" 100 0) "name" "/src", "/src");
               (mkFilePath (handle_of "/src/root.blend" true Samples.root_blend)
                  (mkBlock 1 "LI" 200 0) "name" "/src", "/src")]),
             w')
       /\ fs w' = fs Samples.world0.
Proof.
  assert (fs Samples.world0 !! "/src/root.blend" = Some (BlendContent Samples.root_blend))
    as H by (vm_compute; reflexivity).
  split; [exact H|].
  destruct (plain_visit_lists_references 0 "/src/root.blend" true None 0 None []
              Samples.world0 Samples.root_blend H) as (w' & Hrun & Hfs & _).
  exists w'. split; [|exact Hfs]. rewrite Hrun. reflexivity.
Defined.

(** ** The library records of a filtered visit *)

Lemma bind_bind {S A B C} (m : M S A) (k0 : A -> M S B) (k : B -> M S C) (s : S) :
  bind (bind m k0) k s = bind m (fun a => bind (k0 a) k) s.
Proof. unfold bind. destruct (m s) as [[a s1]| |]; reflexivity. Qed.

Lemma get_of_field(blend : BlendFile) (b : Block) (f : bytes) (w : World) (v : value) :
  field_of blend b f w = Some v -> blendfile.get blend b f w = Ok (v, w).
Proof.
  unfold field_of, blendfile.get. destruct (blendfile.stored blend b w); [|discriminate].
  now intros ->.
Qed.

(** X16.  In a visit that is restricted to a set of names, the library
    records that are yielded are exactly those whose own [id.name] is in
    the set, in file order, each once; expanding records or not makes no
    difference to them, since a library record has no expansion rule.  The
    loop changes nothing in the world. *)
Theorem filtered_scan_yields_named_libraries (fuel : nat) (blend : BlendFile)
    (codes : gset value) (ec : option (gset value)) (basedir rootdir : bytes)
    (acc : list (FilePath * bytes)) (w : World) :
  (forall b, b ∈ blendfile.find_blocks_from_code blend "LI" ->
             is_Some (field_of blend b "id.name" w)) ->
  (is_Some ec -> (1 <= fuel)%nat) ->
  exists ec',
    FilePathM.scan_libs collect fuel blend (Some codes) basedir rootdir (ec, acc) w
    = Ok ((ec',
           (acc ++ map (name_item blend basedir rootdir)
                       (filter (fun b => named_in blend w codes b = true)
                               (blendfile.find_blocks_from_code blend "LI")))%list), w)
    /\ (ec = None -> ec' = None).
Proof.
  intros Hnames Hfuel. unfold FilePathM.scan_libs, FilePathM.iter_blocks_id.
  assert (Forall (fun b => code b = "LI" /\ is_Some (field_of blend b "id.name" w))
                 (blendfile.find_blocks_from_code blend "LI")) as Hall.
  { apply Forall_forall. intros b Hb. split; [|now apply Hnames].
    apply list_elem_of_In in Hb. now apply find_blocks_from_code_code in Hb. }
  clear Hnames. revert ec acc Hfuel.
  induction Hall as [|b l [Hb [n Hn]] Hall IH]; intros ec acc Hfuel.
  - exists ec. split; [|auto]. cbn. unfold ret. now rewrite app_nil_r.
  - cbn [foldM]. pose proof (get_of_field _ _ _ _ _ Hn) as Hget.
    rewrite bind_bind, (bind_ok _ _ _ _ _ Hget).
    assert (named_in blend w codes b = bool_decide (n ∈ codes)) as Hnamed
      by (unfold named_in; now rewrite Hn).
    destruct (decide (n ∈ codes)) as [Hin|Hin].
    + rewrite filter_cons_True by (rewrite Hnamed; now apply bool_decide_eq_true_2).
      assert (exists ec1,
                 FilePathM.block_expand_sel fuel blend
                   (FilePathM.emit collect blend basedir rootdir) b "LI" (ec, acc) w
                 = Ok ((ec1, (acc ++ [name_item blend basedir rootdir b])%list), w)
                 /\ (is_Some ec1 -> is_Some ec) /\ (ec = None -> ec1 = None))
        as (ec1 & Hsel & Hsome & Hnone).
      { assert (FilePathM.emit collect blend basedir rootdir b acc w
                = Ok ((acc ++ [name_item blend basedir rootdir b])%list, w)) as Hemit.
        { rewrite emit_collect by (rewrite Hb; discriminate).
          now rewrite decide_True by auto. }
        unfold FilePathM.block_expand_sel. cbn [fst snd]. destruct ec as [e|].
        - destruct fuel as [|fuel]; [specialize (Hfuel ltac:(eauto)); lia|].
          cbn [FilePathM.block_expand]. rewrite bind_bind, (bind_ok _ _ _ _ _ Hget).
          cbn [fst snd]. destruct (decide (n ∈ e)).
          + rewrite bind_bind, (bind_ok _ _ _ _ _ Hemit). eexists.
            split; [reflexivity|]. split; [eauto|discriminate].
          + rewrite bind_bind, (bind_ok _ _ _ _ _ Hemit). eexists.
            split; [reflexivity|]. split; [eauto|discriminate].
        - rewrite (bind_ok _ _ _ _ _ Hemit). exists None. split; [reflexivity|].
          split; [intros [x Hx]; discriminate|reflexivity]. }
      rewrite (bind_ok _ _ _ _ _ Hsel).
      destruct (IH ec1 (acc ++ [name_item blend basedir rootdir b])%list
                  (fun H => Hfuel (Hsome H))) as (ec' & Hrun & Hnone').
      exists ec'. split; [|auto]. rewrite Hrun. cbn [map]. now rewrite <- app_assoc.
    + rewrite filter_cons_False
        by (rewrite Hnamed; rewrite bool_decide_eq_false_2 by exact Hin; discriminate).
      unfold ret at 1. apply IH, Hfuel.
Qed.

Lemma filtered_scan_yields_named_libraries_witness :
  (forall b, b ∈ blendfile.find_blocks_from_code Samples5.objs_handle "LI" ->
             is_Some (field_of Samples5.objs_handle b "id.name" Samples5.objs_world))
  /\ exists ec',
       FilePathM.scan_libs collect 1 Samples5.objs_handle
         (Some {[VBytes "MEcube"]}) "/src" "/src" (Some ∅, []) Samples5.objs_world
       = Ok ((ec', []), Samples5.objs_world).
Proof.
  assert (forall b, b ∈ blendfile.find_blocks_from_code Samples5.objs_handle "LI" ->
                    is_Some (field_of Samples5.objs_handle b "id.name" Samples5.objs_world))
    as H.
  { intros b Hb. apply list_elem_of_In in Hb. cbn in Hb. destruct Hb as [<-|[]].
    exists (VBytes "LIother.blend"). vm_compute. reflexivity. }
  split; [exact H|].
  destruct (filtered_scan_yields_named_libraries 1 Samples5.objs_handle
              {[VBytes "MEcube"]} (Some ∅) "/src" "/src" [] Samples5.objs_world H
              (fun _ => le_n 1)) as (ec' & Hrun & _).
  exists ec'. rewrite Hrun. reflexivity.
Defined.

(** ** The walk of [pack] over a file that uses no library *)

(** *** The handles of an open file *)

Lemma handle_blocks (p : bytes) (ro : bool) (d : BlendData) (b : Block) :
  b ∈ bf_blocks (handle_of p ro d) <->
  exists sb, bd_blocks d !! index b = Some sb
    /\ b = mkBlock (index b) (sb_code sb) (sb_addr_old sb) (sb_file_offset sb).
Proof.
  unfold handle_of. cbn [bf_blocks]. rewrite elem_of_lookup_imap. split.
  - intros (i & sb & -> & Hsb). exists sb. cbn. auto.
  - intros (sb & Hsb & Hb). exists (index b), sb. auto.
Qed.

Lemma handle_index (p : bytes) (ro : bool) (d : BlendData) :
  index <$> bf_blocks (handle_of p ro d) = seq 0 (length (bd_blocks d)).
Proof.
  unfold handle_of. cbn [bf_blocks]. rewrite fmap_imap.
  rewrite (imap_ext _ (fun j _ => j)) by reflexivity.
  rewrite imap_seq_0. apply list_fmap_id.
Qed.

Lemma fmap_inj_on {A B} (f : A -> B) (l : list A) (a b : A) :
  NoDup (f <$> l) -> a ∈ l -> b ∈ l -> f a = f b -> a = b.
Proof.
  induction l as [|x l IH]; intros Hnd Ha Hb E; [now apply elem_of_nil in Ha|].
  cbn in Hnd. apply NoDup_cons in Hnd as [Hx Hnd].
  apply elem_of_cons in Ha as [->|Ha]; apply elem_of_cons in Hb as [->|Hb].
  - reflexivity.
  - destruct Hx. rewrite E. now apply list_elem_of_fmap_2.
  - destruct Hx. rewrite <- E. now apply list_elem_of_fmap_2.
  - now apply IH.
Qed.

Lemma NoDup_fmap_filter {A B} (f : A -> B) (P : A -> Prop) `{forall x, Decision (P x)}
    (l : list A) :
  NoDup (f <$> l) -> NoDup (f <$> filter P l).
Proof.
  induction l as [|x l IH]; intros Hnd; [constructor|].
  cbn in Hnd. apply NoDup_cons in Hnd as [Hx Hnd].
  destruct (decide (P x)).
  - rewrite filter_cons_True by assumption. cbn. apply NoDup_cons. split; [|auto].
    intros Hin. apply Hx. apply list_elem_of_fmap in Hin as (y & -> & Hy).
    apply list_elem_of_filter in Hy as [_ Hy]. now apply list_elem_of_fmap_2.
  - rewrite filter_cons_False by assumption. auto.
Qed.

Lemma NoDup_fmap_filters {A B} (f : A -> B) (P Q : A -> Prop)
    `{forall x, Decision (P x)} `{forall x, Decision (Q x)} (l : list A) :
  NoDup (f <$> l) -> (forall x, P x -> Q x -> False) ->
  NoDup ((f <$> filter P l) ++ (f <$> filter Q l)).
Proof.
  intros Hnd Hdis. apply NoDup_app. split; [now apply NoDup_fmap_filter|].
  split; [|now apply NoDup_fmap_filter].
  intros y Hp Hq.
  apply list_elem_of_fmap in Hp as (a & -> & Ha). apply list_elem_of_filter in Ha as [HPa Ha].
  apply list_elem_of_fmap in Hq as (b & E & Hb). apply list_elem_of_filter in Hb as [HQb Hb].
  assert (a = b) as -> by exact (fmap_inj_on f l a b Hnd Ha Hb E).
  exact (Hdis b HPa HQb).
Qed.

(** *** Stores with some paths flattened *)

Lemma partial_flat_nil (d : BlendData) : partial_flat [] d = d.
Proof.
  unfold partial_flat. destruct d as [ps blocks words sdna]. cbn. f_equal.
  rewrite (imap_ext _ (fun _ sb => sb)).
  - clear. induction blocks as [|sb l IH]; [reflexivity|]. cbn. f_equal.
    change (imap ((fun _ sb0 => sb0) ∘ S) l)
      with (imap (fun (_ : nat) (sb0 : StoredBlock) => sb0) l).
    exact IH.
  - intros i sb _. rewrite bool_decide_eq_false_2 by apply not_elem_of_nil. reflexivity.
Qed.

Lemma partial_flat_step (ds : list nat) (d : BlendData) (i : nat) (sb : StoredBlock) :
  bd_blocks d !! i = Some sb ->
  <[i := flat_name sb]> (bd_blocks (partial_flat ds d))
  = bd_blocks (partial_flat (ds ++ [i]) d).
Proof.
  intros Hsb. unfold partial_flat. cbn [bd_blocks]. apply list_eq. intros j.
  destruct (decide (i = j)) as [<-|Hne].
  - rewrite list_lookup_insert_eq
      by (rewrite length_imap; eapply lookup_lt_Some; exact Hsb).
    rewrite list_lookup_imap, Hsb. cbn.
    rewrite bool_decide_eq_true_2; [reflexivity|].
    apply elem_of_app. right. apply list_elem_of_here.
  - rewrite list_lookup_insert_ne by exact Hne. rewrite !list_lookup_imap.
    destruct (bd_blocks d !! j) as [sbj|]; [|reflexivity]. cbn. f_equal.
    rewrite (bool_decide_ext (j ∈ (ds ++ [i])%list) (j ∈ ds)); [reflexivity|].
    rewrite elem_of_app, list_elem_of_singleton. split; [|auto].
    intros [H|H]; [exact H|congruence].
Qed.

Lemma partial_flat_all (ds : list nat) (d : BlendData) :
  (forall i sb, bd_blocks d !! i = Some sb -> i ∈ ds <-> holds_path sb = true) ->
  partial_flat ds d = flat_store d.
Proof.
  intros H. unfold partial_flat, flat_store. f_equal. apply list_eq. intros i.
  rewrite list_lookup_imap, list_lookup_fmap.
  destruct (bd_blocks d !! i) as [sb|] eqn:Hsb; [|reflexivity]. cbn. f_equal.
  destruct (holds_path sb) eqn:Hh.
  - rewrite bool_decide_eq_true_2 by (apply (H i sb Hsb); exact Hh). reflexivity.
  - rewrite bool_decide_eq_false_2; [reflexivity|].
    intros Hin. apply (H i sb Hsb) in Hin. congruence.
Qed.

(** *** The loop body of [pack] on a staged file *)

Lemma set_add_fold {A B} `{EqDecision B} (g : A -> B) (l : list A) (acc : list B) :
  NoDup acc ->
  NoDup (fold_left (fun acc x => set_add (g x) acc) l acc)
  /\ forall e, e ∈ fold_left (fun acc x => set_add (g x) acc) l acc
               <-> e ∈ acc \/ exists x, x ∈ l /\ e = g x.
Proof.
  revert acc. induction l as [|x l IH]; intros acc Hnd; cbn [fold_left].
  - split; [exact Hnd|]. intros e. split; [auto|].
    intros [H|(x & Hx & _)]; [exact H|]. now apply elem_of_nil in Hx.
  - destruct (IH _ (set_add_NoDup (g x) acc Hnd)) as [Hnd' Hspec].
    split; [exact Hnd'|]. intros e. rewrite Hspec, set_add_elem. split.
    + intros [[->|H]|(y & Hy & He)]; [right; exists x|auto|right; exists y].
      * split; [apply list_elem_of_here|reflexivity].
      * split; [now apply list_elem_of_further|exact He].
    + intros [H|(y & Hy & He)]; [auto|].
      apply elem_of_cons in Hy as [->|Hy]; [auto|]. right. eauto.
Qed.

Ltac reference_fields := cbn [fp_file block path basedir].

Section Staged.
Variables base_dir_dst basedir rootdir filepath_tmp : bytes.
Variable d : BlendData.
Variable w0 : World.

  (** The handle of the staged file, open for writing. *)
#[local] Abbreviation blend := (handle_of filepath_tmp false d).

Lemma print_staged (e : Event) (dcur : BlendData) (t : list Event) :
    print e (staged w0 filepath_tmp dcur t)
    = Ok (tt, staged w0 filepath_tmp dcur (t ++ [e])).
Proof. reflexivity. Qed.

Lemma pack_body_staged (b : Block) (sb : StoredBlock) (p : bytes) (ds : list nat)
      (v : PackVars) (t : list Event) :
    bd_blocks d !! index b = Some sb ->
    stored_path sb = Some p ->
    index b ∉ ds ->
    packer.pack_body base_dir_dst (mkFilePath blend b "name" basedir, rootdir) v
      (staged w0 filepath_tmp (partial_flat ds d) t)
    = Ok (mkPackVars (path_temp_files v)
            (set_add (planned_copy base_dir_dst basedir p) (path_copy_files v)),
          staged w0 filepath_tmp (partial_flat (ds ++ [index b]) d) t).
Proof.
    intros Hsb Hp Hds.
    assert (sb_fields sb !! "name" = Some (VBytes p)) as Hname.
    { unfold stored_path in Hp. destruct (sb_fields sb !! "name") as [[q|]|]; congruence. }
    assert (bd_blocks (partial_flat ds d) !! index b = Some sb) as Hcur.
    { unfold partial_flat. cbn [bd_blocks]. rewrite list_lookup_imap, Hsb. cbn.
      now rewrite bool_decide_eq_false_2. }
    assert (blendfile.get blend b "name" (staged w0 filepath_tmp (partial_flat ds d) t)
            = Ok (VBytes p, staged w0 filepath_tmp (partial_flat ds d) t)) as Hget.
    { unfold blendfile.get, blendfile.stored, staged. cbn [fs bf_path handle_of].
      rewrite lookup_insert_eq, Hcur, Hname. reflexivity. }
    unfold packer.pack_body. cbn [fst]. unfold FilePathM.filepath.
    reference_fields. rewrite (bind_ok _ _ _ _ _ Hget).
    unfold FilePathM.set_filepath. cbn [fp_file block path].
    unfold bind, blendfile.set. cbn [bf_readonly bf_path handle_of].
    unfold staged at 1. cbn [fs]. rewrite lookup_insert_eq, Hcur, Hname.
    unfold ret, planned_copy. f_equal. f_equal.
    unfold with_fs, staged. cbn [fs cwd trace]. rewrite insert_insert_eq.
    assert (mkStoredBlock (sb_code sb) (sb_addr_old sb) (sb_file_offset sb)
              (<["name" := VBytes ("//" ++ packer.path_base_of p)]> (sb_fields sb))
            = flat_name sb) as -> by (unfold flat_name; now rewrite Hp).
    rewrite (partial_flat_step ds d (index b) sb Hsb). reflexivity.
Qed.

  (** The loop over records that hold a path. *)
Lemma pack_loop (l : list Block) (ds : list nat) (ec : option (gset value))
      (v : PackVars) (t : list Event) :
    Forall (fun b => (code b = "IM" \/ code b = "LI")
                     /\ exists sb, bd_blocks d !! index b = Some sb
                                   /\ is_Some (stored_path sb)) l ->
    NoDup (ds ++ (index <$> l)) ->
    foldM (fun b (st : option (gset value) * PackVars) =>
             (acc' <- FilePathM.emit (packer.pack_body base_dir_dst) blend basedir rootdir
                        b st.2 ;;
              ret (st.1, acc'))%py)
          l (ec, v) (staged w0 filepath_tmp (partial_flat ds d) t)
    = Ok ((ec, mkPackVars (path_temp_files v)
                 (fold_left (fun plan b =>
                               set_add (planned_copy base_dir_dst basedir (block_path d b))
                                       plan)
                            l (path_copy_files v))),
          staged w0 filepath_tmp (partial_flat (ds ++ (index <$> l)) d) t).
Proof.
    intros Hall. revert ds v.
    induction Hall as [|b l [Hcode (sb & Hsb & [p Hp])] Hall IH]; intros ds v Hnd.
    - cbn. rewrite app_nil_r. now destruct v.
    - cbn [foldM fmap list_fmap fold_left]. cbn [fst snd].
      assert (index b ∉ ds) as Hds.
      { apply NoDup_app in Hnd as (_ & Hdis & _). intros Hin.
        apply (Hdis _ Hin). apply list_elem_of_here. }
      assert (FilePathM.emit (packer.pack_body base_dir_dst) blend basedir rootdir b v
                (staged w0 filepath_tmp (partial_flat ds d) t)
              = Ok (mkPackVars (path_temp_files v)
                      (set_add (planned_copy base_dir_dst basedir p) (path_copy_files v)),
                    staged w0 filepath_tmp (partial_flat (ds ++ [index b]) d) t)) as Hemit.
      { unfold FilePathM.emit. rewrite from_block_cases.
        rewrite decide_True by exact Hcode. now apply pack_body_staged with (sb := sb). }
      rewrite bind_bind, (bind_ok _ _ _ _ _ Hemit). unfold bind at 1, ret at 1.
      rewrite IH by (cbn in Hnd; now rewrite <- app_assoc).
      cbn [path_temp_files path_copy_files].
      assert (block_path d b = p) as -> by (unfold block_path; now rewrite Hsb; cbn; rewrite Hp).
      now rewrite <- app_assoc.
Qed.

Lemma pack_iter (fuel : nat) (c : bytes) (ds : list nat) (ec : option (gset value))
      (v : PackVars) (t : list Event) :
    Forall (fun b => (code b = "IM" \/ code b = "LI")
                     /\ exists sb, bd_blocks d !! index b = Some sb
                                   /\ is_Some (stored_path sb))
           (blendfile.find_blocks_from_code blend c) ->
    NoDup (ds ++ (index <$> blendfile.find_blocks_from_code blend c)) ->
    FilePathM.iter_blocks_id fuel blend None c
      (FilePathM.emit (packer.pack_body base_dir_dst) blend basedir rootdir) (ec, v)
      (staged w0 filepath_tmp (partial_flat ds d) t)
    = Ok ((ec, mkPackVars (path_temp_files v)
                 (fold_left (fun plan b =>
                               set_add (planned_copy base_dir_dst basedir (block_path d b))
                                       plan)
                            (blendfile.find_blocks_from_code blend c)
                            (path_copy_files v))),
          staged w0 filepath_tmp
            (partial_flat (ds ++ (index <$> blendfile.find_blocks_from_code blend c)) d) t).
Proof. intros Hall Hnd. unfold FilePathM.iter_blocks_id. now apply pack_loop. Qed.

  (** The loop over records that hold no path does nothing. *)
Lemma quiet_loop {Acc} (body : FilePath * bytes -> Acc -> M World Acc) (fuel : nat)
      (bl : BlendFile) (c : bytes) (st : option (gset value) * Acc) (s : World) :
    c <> "IM" -> c <> "LI" -> c <> "DATA" ->
    FilePathM.iter_blocks_id fuel bl None c (FilePathM.emit body bl basedir rootdir) st s
    = Ok (st, s).
Proof.
    intros H1 H2 H3. unfold FilePathM.iter_blocks_id.
    assert (Forall (fun b => code b = c) (blendfile.find_blocks_from_code bl c)) as Hall.
    { apply Forall_forall. intros b Hb. apply list_elem_of_In in Hb.
      now apply find_blocks_from_code_code in Hb. }
    induction Hall as [|b l Hb Hall IH]; [reflexivity|].
    cbn [foldM]. unfold FilePathM.emit at 1. rewrite from_block_cases.
    rewrite decide_False by (rewrite Hb; tauto).
    rewrite decide_False by (rewrite Hb; exact H3).
    unfold bind at 1 2, ret at 1 2. destruct st. exact IH.
Qed.
End Staged.

Lemma filter_none {A} (P : A -> Prop) `{forall x, Decision (P x)} (l : list A) :
  (forall x, x ∈ l -> ~ P x) -> filter P l = [].
Proof.
  induction l as [|x l IH]; intros Hl; [reflexivity|].
  rewrite filter_cons_False by (apply Hl, list_elem_of_here).
  apply IH. intros y Hy. apply Hl. now apply list_elem_of_further.
Qed.

Lemma add_events_staged (w0 : World) (p : bytes) (d : BlendData) (t es : list Event) :
  add_events (staged w0 p d t) es = staged w0 p d (t ++ es).
Proof. reflexivity. Qed.

(** The scan of the type tags after the image records: lines of output
    only. *)
Lemma quiet_rest {Acc} (body : FilePath * bytes -> Acc -> M World Acc) (fuel : nat)
    (bl : BlendFile) (basedir rootdir : bytes) (l : list bytes)
    (st : option (gset value) * Acc) (s : World) :
  "IM" ∉ l ->
  foldM (fun c st =>
           if FilePathM.skipped_code c then ret st
           else
             (print (PrintScanning c) ;;;
              FilePathM.iter_blocks_id fuel bl None c
                (FilePathM.emit body bl basedir rootdir) st)%py)
        l st s
  = Ok (st, add_events s (map PrintScanning
                            (filter (fun c => FilePathM.skipped_code c = false) l))).
Proof.
  revert s. induction l as [|c l IH]; intros s Hl.
  - cbn. unfold ret, add_events. rewrite app_nil_r. now destruct s.
  - apply not_elem_of_cons in Hl as [Hc Hl]. cbn [foldM].
    destruct (FilePathM.skipped_code c) eqn:Hs.
    + unfold bind at 1, ret at 1. rewrite (IH s Hl).
      now rewrite filter_cons_False by (rewrite Hs; discriminate).
    + unfold bind at 1 2. cbn [print modify].
      rewrite quiet_loop by
        first [exact (skipped_LI c Hs)|exact (skipped_not_DATA c Hs)|congruence].
      rewrite (IH _ Hl). rewrite filter_cons_True by exact Hs.
      f_equal. f_equal. unfold add_events. cbn. now rewrite <- app_assoc.
Qed.

Section StagedScan.
Variables base_dir_dst basedir rootdir filepath_tmp : bytes.
Variable d : BlendData.
Variable w0 : World.
Hypothesis Hwf : paths_well_formed d.
Hypothesis Hnl : no_links d.

#[local] Abbreviation blend := (handle_of filepath_tmp false d).
#[local] Abbreviation entry :=
    (fun plan b => set_add (planned_copy base_dir_dst basedir (block_path d b)) plan).

Lemma path_records (c : bytes) :
    c = "IM" \/ c = "LI" ->
    Forall (fun b => (code b = "IM" \/ code b = "LI")
                     /\ exists sb, bd_blocks d !! index b = Some sb
                                   /\ is_Some (stored_path sb))
           (blendfile.find_blocks_from_code blend c).
Proof.
    intros Hc. apply Forall_forall. intros b Hb.
    unfold blendfile.find_blocks_from_code in Hb.
    apply list_elem_of_filter in Hb as [Hcode Hb].
    apply handle_blocks in Hb as (sb & Hsb & Hb).
    split; [now rewrite Hcode|]. exists sb. split; [exact Hsb|].
    apply Hwf; [now apply list_elem_of_lookup_2 in Hsb|].
    unfold holds_path. apply bool_decide_eq_true_2.
    rewrite Hb in Hcode. cbn in Hcode. now rewrite Hcode.
Qed.

Lemma scan_codes_pack (fuel : nat) (l : list bytes) (v : PackVars) (t : list Event) :
    NoDup l ->
    foldM (fun c st =>
             if FilePathM.skipped_code c then ret st
             else
               (print (PrintScanning c) ;;;
                FilePathM.iter_blocks_id fuel blend None c
                  (FilePathM.emit (packer.pack_body base_dir_dst) blend basedir rootdir)
                  st)%py)
          l (None, v) (staged w0 filepath_tmp (partial_flat [] d) t)
    = Ok ((None,
           mkPackVars (path_temp_files v)
             (if decide ("IM" ∈ l)
              then fold_left entry (blendfile.find_blocks_from_code blend "IM")
                     (path_copy_files v)
              else path_copy_files v)),
          staged w0 filepath_tmp
            (partial_flat (if decide ("IM" ∈ l)
                           then index <$> blendfile.find_blocks_from_code blend "IM"
                           else []) d)
            (t ++ map PrintScanning
                    (filter (fun c => FilePathM.skipped_code c = false) l))).
Proof.
    revert v t. induction l as [|c l IH]; intros v t Hnd.
    - cbn [foldM]. rewrite decide_False by apply not_elem_of_nil.
      cbn. rewrite app_nil_r. now destruct v.
    - apply NoDup_cons in Hnd as [Hc Hnd]. cbn [foldM].
      destruct (FilePathM.skipped_code c) eqn:Hs.
      + unfold bind at 1, ret at 1. rewrite (IH v t Hnd).
        rewrite filter_cons_False by (rewrite Hs; discriminate).
        assert (c <> "IM") as Hne by (intros ->; discriminate Hs).
        destruct (decide ("IM" ∈ l)) as [Hin|Hin].
        * now rewrite !decide_True by now apply list_elem_of_further.
        * rewrite !decide_False; [reflexivity|..];
            intros [E|E]%elem_of_cons; congruence.
      + unfold bind at 1 2. rewrite print_staged.
        rewrite filter_cons_True by exact Hs.
        destruct (decide (c = "IM")) as [->|Hne].
        * rewrite decide_True by apply list_elem_of_here.
          rewrite (pack_iter base_dir_dst basedir rootdir filepath_tmp d w0 fuel "IM" []
                     None v _ (path_records "IM" (or_introl eq_refl)))
            by (rewrite app_nil_l; unfold blendfile.find_blocks_from_code;
                apply NoDup_fmap_filter; rewrite handle_index; apply NoDup_seq).
          rewrite (quiet_rest _ _ _ _ _ _ _ _ Hc). rewrite add_events_staged.
          cbn [app map]. now rewrite <- app_assoc.
        * rewrite quiet_loop
            by first [exact Hne|exact (skipped_LI c Hs)|exact (skipped_not_DATA c Hs)].
          rewrite (IH v _ Hnd). cbn [map]. rewrite <- app_assoc. cbn [app].
          destruct (decide ("IM" ∈ l)) as [Hin|Hin].
          -- now rewrite !decide_True by now apply list_elem_of_further.
          -- rewrite !decide_False; [reflexivity|..];
               intros [E|E]%elem_of_cons; congruence.
Qed.

Lemma no_placeholders : blendfile.find_blocks_from_code blend "ID" = [].
Proof.
    unfold blendfile.find_blocks_from_code. apply filter_none. intros b Hb Hcode.
    apply handle_blocks in Hb as (sb & Hsb & Hb).
    apply (Hnl sb); [now apply list_elem_of_lookup_2 in Hsb|].
    rewrite Hb in Hcode. exact Hcode.
Qed.

Lemma scan_blend_pack (fuel : nat) (v : PackVars) (t : list Event) :
    FilePathM.scan_blend (packer.pack_body base_dir_dst) fuel blend true None None
      basedir rootdir v (staged w0 filepath_tmp d t)
    = Ok (([], mkPackVars (path_temp_files v)
                 (fold_left entry
                    (blendfile.find_blocks_from_code blend "IM"
                     ++ blendfile.find_blocks_from_code blend "LI")
                    (path_copy_files v))),
          staged w0 filepath_tmp (flat_store d) (t ++ scanning_lines blend)).
Proof.
    unfold FilePathM.scan_blend, FilePathM.scan_codes.
    replace (staged w0 filepath_tmp d t)
      with (staged w0 filepath_tmp (partial_flat [] d) t)
      by now rewrite partial_flat_nil.
    rewrite (bind_ok _ _ _ _ _ (scan_codes_pack fuel _ v t (code_index_keys_NoDup blend))).
    assert ("IM" ∉ blendfile.code_index_keys blend ->
            blendfile.find_blocks_from_code blend "IM" = []) as Hno.
    { intros Hin. destruct (blendfile.find_blocks_from_code blend "IM") as [|b l] eqn:E;
        [reflexivity|]. exfalso. apply Hin. apply code_index_keys_elem. exists b.
      assert (b ∈ blendfile.find_blocks_from_code blend "IM") as Hb
        by (rewrite E; apply list_elem_of_here).
      unfold blendfile.find_blocks_from_code in Hb.
      apply list_elem_of_filter in Hb as [Hc Hb]. auto. }
    assert ((if decide ("IM" ∈ blendfile.code_index_keys blend)
             then fold_left entry (blendfile.find_blocks_from_code blend "IM")
                    (path_copy_files v)
             else path_copy_files v)
            = fold_left entry (blendfile.find_blocks_from_code blend "IM")
                (path_copy_files v)) as ->
      by (destruct (decide _) as [|Hin]; [reflexivity|now rewrite (Hno Hin)]).
    assert ((if decide ("IM" ∈ blendfile.code_index_keys blend)
             then index <$> blendfile.find_blocks_from_code blend "IM"
             else [])
            = index <$> blendfile.find_blocks_from_code blend "IM") as ->
      by (destruct (decide _) as [|Hin]; [reflexivity|now rewrite (Hno Hin)]).
    unfold FilePathM.collect_libs. rewrite no_placeholders. cbn [foldM fst snd].
    unfold bind at 1, ret at 1.
    unfold FilePathM.scan_libs.
    assert (NoDup ((index <$> blendfile.find_blocks_from_code blend "IM")
                   ++ (index <$> blendfile.find_blocks_from_code blend "LI"))) as Hnd.
    { unfold blendfile.find_blocks_from_code. apply NoDup_fmap_filters.
      - rewrite handle_index. apply NoDup_seq.
      - intros x. congruence. }
    rewrite (bind_ok _ _ _ _ _
               (pack_iter base_dir_dst basedir rootdir filepath_tmp d w0 fuel "LI" _ None _ _
                  (path_records "LI" (or_intror eq_refl)) Hnd)).
    unfold ret. cbn [fst snd path_temp_files path_copy_files].
    rewrite fold_left_app. f_equal. f_equal. unfold staged, scanning_lines. f_equal.
    f_equal. f_equal. apply partial_flat_all. intros i sb Hsb.
    rewrite elem_of_app, !list_elem_of_fmap. unfold holds_path. split.
    - intros [(b & -> & Hb)|(b & -> & Hb)];
        unfold blendfile.find_blocks_from_code in Hb;
        apply list_elem_of_filter in Hb as [Hc Hb];
        apply handle_blocks in Hb as (sb' & Hsb' & Hb);
        rewrite Hsb in Hsb'; injection Hsb' as <-;
        rewrite Hb in Hc; cbn in Hc; apply bool_decide_eq_true_2; auto.
    - intros Hh. apply bool_decide_eq_true_1 in Hh.
      assert (mkBlock i (sb_code sb) (sb_addr_old sb) (sb_file_offset sb)
                ∈ bf_blocks blend) as Hb
        by (apply handle_blocks; exists sb; cbn; auto).
      destruct Hh as [Hc|Hc]; [left|right];
        exists (mkBlock i (sb_code sb) (sb_addr_old sb) (sb_file_offset sb));
        (split; [reflexivity|]);
        unfold blendfile.find_blocks_from_code; apply list_elem_of_filter; auto.
Qed.

  (** The plan holds one copy for every path held by an image or library
      record. *)
Lemma plan_entries (e : bytes * bytes) :
    e ∈ fold_left entry
          (blendfile.find_blocks_from_code blend "IM"
           ++ blendfile.find_blocks_from_code blend "LI") []
    <-> exists p, p ∈ stored_paths d /\ e = planned_copy base_dir_dst basedir p.
Proof.
    destruct (set_add_fold (fun b => planned_copy base_dir_dst basedir (block_path d b))
                (blendfile.find_blocks_from_code blend "IM"
                 ++ blendfile.find_blocks_from_code blend "LI") [] (NoDup_nil_2))
      as [_ Hspec].
    rewrite Hspec. unfold stored_paths. split.
    - intros [Hin|(b & Hb & ->)]; [now apply elem_of_nil in Hin|].
      assert (b ∈ bf_blocks blend /\ (code b = "IM" \/ code b = "LI")) as [Hb' Hc].
      { apply elem_of_app in Hb as [Hb|Hb];
          unfold blendfile.find_blocks_from_code in Hb;
          apply list_elem_of_filter in Hb as [Hc Hb]; auto. }
      apply handle_blocks in Hb' as (sb & Hsb & Hb').
      assert (holds_path sb = true) as Hh.
      { apply bool_decide_eq_true_2. rewrite Hb' in Hc. exact Hc. }
      destruct (Hwf sb (list_elem_of_lookup_2 _ _ _ Hsb) Hh) as [p Hp].
      exists p. split.
      + apply list_elem_of_In, in_flat_map. exists sb.
        split; [apply list_elem_of_In; now apply list_elem_of_lookup_2 in Hsb|].
        rewrite Hh, Hp. now left.
      + unfold block_path. rewrite Hsb. cbn. now rewrite Hp.
    - intros (p & Hp & ->). right.
      apply list_elem_of_In, in_flat_map in Hp as (sb & Hsb & Hp).
      destruct (holds_path sb) eqn:Hh; [|destruct Hp].
      destruct (stored_path sb) as [q|] eqn:Hq; [|destruct Hp].
      destruct Hp as [->|[]].
      apply list_elem_of_In, list_elem_of_lookup_1 in Hsb as [i Hi].
      exists (mkBlock i (sb_code sb) (sb_addr_old sb) (sb_file_offset sb)). split.
      + assert (mkBlock i (sb_code sb) (sb_addr_old sb) (sb_file_offset sb)
                  ∈ bf_blocks blend) as Hb
          by (apply handle_blocks; exists sb; cbn; auto).
        apply bool_decide_eq_true_1 in Hh. apply elem_of_app.
        destruct Hh as [Hc|Hc]; [left|right];
          unfold blendfile.find_blocks_from_code; apply list_elem_of_filter; auto.
      + unfold block_path. cbn. rewrite Hi. cbn. now rewrite Hq.
Qed.
End StagedScan.

Lemma expand_codes_init_unfiltered (recursive : bool) (level : nat) :
  FilePathM.expand_codes_init recursive level None = None.
Proof.
  unfold FilePathM.expand_codes_init.
  rewrite (bool_decide_eq_false_2 (is_Some (@None (gset value))))
    by (intros [x Hx]; discriminate).
  now rewrite andb_false_r.
Qed.

(** The walk of [pack] over a file without linked-ID placeholders, with the
    world it ends in. *)
Lemma pack_walk_run (fuel : nat) (base_dir_dst blendfile_src : bytes)
    (rootdir : option bytes) (level : nat) (reg : registry) (w : World) (d : BlendData) :
  fs w !! blendfile_src = Some (BlendContent d) ->
  paths_well_formed d ->
  no_links d ->
  open_for_writing w (packer.staging_path base_dir_dst blendfile_src) = None ->
  FilePathM.visit_from_blend (packer.pack_body base_dir_dst)
    (Some (packer.temp_remap_cb base_dir_dst)) (S fuel) blendfile_src false true None
    rootdir level (Some reg) (mkPackVars [] []) w
  = Ok ((Some reg,
         mkPackVars [packer.staging_path base_dir_dst blendfile_src]
           (fold_left
              (fun plan b =>
                 set_add (planned_copy base_dir_dst
                            (os_path.dirname (os_path.abspath (cwd w) blendfile_src))
                            (block_path d b)) plan)
              (blendfile.find_blocks_from_code
                 (handle_of (packer.staging_path base_dir_dst blendfile_src) false d) "IM"
               ++ blendfile.find_blocks_from_code
                    (handle_of (packer.staging_path base_dir_dst blendfile_src) false d)
                    "LI")
              [])),
        staged w (packer.staging_path base_dir_dst blendfile_src) (flat_store d)
          (trace w
           ++ [PrintOpening level blendfile_src; PrintBlocks level None;
               IoCopy blendfile_src (packer.staging_path base_dir_dst blendfile_src);
               IoOpen (packer.staging_path base_dir_dst blendfile_src) false]
           ++ scanning_lines
                (handle_of (packer.staging_path base_dir_dst blendfile_src) false d)
           ++ [IoClose (packer.staging_path base_dir_dst blendfile_src)])).
Proof.
  intros Hd Hwf Hnl Htmp. set (tmp := packer.staging_path base_dir_dst blendfile_src) in *.
  rewrite visit_unfold.
  assert (packer.temp_remap_cb base_dir_dst blendfile_src (mkPackVars [] [])
            (add_event (add_event w (PrintOpening level blendfile_src))
                       (PrintBlocks level None))
          = Ok ((tmp, mkPackVars [tmp] []),
                staged w tmp d
                  (trace w ++ [PrintOpening level blendfile_src; PrintBlocks level None;
                               IoCopy blendfile_src tmp]))) as Hhook.
  { unfold packer.temp_remap_cb. fold tmp.
    rewrite decide_False by apply not_elem_of_nil.
    unfold bind.
    rewrite (copy_ok blendfile_src tmp _ (BlendContent d));
      [|exact Hd|discriminate
       |intros E; exact (staging_path_ne base_dir_dst blendfile_src (eq_sym E))
       |exact Htmp].
    unfold ret, set_add. rewrite decide_False by apply not_elem_of_nil.
    unfold staged. cbn. now rewrite <- !app_assoc. }
  rewrite (bind_ok _ _ _ _ _ Hhook). cbn [fst snd].
  assert (forall t, blendfile.open_blend tmp false (staged w tmp d t)
                    = Ok (handle_of tmp false d, staged w tmp d (t ++ [IoOpen tmp false])))
    as Hopen.
  { intros t. unfold blendfile.open_blend, staged. cbn [fs].
    now rewrite lookup_insert_eq. }
  rewrite (bind_ok _ _ _ _ _ (Hopen _)).
  rewrite expand_codes_init_unfiltered.
  rewrite (bind_ok _ _ _ _ _
             (scan_blend_pack base_dir_dst _ _ tmp d w Hwf Hnl fuel (mkPackVars [tmp] []) _)).
  cbn [fst snd path_temp_files path_copy_files].
  unfold bind at 1, blendfile.close at 1. rewrite print_staged. cbn [foldM].
  unfold ret. cbn [bf_path handle_of]. f_equal. f_equal. unfold staged. f_equal.
  now rewrite <- !app_assoc.
Qed.

(** X17.  The walk of [pack] over a file that uses no library.  The hook
    stages one copy of the file; the walk writes to that copy only and
    leaves it with the path of every image and library record replaced by
    the relative path to its base name, every other record as it was; the
    original is untouched.  The copy plan holds exactly one entry for every
    path that these records held: from the path resolved against the
    directory of the original to the base name in the destination
    directory.  The walk completes whenever those records hold byte
    strings and the staging path can be opened for writing: it is no
    directory, and it exists or its directory does. *)
Theorem pack_walk_flattens (fuel : nat) (base_dir_dst blendfile_src : bytes)
    (rootdir : option bytes) (level : nat) (reg : registry) (w : World) (d : BlendData) :
  fs w !! blendfile_src = Some (BlendContent d) ->
  paths_well_formed d ->
  no_links d ->
  let filepath_tmp := packer.staging_path base_dir_dst blendfile_src in
  let basedir := os_path.dirname (os_path.abspath (cwd w) blendfile_src) in
  open_for_writing w filepath_tmp = None ->
  exists plan w',
    FilePathM.visit_from_blend (packer.pack_body base_dir_dst)
      (Some (packer.temp_remap_cb base_dir_dst)) (S fuel) blendfile_src false true None
      rootdir level (Some reg) (mkPackVars [] []) w
    = Ok ((Some reg, mkPackVars [filepath_tmp] plan), w')
    /\ fs w' = <[filepath_tmp := BlendContent (flat_store d)]> (fs w)
    /\ fs w' !! blendfile_src = Some (BlendContent d)
    /\ cwd w' = cwd w
    /\ NoDup plan
    /\ forall e, e ∈ plan <->
                 exists p, p ∈ stored_paths d /\ e = planned_copy base_dir_dst basedir p.
Proof.
  intros Hd Hwf Hnl tmp basedir Htmp. eexists _, _.
  split; [exact (pack_walk_run fuel base_dir_dst blendfile_src rootdir level reg w d
                   Hd Hwf Hnl Htmp)|].
  split; [reflexivity|].
  split; [unfold staged; cbn [fs];
          rewrite lookup_insert_ne by apply staging_path_ne; exact Hd|].
  split; [reflexivity|]. split.
  - apply set_add_fold. constructor.
  - intros e. now apply plan_entries.
Qed.

Lemma paths_sample_well_formed : paths_well_formed Samples4.paths_blend.
Proof.
  intros sb Hsb _. apply list_elem_of_singleton in Hsb as ->.
  exists "//tex/asset.png". vm_compute. reflexivity.
Defined.

Lemma paths_sample_no_links : no_links Samples4.paths_blend.
Proof. intros sb Hsb. apply list_elem_of_singleton in Hsb as ->. discriminate. Defined.

Lemma pack_walk_flattens_witness :
  fs Samples4.nested_world !! "/src/blendfile/test/paths.blend"
    = Some (BlendContent Samples4.paths_blend)
  /\ paths_well_formed Samples4.paths_blend
  /\ no_links Samples4.paths_blend
  /\ open_for_writing Samples4.nested_world
       (packer.staging_path "/out" "/src/blendfile/test/paths.blend") = None
  /\ exists plan w',
       FilePathM.visit_from_blend (packer.pack_body "/out")
         (Some (packer.temp_remap_cb "/out")) 1 "/src/blendfile/test/paths.blend" false
         true None None 0 (Some ∅) (mkPackVars [] []) Samples4.nested_world
       = Ok ((Some ∅, mkPackVars [packer.staging_path "/out"
                                    "/src/blendfile/test/paths.blend"] plan), w')
       /\ fs w' = <[packer.staging_path "/out" "/src/blendfile/test/paths.blend"
                    := BlendContent (flat_store Samples4.paths_blend)]>
                    (fs Samples4.nested_world)
       /\ stored_paths (flat_store Samples4.paths_blend) = ["//asset.png"].
Proof.
  assert (fs Samples4.nested_world !! "/src/blendfile/test/paths.blend"
          = Some (BlendContent Samples4.paths_blend)) as H by (vm_compute; reflexivity).
  assert (open_for_writing Samples4.nested_world
            (packer.staging_path "/out" "/src/blendfile/test/paths.blend") = None) as Ho
    by (vm_compute; reflexivity).
  split; [exact H|]. split; [exact paths_sample_well_formed|].
  split; [exact paths_sample_no_links|]. split; [exact Ho|].
  destruct (pack_walk_flattens 0 "/out" "/src/blendfile/test/paths.blend" None 0 ∅
              Samples4.nested_world Samples4.paths_blend H paths_sample_well_formed
              paths_sample_no_links Ho) as (plan & w' & Hrun & Hfs & _).
  exists plan, w'. split; [exact Hrun|]. split; [exact Hfs|]. vm_compute. reflexivity.
Defined.

(** ** [pack] on a file that uses no library *)

Lemma names_directory_isdir (w : World) (p : bytes) :
  names_directory w p = false -> isdir w p = false.
Proof.
  unfold names_directory. intros H.
  now apply orb_false_elim in H as [[H _]%orb_false_elim _].
Qed.

(** An entry whose source exists leaves something at its destination. *)
Lemma copied_fs_present (plan : list (bytes * bytes)) (m : gmap bytes FileContent)
    (e : bytes * bytes) :
  e ∈ plan -> is_Some (m !! e.1) -> is_Some (copied_fs plan m !! e.2).
Proof.
  revert m. induction plan as [|e0 plan IH]; intros m Hin Hsrc.
  { now apply elem_of_nil in Hin. }
  cbn [copied_fs]. apply elem_of_cons in Hin as [->|Hin].
  - apply copied_fs_keeps. unfold copy_step_fs. destruct Hsrc as [c ->].
    rewrite lookup_insert_eq. eauto.
  - apply IH; [exact Hin|]. now apply copy_step_fs_keeps.
Qed.

Lemma pack_stage_run (o : SetOrder) (fuel : nat) (blendfile_src blendfile_dst : bytes)
    (w : World) (d : BlendData) :
  fs w !! blendfile_src = Some (BlendContent d) ->
  paths_well_formed d ->
  no_links d ->
  open_for_writing w (packer.staging_path (os_path.dirname blendfile_dst) blendfile_src)
    = None ->
  open_for_writing w blendfile_dst = None ->
  exists plan t,
    packer.pack_stage o (S fuel) blendfile_src blendfile_dst w
    = Ok (plan,
          mkWorld (<[blendfile_dst := BlendContent (flat_store d)]>
                     (delete (packer.staging_path (os_path.dirname blendfile_dst)
                                blendfile_src) (fs w)))
                  (cwd w) t)
    /\ NoDup plan
    /\ forall e, e ∈ plan <->
                 exists p, p ∈ stored_paths d
                   /\ e = planned_copy (os_path.dirname blendfile_dst)
                            (os_path.dirname (os_path.abspath (cwd w) blendfile_src)) p.
Proof.
  intros Hd Hwf Hnl Htmp Hdst. unfold packer.pack_stage.
  set (base_dir_dst := os_path.dirname blendfile_dst) in *.
  set (tmp := packer.staging_path base_dir_dst blendfile_src) in *.
  rewrite (bind_ok _ _ _ _ _
             (pack_walk_run fuel base_dir_dst blendfile_src None 0 ∅ w d Hd Hwf Hnl Htmp)).
  fold tmp. cbn [fst snd].
  match goal with
  | |- context [mkPackVars [tmp] ?x] => set (plan := x)
  end.
  match goal with
  | |- context [staged w tmp (flat_store d) ?x] => set (t := x)
  end.
  assert (packer.temp_remap_cb base_dir_dst blendfile_src (mkPackVars [tmp] plan)
            (staged w tmp (flat_store d) t)
          = Ok ((tmp, mkPackVars [tmp] plan), staged w tmp (flat_store d) t)) as Hhook.
  { unfold packer.temp_remap_cb. fold tmp. cbn [path_temp_files].
    now rewrite decide_True by apply list_elem_of_here. }
  rewrite (bind_ok _ _ _ _ _ Hhook). cbn [fst snd path_temp_files path_copy_files].
  assert (shutil.move tmp blendfile_dst (staged w tmp (flat_store d) t)
          = Ok (tt, mkWorld (<[blendfile_dst := BlendContent (flat_store d)]>
                               (delete tmp (fs w)))
                            (cwd w) (t ++ [IoMove tmp blendfile_dst]))) as Hmove.
  { rewrite (move_ok tmp blendfile_dst _ (BlendContent (flat_store d))).
    - unfold staged. cbn [fs cwd trace]. now rewrite delete_insert_eq.
    - unfold staged. cbn [fs]. apply lookup_insert_eq.
    - discriminate.
    - apply (open_for_writing_mono w); [| |exact Hdst].
      + intros q. unfold staged.
        apply isdir_insert; [discriminate| |reflexivity].
        now apply open_for_writing_isdir.
      + intros q. unfold staged. cbn [fs]. apply insert_keeps. }
  rewrite (bind_ok _ _ _ _ _ Hmove).
  assert (forall s, packer.set_remove tmp [tmp] s = Ok ([], s)) as Hrem.
  { intros s. unfold packer.set_remove.
    rewrite decide_True by apply list_elem_of_here.
    now rewrite filter_cons_False by (intros E; now apply E). }
  rewrite (bind_ok _ _ _ _ _ (Hrem _)).
  assert (order_temp o [] = []) as -> by (apply Permutation_nil_r, order_temp_perm).
  cbn [forM]. unfold bind, ret.
  exists plan, (t ++ [IoMove tmp blendfile_dst])%list. split; [reflexivity|]. split.
  - apply set_add_fold. constructor.
  - intros e. now apply plan_entries.
Qed.

(** X18.  [pack] on a file that uses no library, where the staging path and
    the destination path name no directory and their directories exist,
    and where every copy of the plan can be made (no source and no
    destination names a directory, no referenced file is already its own
    destination, the directory of every destination exists) and none has
    the base name of the destination file.  [pack] completes, in whatever
    order it makes the copies; the destination file holds the store of the
    source with the path of every image and library record replaced by the
    relative path to its base name; and every referenced file that exists
    has a file at its base name in the destination directory. *)
Theorem pack_single_file (o : SetOrder) (fuel : nat) (blendfile_src blendfile_dst : bytes)
    (w : World) (d : BlendData) :
  fs w !! blendfile_src = Some (BlendContent d) ->
  paths_well_formed d ->
  no_links d ->
  let base_dir_dst := os_path.dirname blendfile_dst in
  let basedir := os_path.dirname (os_path.abspath (cwd w) blendfile_src) in
  let filepath_tmp := packer.staging_path base_dir_dst blendfile_src in
  names_directory w filepath_tmp = false ->
  parent_exists w filepath_tmp = true ->
  names_directory w blendfile_dst = false ->
  parent_exists w blendfile_dst = true ->
  (forall p, p ∈ stored_paths d ->
     copy_possible w (planned_copy base_dir_dst basedir p)
     /\ (planned_copy base_dir_dst basedir p).2 <> blendfile_dst) ->
  exists w',
    packer.pack o (S fuel) blendfile_src blendfile_dst w = Ok (tt, w')
    /\ fs w' !! blendfile_dst = Some (BlendContent (flat_store d))
    /\ cwd w' = cwd w
    /\ forall p, p ∈ stored_paths d ->
         is_Some (fs w !! (planned_copy base_dir_dst basedir p).1) ->
         (planned_copy base_dir_dst basedir p).1 <> filepath_tmp ->
         is_Some (fs w' !! (planned_copy base_dir_dst basedir p).2).
Proof.
  intros Hd Hwf Hnl base_dir_dst basedir tmp Htn Htp Hdn Hdp Hplan.
  pose proof (names_directory_isdir _ _ Htn) as Htd.
  pose proof (names_directory_isdir _ _ Hdn) as Hdd.
  destruct (pack_stage_run o fuel blendfile_src blendfile_dst w d Hd Hwf Hnl
              (open_for_writing_parent _ _ Htd Htp) (open_for_writing_parent _ _ Hdd Hdp))
    as (plan & t & Hstage & _ & Hentries).
  fold base_dir_dst basedir tmp in Hstage, Hentries.
  set (s6 := mkWorld (<[blendfile_dst := BlendContent (flat_store d)]> (delete tmp (fs w)))
                     (cwd w) t) in *.
  assert (forall q, isdir s6 q = isdir w q) as Hdirs.
  { intros q. unfold s6.
    rewrite <- (isdir_delete (cwd w) t tmp (fs w) w q Htd eq_refl).
    apply isdir_insert; [discriminate| |reflexivity].
    now rewrite (isdir_delete (cwd w) t tmp (fs w) w blendfile_dst Htd eq_refl). }
  pose proof (order_copy_perm o plan) as Hperm.
  assert (Forall (copy_allowed s6) (order_copy o plan)) as Hallowed.
  { rewrite Hperm. apply Forall_forall. intros e He.
    apply Hentries in He as (p & Hp & ->).
    destruct (Hplan p Hp) as [(H1 & H2 & Hne & Hpar) _].
    apply names_directory_isdir in H1, H2.
    split; [now rewrite Hdirs|]. split; [now rewrite Hdirs|]. split; [exact Hne|].
    apply open_for_writing_parent; [now rewrite Hdirs|].
    now rewrite (parent_exists_ext w s6 _ Hdirs). }
  pose proof (copy_files_spec _ _ Hallowed) as Hrun.
  eexists. split.
  { unfold packer.pack. rewrite (bind_ok _ _ _ _ _ Hstage), (bind_ok _ _ _ _ _ Hrun).
    reflexivity. }
  cbn [add_event fs cwd]. split; [|split; [reflexivity|]].
  - rewrite copied_fs_frame; [apply lookup_insert_eq|].
    rewrite Hperm. intros Hin. apply list_elem_of_fmap in Hin as (e & He2 & He).
    apply Hentries in He as (p & Hp & ->). destruct (Hplan p Hp) as [_ H2]. congruence.
  - intros p Hp Hsrc Htmp.
    apply (copied_fs_present _ _ (planned_copy base_dir_dst basedir p)).
    + rewrite Hperm. apply Hentries. eauto.
    + apply insert_keeps. rewrite lookup_delete_ne by congruence. exact Hsrc.
Qed.

Lemma pack_single_file_witness :
  fs Samples4.nested_world !! "/src/blendfile/test/paths.blend"
    = Some (BlendContent Samples4.paths_blend)
  /\ paths_well_formed Samples4.paths_blend
  /\ no_links Samples4.paths_blend
  /\ stored_paths Samples4.paths_blend = ["//tex/asset.png"]
  /\ names_directory Samples4.nested_world "/out/paths.blend@" = false
  /\ names_directory Samples4.nested_world "/out/paths.blend" = false
  /\ copy_possible Samples4.nested_world
       ("/src/blendfile/test/tex/asset.png", "/out/asset.png")
  /\ exists w',
       packer.pack reverse_order 1 "/src/blendfile/test/paths.blend" "/out/paths.blend"
         Samples4.nested_world = Ok (tt, w')
       /\ fs w' !! "/out/paths.blend" = Some (BlendContent (flat_store Samples4.paths_blend))
       /\ is_Some (fs w' !! "/out/asset.png").
Proof.
  assert (fs Samples4.nested_world !! "/src/blendfile/test/paths.blend"
          = Some (BlendContent Samples4.paths_blend)) as H by (vm_compute; reflexivity).
  assert (stored_paths Samples4.paths_blend = ["//tex/asset.png"]) as Hpaths
    by (vm_compute; reflexivity).
  assert (names_directory Samples4.nested_world "/out/paths.blend@" = false) as Htn
    by (vm_compute; reflexivity).
  assert (names_directory Samples4.nested_world "/out/paths.blend" = false) as Hdn
    by (vm_compute; reflexivity).
  assert (copy_possible Samples4.nested_world
            ("/src/blendfile/test/tex/asset.png", "/out/asset.png")) as Hcopy
    by (repeat split; try (vm_compute; reflexivity); discriminate).
  split; [exact H|]. split; [exact paths_sample_well_formed|].
  split; [exact paths_sample_no_links|]. split; [exact Hpaths|].
  split; [exact Htn|]. split; [exact Hdn|]. split; [exact Hcopy|].
  destruct (pack_single_file reverse_order 0 "/src/blendfile/test/paths.blend"
              "/out/paths.blend" Samples4.nested_world Samples4.paths_blend H
              paths_sample_well_formed paths_sample_no_links Htn eq_refl Hdn eq_refl)
    as (w' & Hrun & Hdst & _ & Hcopies).
  { intros p Hp. rewrite Hpaths in Hp. apply list_elem_of_singleton in Hp as ->.
    split; [exact Hcopy|]. vm_compute. discriminate. }
  exists w'. split; [exact Hrun|]. split; [exact Hdst|].
  apply (Hcopies "//tex/asset.png").
  - rewrite Hpaths. apply list_elem_of_here.
  - exists (RawContent "texture"). vm_compute. reflexivity.
  - vm_compute. discriminate.
Defined.

(** ** Packing what is already packed *)

Lemma path_base_of_flat (b : bytes) :
  Bytes.mem slash b = false -> Bytes.mem backslash b = false ->
  packer.path_base_of ("//" ++ b) = b.
Proof.
  intros Hs Hb. rewrite path_base_of_basename by exact Hb.
  apply (basename_unique "//" b Hs). now right.
Qed.

Lemma stored_path_flat (sb : StoredBlock) (p : bytes) :
  stored_path sb = Some p ->
  stored_path (flat_name sb) = Some ("//" ++ packer.path_base_of p).
Proof.
  intros Hp. unfold flat_name. rewrite Hp. unfold stored_path. cbn [sb_fields].
  now rewrite lookup_insert_eq.
Qed.

Lemma flat_name_idem (sb : StoredBlock) : flat_name (flat_name sb) = flat_name sb.
Proof.
  destruct (stored_path sb) as [p|] eqn:Hp.
  - unfold flat_name at 1. rewrite (stored_path_flat sb p Hp).
    destruct (path_base_of_spec p) as (_ & _ & Hs & Hb & _).
    rewrite (path_base_of_flat _ Hs Hb). unfold flat_name. rewrite Hp.
    cbn [sb_code sb_addr_old sb_file_offset sb_fields]. now rewrite insert_insert_eq.
  - unfold flat_name. now rewrite Hp, Hp.
Qed.

(** X19.  The rewriting of [pack] is idempotent.  The base name that the
    loop body computes from a path it has already rewritten is the base
    name it wrote, so rewriting a flattened record, or a flattened store,
    changes nothing. *)
Theorem flattening_is_idempotent (path_rel : bytes) (d : BlendData) :
  packer.path_base_of ("//" ++ packer.path_base_of path_rel) = packer.path_base_of path_rel
  /\ flat_store (flat_store d) = flat_store d.
Proof.
  split.
  - destruct (path_base_of_spec path_rel) as (_ & _ & Hs & Hb & _).
    now apply path_base_of_flat.
  - unfold flat_store. cbn [bd_pointer_size bd_blocks bd_words bd_sdna_index_from_id].
    f_equal. rewrite map_map. apply map_ext. intros sb.
    assert (holds_path (flat_name sb) = holds_path sb) as Hh
      by (unfold flat_name; now destruct (stored_path sb)).
    destruct (holds_path sb) eqn:E.
    + rewrite Hh. apply flat_name_idem.
    + now rewrite E.
Qed.

(** ** A nested visit that has a library to follow *)

(** X20.  A visit that was given no registry ([lib_visit] is [None]), as
    every nested visit is, raises [AttributeError] as soon as its scan
    finds a library to follow: the first round of the loop over the library
    table fails, whatever the library is.  So a library that itself uses
    a linked record from another library cannot be walked. *)
Theorem nested_visit_with_links_raises {Acc}
    (body : FilePath * bytes -> Acc -> M World Acc)
    (temp_remap_cb : option (bytes -> Acc -> M World (bytes * Acc)))
    (fuel : nat) (filepath : bytes) (readonly : bool) (block_codes : option (gset value))
    (rootdir : option bytes) (level : nat) (acc : Acc) (w : World)
    (tmp : bytes * Acc) (w3 : World) (blend : BlendFile) (w4 : World)
    (lib : value * gset value) (rest : list (value * gset value)) (acc' : Acc)
    (w5 : World) :
  match temp_remap_cb with
  | Some cb => cb filepath acc
  | None => ret (filepath, acc)
  end (add_event (add_event w (PrintOpening level filepath))
                 (PrintBlocks level block_codes)) = Ok (tmp, w3) ->
  blendfile.open_blend tmp.1 readonly w3 = Ok (blend, w4) ->
  FilePathM.scan_blend body fuel blend true block_codes
    (FilePathM.expand_codes_init true level block_codes)
    (os_path.dirname (os_path.abspath (cwd w) filepath))
    (default (os_path.dirname (os_path.abspath (cwd w) filepath)) rootdir)
    tmp.2 w4 = Ok ((lib :: rest, acc'), w5) ->
  FilePathM.visit_from_blend body temp_remap_cb (S fuel) filepath readonly true
    block_codes rootdir level None acc w = Raise AttributeError.
Proof.
  intros Hhook Hopen Hscan. rewrite visit_unfold.
  rewrite (bind_ok _ _ _ _ _ Hhook), (bind_ok _ _ _ _ _ Hopen), (bind_ok _ _ _ _ _ Hscan).
  unfold bind at 1, blendfile.close at 1, print at 1, modify at 1.
  cbn [fst snd foldM]. unfold bind at 1.
  unfold FilePathM.follow_lib at 1, abspath_value.
  destruct lib as [[p|n] names]; reflexivity.
Qed.

Lemma nested_visit_with_links_raises_witness :
  packer.temp_remap_cb "/dst" "/src/b.blend" (mkPackVars [] []) Samples6.nested_start
    = Ok Samples6.nested_hooked
  /\ blendfile.open_blend Samples6.nested_hooked.1.1 false Samples6.nested_hooked.2
     = Ok Samples6.nested_opened
  /\ length Samples6.nested_scanned.1.1 = 1%nat
  /\ FilePathM.visit_from_blend (packer.pack_body "/dst")
       (Some (packer.temp_remap_cb "/dst")) 4 "/src/b.blend" false true
       (Some {[VBytes "MEy"]}) (Some "/src") 1 None (mkPackVars [] []) Samples3.cyclic_world
     = Raise AttributeError.
Proof.
  assert (packer.temp_remap_cb "/dst" "/src/b.blend" (mkPackVars [] []) Samples6.nested_start
          = Ok Samples6.nested_hooked) as Hhook
    by (apply run_result_ok; vm_compute; reflexivity).
  assert (blendfile.open_blend Samples6.nested_hooked.1.1 false Samples6.nested_hooked.2
          = Ok Samples6.nested_opened) as Hopen
    by (apply run_result_ok; vm_compute; reflexivity).
  assert (FilePathM.scan_blend (packer.pack_body "/dst") 3 Samples6.nested_opened.1 true
            (Some {[VBytes "MEy"]}) (Some ∅) "/src" "/src" Samples6.nested_hooked.1.2
            Samples6.nested_opened.2 = Ok Samples6.nested_scanned) as Hscan
    by (apply run_result_ok; vm_compute; reflexivity).
  assert (length Samples6.nested_scanned.1.1 = 1%nat) as Hlen by (vm_compute; reflexivity).
  split; [exact Hhook|]. split; [exact Hopen|]. split; [exact Hlen|].
  destruct Samples6.nested_scanned as [[[|lib rest] acc'] w5]; [discriminate Hlen|].
  rewrite (surjective_pairing Samples6.nested_hooked) in Hhook.
  rewrite (surjective_pairing Samples6.nested_opened) in Hopen.
  exact (nested_visit_with_links_raises (packer.pack_body "/dst")
           (Some (packer.temp_remap_cb "/dst")) 3 "/src/b.blend" false
           (Some {[VBytes "MEy"]}) (Some "/src") 1 (mkPackVars [] []) Samples3.cyclic_world
           _ _ _ _ lib rest acc' w5 Hhook Hopen Hscan).
Defined.

(** ** What a filtered scan yields *)

Lemma get_field_of (blend : BlendFile) (b : Block) (f : bytes) (w w' : World) (v : value) :
  blendfile.get blend b f w = Ok (v, w') -> field_of blend b f w = Some v.
Proof.
  unfold field_of, blendfile.get. destruct (blendfile.stored blend b w); [|discriminate].
  destruct (sb_fields s !! f); [|discriminate]. unfold ret. now intros [= -> _].
Qed.

Section Filtered.
Context {Acc : Type}.
Variable body : FilePath * bytes -> Acc -> M World Acc.
Variable blend : BlendFile.
Variables basedir rootdir : bytes.
Variable codes : gset value.
Variable w0 : World.
Hypothesis body_ok : writes_path_only body.
Hypothesis w0_ok : no_pointer_to_paths blend w0.

Lemma filtered_event (st : list (FilePath * bytes) * Acc) (w : World) (e : Event) :
    not_open e -> filtered_inv blend w0 codes st w ->
    filtered_inv blend w0 codes st (add_event w e).
Proof. intros _ [Hw Hst]. split; [exact Hw|exact Hst]. Qed.

Lemma emit_filtered (b : Block) (st : list (FilePath * bytes) * Acc) (w : World)
      (st' : list (FilePath * bytes) * Acc) (w' : World) :
    path_record_named blend w0 codes b ->
    filtered_inv blend w0 codes st w ->
    FilePathM.emit (logging body) blend basedir rootdir b st w = Ok (st', w') ->
    filtered_inv blend w0 codes st' w'.
Proof.
    intros Hb [Hw Hst] H. unfold FilePathM.emit in H. rewrite from_block_cases in H.
    destruct (decide (code b = "IM" \/ code b = "LI")) as [Hc|Hc].
    - unfold logging in H. apply bind_ok_inv in H as (acc' & w1 & Hrun & H).
      apply ret_inv in H as [-> ->]. split.
      + intros b0 f Hf. rewrite <- (Hw b0 f Hf).
        exact (body_ok _ _ _ _ _ Hrun b0 f Hf).
      + cbn. apply Forall_app. split; [exact Hst|]. repeat constructor. exact (Hb Hc).
    - destruct (decide (code b = "DATA")); [discriminate|].
      apply ret_inv in H as [-> ->]. split; assumption.
Qed.

Lemma filtered_reach_closed :
    reach_closed blend (filtered_inv (Acc := Acc) blend w0 codes)
                 (path_record_named blend w0 codes).
Proof.
    intros st w b0 f sb [Hw _] Hf Hg.
    apply get_pointer_field in Hg as (a & Hfield & Hfind).
    rewrite Hw in Hfield by (destruct Hf as [-> | ->]; discriminate).
    destruct (w0_ok b0 f a sb Hf Hfield Hfind) as [Him Hli].
    intros [Hc|Hc]; contradiction.
Qed.

Lemma iter_filtered (fuel : nat) (c : bytes)
      (st : option (gset value) * (list (FilePath * bytes) * Acc)) (w : World)
      (st' : option (gset value) * (list (FilePath * bytes) * Acc)) (w' : World) :
    filtered_inv blend w0 codes st.2 w ->
    FilePathM.iter_blocks_id fuel blend (Some codes) c
      (FilePathM.emit (logging body) blend basedir rootdir) st w = Ok (st', w') ->
    filtered_inv blend w0 codes st'.2 w'.
Proof.
    intros HJ H. unfold FilePathM.iter_blocks_id in H. revert H.
    apply (foldM_inv (fun a s => filtered_inv blend w0 codes a.2 s)); [|exact HJ].
    intros b a s a' s' _ HJa H.
    apply bind_ok_inv in H as (name & w1 & Hn & H).
    pose proof (get_field_of _ _ _ _ _ _ Hn) as Hname. apply get_inv in Hn as ->.
    destruct (decide (name ∈ codes)) as [Hin|Hin].
    - assert (path_record_named blend w0 codes b) as Hb.
      { intros _. unfold named_in. destruct HJa as [Hw _].
        rewrite <- (Hw b "id.name") by discriminate. rewrite Hname.
        now apply bool_decide_eq_true_2. }
      eapply (block_expand_sel_J blend (filtered_inv blend w0 codes)
                (path_record_named blend w0 codes) filtered_event _ emit_filtered);
        [exact Hb| |exact HJa|exact H].
      right. right. exact filtered_reach_closed.
    - now apply ret_inv in H as [-> ->].
Qed.
End Filtered.

(** X21.  In a visit restricted to a set of names, every reference that the
    scan of one file yields belongs to a record whose own [id.name] is in
    the set, provided that the loop body writes nothing but the path it is
    given and that no [data] or [ob] pointer of the file addresses an image
    or library record.  (Records reached by expansion are yielded without
    the test of the name, which is why the pointers matter.) *)
Theorem filtered_scan_yields_named_records {Acc : Type}
    (body : FilePath * bytes -> Acc -> M World Acc)
    (fuel : nat) (blend : BlendFile) (recursive : bool) (codes : gset value)
    (expand_codes : option (gset value)) (basedir rootdir : bytes)
    (acc : Acc) (w : World) (lib_all : list (value * gset value))
    (items : list (FilePath * bytes)) (acc' : Acc) (w' : World) :
  writes_path_only body ->
  no_pointer_to_paths blend w ->
  FilePathM.scan_blend (logging body) fuel blend recursive (Some codes) expand_codes
    basedir rootdir ([], acc) w = Ok ((lib_all, (items, acc')), w') ->
  Forall (fun x : FilePath * bytes => named_in blend w codes (block x.1) = true) items.
Proof.
  intros Hbody Hw H. unfold FilePathM.scan_blend in H.
  apply bind_ok_inv in H as (st1 & w1 & Hcodes & H).
  apply bind_ok_inv in H as (libs_tab & w2 & Htab & H).
  assert (w2 = w1) as ->.
  { destruct recursive; [now apply collect_libs_inv in Htab|].
    now apply ret_inv in Htab as [_ ->]. }
  apply bind_ok_inv in H as (st3 & w3 & Hlibs & H).
  apply ret_inv in H as [H ->].
  pose proof (f_equal snd H) as Hst3. cbn in Hst3. clear H.
  assert (filtered_inv blend w codes st1.2 w1) as HJ1.
  { revert Hcodes. unfold FilePathM.scan_codes.
    apply (foldM_inv (fun st s => filtered_inv blend w codes st.2 s)).
    - intros c st s st' s' _ HJ Hc.
      destruct (FilePathM.skipped_code c) eqn:Hskip;
        [now apply ret_inv in Hc as [-> ->]|].
      apply bind_ok_inv in Hc as (? & s1 & Hp & Hc). apply print_inv in Hp as ->.
      eapply (iter_filtered body blend basedir rootdir codes w Hbody Hw); [|exact Hc].
      apply filtered_event; [discriminate|exact HJ].
    - split; [intros b f _; reflexivity|constructor]. }
  unfold FilePathM.scan_libs in Hlibs.
  apply (iter_filtered body blend basedir rootdir codes w Hbody Hw) in Hlibs; [|exact HJ1].
  destruct Hlibs as [_ Hitems]. rewrite <- Hst3 in Hitems. exact Hitems.
Qed.

Lemma objs_no_pointer_to_paths : no_pointer_to_paths Samples5.objs_handle Samples5.objs_world.
Proof.
  intros b f a t Hf Hfield Hfind. unfold field_of, blendfile.stored in Hfield.
  cbn in Hfield.
  destruct (index b) as [|[|[|[|[|n]]]]]; cbn in Hfield;
    destruct Hf as [-> | ->]; vm_compute in Hfield; try discriminate Hfield.
  injection Hfield as <-. vm_compute in Hfind. injection Hfind as <-.
  split; discriminate.
Qed.

Lemma filtered_scan_yields_named_records_witness :
  writes_path_only (packer.pack_body "/dst")
  /\ no_pointer_to_paths Samples5.objs_handle Samples5.objs_world
  /\ FilePathM.scan_blend (logging (packer.pack_body "/dst")) 4 Samples5.objs_handle true
       (Some Samples5.objs_codes) (Some ∅) "/src" "/src" ([], mkPackVars [] [])
       Samples5.objs_world = Ok Samples5.objs_scanned
  /\ Forall (fun x : FilePath * bytes =>
               named_in Samples5.objs_handle Samples5.objs_world Samples5.objs_codes
                        (block x.1) = true)
            Samples5.objs_scanned.1.2.1.
Proof.
  assert (FilePathM.scan_blend (logging (packer.pack_body "/dst")) 4 Samples5.objs_handle
            true (Some Samples5.objs_codes) (Some ∅) "/src" "/src" ([], mkPackVars [] [])
            Samples5.objs_world = Ok Samples5.objs_scanned) as Hrun
    by (apply run_result_ok; vm_compute; reflexivity).
  split; [apply pack_body_writes_path_only|]. split; [exact objs_no_pointer_to_paths|].
  split; [exact Hrun|].
  destruct Samples5.objs_scanned as [[tab [em v]] w'].
  exact (filtered_scan_yields_named_records _ _ _ _ _ _ _ _ _ _ _ _ _ _
           (pack_body_writes_path_only "/dst") objs_no_pointer_to_paths Hrun).
Defined.
